(** * sg4danalyser: cache synchronisation, digit statistics, number filter
      and walk-forward backtest

    A shallow embedding of the Python modules [constants], [data_fetcher],
    [cache_manager], [analyzer], [filter], [utils] and [backtest], followed
    by the properties established about them.

    Conventions of the embedding.
    - A pandas DataFrame of draw results is the list of its rows, in frame
      order; the index column [Date] is a field of the row.
    - A [datetime]/[Timestamp] is an integer number of microseconds since the
      epoch, a [date] an integer number of days since the epoch.
    - A Python [str] is a [string]; a character is a code point below 256.
    - A Python [dict] whose iteration order is observed is an association
      list in insertion order; a [set] of strings is a [gset string].
    - Python numbers are read twice.  Module [Analyzer] computes with exact
      rationals [Q]: it says what the formulas denote, and is used where a
      property does not depend on rounding.  Module [Binary64] gives the
      same functions on IEEE binary64 values, as CPython computes them.
    - A call that can raise returns a [result]; [print] calls are omitted. *)

From Stdlib Require Import ZArith QArith Qabs Lia Lqa List Bool Ascii String.
From Stdlib Require Import Sorting.Sorted Permutation OrdersEx.
From Stdlib Require Floats Uint63.
From stdpp Require Import base option list sorting strings gmap pretty.

Open Scope Z_scope.

(** ** Python primitives *)

Module Py.

Inductive exn : Set :=
| IndexError
| KeyError
| ValueError
| ZeroDivisionError
| ConnectionError
| FileNotFoundError
| PermissionError.

Inductive result (A : Type) : Type :=
| Ok (a : A)
| Raise (e : exn).
Arguments Ok {A} a.
Arguments Raise {A} e.

Definition bind {A B} (r : result A) (k : A -> result B) : result B :=
  match r with
  | Ok a => k a
  | Raise e => Raise e
  end.

(** [sorted(l)] with the order given as a boolean [le]: Python's sort is
    stable, and so is this insertion sort (an element is placed before the
    elements to its right that it does not exceed). *)
Section Sorted.
Context {A : Type} (le : A -> A -> bool).

Fixpoint insert_sorted (x : A) (l : list A) : list A :=
  match l with
  | [] => [x]
  | y :: l' => if le x y then x :: l else y :: insert_sorted x l'
  end.

Definition sorted (l : list A) : list A := foldr insert_sorted [] l.
End Sorted.

(** Comparison of [str] values: lexicographic on code points. *)
Definition str_le (a b : string) : bool :=
  match String_as_OT.compare a b with
  | Gt => false
  | _ => true
  end.

Definition sorted_str : list string -> list string := sorted str_le.

(** [x in l] for a list of strings. *)
Definition str_in (x : string) (l : list string) : bool :=
  existsb (String.eqb x) l.

(** [c.isspace()] on a code point below 256: TAB..CR, FS..US, space, NEL
    and the no-break space. *)
Definition isspace (c : ascii) : bool :=
  let n := N_of_ascii c in
  (((9 <=? n) && (n <=? 13)) || ((28 <=? n) && (n <=? 32))
   || (n =? 133) || (n =? 160))%N.

(** [c.isdigit()] on a code point below 256: the decimal digits and the
    superscripts two, three and one. *)
Definition isdigit (c : ascii) : bool :=
  let n := N_of_ascii c in
  (((48 <=? n) && (n <=? 57)) || (n =? 178) || (n =? 179) || (n =? 185))%N.

Fixpoint lstrip (s : string) : string :=
  match s with
  | EmptyString => EmptyString
  | String c s' => if isspace c then lstrip s' else s
  end.

Fixpoint rstrip (s : string) : string :=
  match s with
  | EmptyString => EmptyString
  | String c s' =>
      match rstrip s' with
      | EmptyString => if isspace c then EmptyString else String c EmptyString
      | t => String c t
      end
  end.

(** [s.strip()] *)
Definition strip (s : string) : string := lstrip (rstrip s).

(** [s[0]] *)
Definition getitem0 (s : string) : result ascii :=
  match s with
  | EmptyString => Raise IndexError
  | String c _ => Ok c
  end.

(** The one-character [str] made of [c]. *)
Definition chr (c : ascii) : string := String c EmptyString.

(** [l[:k]], with Python's reading of a negative bound. *)
Definition slice_to {A} (k : Z) (l : list A) : list A :=
  if 0 <=? k then take (Z.to_nat k) l
  else take (Z.to_nat (Z.of_nat (length l) + k)) l.

(** [sum(l)]: starts from 0 and adds from the left. *)
Definition sum (l : list Q) : Q := fold_left Qplus l 0%Q.

(** [a / b] on numbers. *)
Definition div (a b : Q) : result Q :=
  if Qeq_bool b 0 then Raise ZeroDivisionError else Ok (a / b)%Q.

(** An insertion-ordered [dict] with [str] keys. *)
Abbreviation dict V := (list (string * V)).

Section Dict.
Context {V : Type}.

(** [d.get(k)] *)
Fixpoint dict_get (k : string) (d : dict V) : option V :=
  match d with
  | [] => None
  | (k', v) :: d' => if String.eqb k k' then Some v else dict_get k d'
  end.

(** [d[k] = v]: overwrite in place, or append a new key. *)
Fixpoint dict_set (k : string) (v : V) (d : dict V) : dict V :=
  match d with
  | [] => [(k, v)]
  | (k', v') :: d' =>
      if String.eqb k k' then (k', v) :: d' else (k', v') :: dict_set k v d'
  end.

(** [d[k]] *)
Definition dict_getitem (k : string) (d : dict V) : result V :=
  match dict_get k d with
  | Some v => Ok v
  | None => Raise KeyError
  end.

Definition keys (d : dict V) : list string := map fst d.
Definition values (d : dict V) : list V := map snd d.
End Dict.

(** [[str(d) for d in range(10)]] *)
Definition DIGITS : list string :=
  ["0"; "1"; "2"; "3"; "4"; "5"; "6"; "7"; "8"; "9"]%string.

End Py.

Export Py.

(** ** constants.py *)

Module Constants.

Definition FD_FIRST_PRIZE_CLASS : string := "tdFirstPrize".
Definition FD_SECOND_PRIZE_CLASS : string := "tdSecondPrize".
Definition FD_THIRD_PRIZE_CLASS : string := "tdThirdPrize".
Definition FD_STARTER_PRIZE_CLASS : string := "tbodyStarterPrizes".
Definition FD_CONSOLATION_PRIZE_CLASS : string := "tbodyConsolationPrizes".

Definition TOP_3_PRIZE_TYPES : list string :=
  [FD_FIRST_PRIZE_CLASS; FD_SECOND_PRIZE_CLASS; FD_THIRD_PRIZE_CLASS].

Definition DEFAULT_PRIZE_WEIGHTS : list (string * Q) :=
  [(FD_FIRST_PRIZE_CLASS, 1%Q);
   (FD_SECOND_PRIZE_CLASS, 1%Q);
   (FD_THIRD_PRIZE_CLASS, 1%Q);
   (FD_STARTER_PRIZE_CLASS, (3 # 10)%Q);
   (FD_CONSOLATION_PRIZE_CLASS, (3 # 10)%Q)].

End Constants.

Export Constants.

(** ** The draw-result DataFrame *)

Module Frame.

(** One row: the index [Date] and the columns ['Prize Number'] and
    ['Prize Type']. *)
Record row : Set := Row {
  Date : Z;
  Prize_Number : string;
  Prize_Type : string
}.

Abbreviation DataFrame := (list row).

(** [df.empty] *)
Definition empty (df : DataFrame) : bool :=
  match df with
  | [] => true
  | _ => false
  end.

(** [df[df['Prize Type'].isin(types)]] *)
Definition isin_prize_types (types : list string) (df : DataFrame) : DataFrame :=
  List.filter (fun r => str_in (Prize_Type r) types) df.

(** [df['Prize Number']] *)
Definition prize_numbers (df : DataFrame) : list string :=
  map Prize_Number df.

(** [df['Prize Number'].value_counts()[num]], zero when absent. *)
Definition value_count (num : string) (df : DataFrame) : nat :=
  length (List.filter (String.eqb num) (prize_numbers df)).

End Frame.

Export Frame.

(** ** filter.py *)

Module Filter.

(** The four lists [filter_numbers_by_history] returns. *)
Record filter_result : Set := FilterResult {
  filtered_numbers : list string;
  appeared_in_6_months : list string;
  appeared_in_top3_1year : list string;
  appeared_multiple_1year : list string
}.

(** [sorted([num for num in s if num in t])] *)
Definition sorted_members (s t : gset string) : list string :=
  sorted_str (List.filter (fun num => bool_decide (num ∈ t)) (elements s)).

Definition filter_numbers_by_history
    (numbers : list string) (past_6_months_df past_1_year_df : DataFrame)
    : filter_result :=
  let numbers_set : gset string := list_to_set numbers in
  (* Step 1 *)
  let winning_numbers_6_months : gset string :=
    list_to_set (prize_numbers past_6_months_df) in
  let appeared_in_6_months := sorted_members numbers_set winning_numbers_6_months in
  let filtered_after_6_months := numbers_set ∖ winning_numbers_6_months in
  (* Step 2 *)
  let '(appeared_in_top3_1year, filtered_after_top3) :=
    if negb (empty past_1_year_df) then
      let top_3_prizes_df := isin_prize_types TOP_3_PRIZE_TYPES past_1_year_df in
      let top_3_numbers_1_year : gset string :=
        list_to_set (prize_numbers top_3_prizes_df) in
      (sorted_members filtered_after_6_months top_3_numbers_1_year,
       filtered_after_6_months ∖ top_3_numbers_1_year)
    else ([], filtered_after_6_months) in
  (* Step 3 *)
  let '(appeared_multiple_1year, filtered_numbers) :=
    if negb (empty past_1_year_df) then
      let numbers_appeared_multiple : gset string :=
        list_to_set
          (List.filter (fun num => (1 <? value_count num past_1_year_df)%nat)
                       (prize_numbers past_1_year_df)) in
      (sorted_members filtered_after_top3 numbers_appeared_multiple,
       filtered_after_top3 ∖ numbers_appeared_multiple)
    else ([], filtered_after_top3) in
  FilterResult (sorted_str (elements filtered_numbers))
               appeared_in_6_months appeared_in_top3_1year appeared_multiple_1year.

End Filter.

(** ** analyzer.py *)

Module Analyzer.

(** The loop of [extract_first_digits] over the ['Prize Number'] column. *)
Fixpoint extract_loop (nums : list string) (first_digits : list string)
    : result (list string) :=
  match nums with
  | [] => Ok first_digits
  | prize_num :: rest =>
      if (1 <=? String.length prize_num)%nat then
        match getitem0 (strip prize_num) with
        | Raise e => Raise e
        | Ok first_digit =>
            if isdigit first_digit
            then extract_loop rest (first_digits ++ [chr first_digit])
            else extract_loop rest first_digits
        end
      else extract_loop rest first_digits
  end.

Definition extract_first_digits (df : DataFrame) (prize_types : option (list string))
    : result (list string) :=
  let filtered_df :=
    match prize_types with
    | None => df
    | Some types => isin_prize_types types df
    end in
  extract_loop (prize_numbers filtered_df) [].

(** The body of the loop of [count_digits]. *)
Definition count_step (digit_counts : dict Q) (digit : string) : dict Q :=
  match dict_get digit digit_counts with
  | Some c => dict_set digit (c + 1)%Q digit_counts
  | None => digit_counts
  end.

Definition count_digits (first_digits : list string) : dict Q :=
  let digit_counts : dict Q := map (fun d => (d, 0%Q)) DIGITS in
  fold_left count_step first_digits digit_counts.

(** The loop of [analyze_first_digit_weighted] over the rows, adding without
    rounding; [Binary64.weighted_loop] adds as the code does. *)
Fixpoint weighted_loop (weights : dict Q) (rows : DataFrame) (weighted_counts : dict Q)
    : result (dict Q) :=
  match rows with
  | [] => Ok weighted_counts
  | r :: rest =>
      let prize_type := Prize_Type r in
      let prize_num := strip (Prize_Number r) in
      match prize_num with
      | String c _ =>
          if isdigit c then
            let first_digit := chr c in
            let weight := default 1%Q (dict_get prize_type weights) in
            match dict_getitem first_digit weighted_counts with
            | Raise e => Raise e
            | Ok w =>
                weighted_loop weights rest
                  (dict_set first_digit (w + weight)%Q weighted_counts)
            end
          else weighted_loop weights rest weighted_counts
      | EmptyString => weighted_loop weights rest weighted_counts
      end
  end.

Definition analyze_first_digit_weighted (df : DataFrame) (weights : option (dict Q))
    : result (dict Q) :=
  let weights := default DEFAULT_PRIZE_WEIGHTS weights in
  weighted_loop weights df (map (fun d => (d, 0%Q)) DIGITS).

Definition analyze_first_digit_by_prize_type
    (df : DataFrame) (prize_types : option (list string)) : result (dict Q) :=
  bind (extract_first_digits df prize_types) (fun first_digits =>
  Ok (count_digits first_digits)).

Definition analyze_first_digit_top3_prizes (df : DataFrame) : result (dict Q) :=
  analyze_first_digit_by_prize_type df (Some TOP_3_PRIZE_TYPES).

Definition analyze_first_digit_all_prizes (df : DataFrame) : result (dict Q) :=
  analyze_first_digit_by_prize_type df None.

(** The loop of [bayesian_smoothing] filling [probabilities], dividing
    without rounding; [Binary64.smoothing_loop] divides as the code does. *)
Fixpoint smoothing_loop (alpha denominator : Q) (items : dict Q) (probabilities : dict Q)
    : result (dict Q) :=
  match items with
  | [] => Ok probabilities
  | (digit, c) :: rest =>
      match div (c + alpha) denominator with
      | Raise e => Raise e
      | Ok p => smoothing_loop alpha denominator rest (dict_set digit p probabilities)
      end
  end.

Definition bayesian_smoothing (digit_counts : dict Q) (alpha : Q) : result (dict Q) :=
  let total_count := sum (values digit_counts) in
  let n_digits := inject_Z (Z.of_nat (length digit_counts)) in
  let denominator := (total_count + n_digits * alpha)%Q in
  smoothing_loop alpha denominator digit_counts [].

(** The dictionary [chi_square_test_uniform] returns; the two lists are
    absent in the degenerate case. *)
Record chi2_result : Set := Chi2Result {
  chi2 : Q;
  pvalue : Q;
  is_uniform : bool;
  expected_per_digit : Q;
  degrees_of_freedom : Z;
  observed : option (list Q);
  expected : option (list Q)
}.

Section ChiSquare.
(** [scipy.stats.chisquare(observed, expected)]: statistic and p-value. *)
Variable chisquare : list Q -> list Q -> Q * Q.

Definition chi_square_test_uniform (digit_counts : dict Q) : chi2_result :=
  let observed := map (fun d => default 0%Q (dict_get d digit_counts)) DIGITS in
  let total := sum observed in
  let expected_per_digit :=
    if negb (Qle_bool total 0) then (total / 10)%Q else 0%Q in
  if Qeq_bool total 0 then Chi2Result 0 1 true 0 9 None None
  else
    let expected := replicate 10 expected_per_digit in
    let '(chi2, pvalue) := chisquare observed expected in
    let is_uniform := negb (Qle_bool pvalue (5 # 100)) in
    Chi2Result chi2 pvalue is_uniform expected_per_digit 9
               (Some observed) (Some expected).
End ChiSquare.

Definition select_digits_by_probability (probabilities : dict Q) (top_k : Z)
    : list string :=
  let sorted_digits :=
    sorted (fun x y => Qle_bool (snd y) (snd x)) probabilities in
  map fst (slice_to top_k sorted_digits).

(** [[digit for digit, count in digit_counts.items() if count <= threshold]] *)
Definition at_most (threshold : Q) (digit_counts : dict Q) : list string :=
  map fst (List.filter (fun item => Qle_bool (snd item) threshold) digit_counts).

(** The part of [select_low_occurrence_digits] after the threshold is set. *)
Definition select_with_threshold (digit_counts : dict Q) (min_count_threshold : Q)
    : list string :=
  let selected_digits := at_most min_count_threshold digit_counts in
  let selected_digits :=
    match selected_digits with
    | [] =>
        let sorted_digits :=
          sorted (fun x y => Qle_bool (snd x) (snd y)) digit_counts in
        let num_to_select := Nat.max 1 (length digit_counts / 2) in
        map fst (take num_to_select sorted_digits)
    | _ => selected_digits
    end in
  sorted_str selected_digits.

(** The mean is computed without rounding here, and as the code computes
    it in [Binary64.select_low_occurrence_digits]. *)
Definition select_low_occurrence_digits
    (digit_counts : dict Q) (min_count_threshold : option Q) : result (list string) :=
  match min_count_threshold with
  | None =>
      let total_counts := sum (values digit_counts) in
      if Qeq_bool total_counts 0 then Ok DIGITS
      else
        bind (div total_counts (inject_Z (Z.of_nat (length digit_counts))))
             (fun avg_count => Ok (select_with_threshold digit_counts avg_count))
  | Some threshold => Ok (select_with_threshold digit_counts threshold)
  end.

Definition select_digits_priority_zero (digit_counts : dict Q) : result (list string) :=
  let zero_occurrence_digits :=
    map fst (List.filter (fun item => Qeq_bool (snd item) 0) digit_counts) in
  match zero_occurrence_digits with
  | [] => select_low_occurrence_digits digit_counts None
  | _ => Ok (sorted_str zero_occurrence_digits)
  end.

Definition select_digits_lowest_occurrence (digit_counts : dict Q) : list string :=
  match values digit_counts with
  | [] => []
  | v :: vs =>
      let min_count := fold_left (fun m x => if Qle_bool m x then m else x) vs v in
      sorted_str
        (map fst (List.filter (fun item => Qeq_bool (snd item) min_count) digit_counts))
  end.

End Analyzer.

Export Analyzer.

(** ** The environment of the fetch: remote site, cache files *)

Module World.

(** What the result page of one draw holds, as [fetch_fd_results] reads it. *)
Inductive page : Set :=
| PageError
(** the request or the parsing of the draw date raises *)
| PageNoDate
(** no element of class [drawDate] *)
| PageDraw (fd_result_dt : Z)
       (first_prize second_prize third_prize : option string)
       (starter_prizes consolation_prizes : list string).
(** a dated draw; [None] for a top-3 prize whose element is missing *)

Record network : Set := Network {
  draw_list : result (list string);
(** the [sppl] ids of the draw list, newest first, or the failure of
    the draw-list request *)
result_page : string -> page
}.

Inductive request : Set :=
| GetDrawList
| GetResult (fd_sppl_id : string).

(** Content of a cache file. *)
Inductive file : Set :=
| Unreadable
| Pickle (dataframe : DataFrame) (last_date : Z).

Record world : Type := MkWorld {
  net : network;
  requests : list request;   (** the upstream requests issued so far *)
  fs : gmap string file;
  fs_writable : bool;        (** whether writing a cache file succeeds *)
  denied_dirs : gset string  (** the directories that can neither be found
                                 nor created *)
}.

Definition issue (rq : request) (w : world) : world :=
  MkWorld (net w) (requests w ++ [rq]) (fs w) (fs_writable w) (denied_dirs w).

Definition write_file (path : string) (f : file) (w : world) : world :=
  MkWorld (net w) (requests w) (<[path := f]> (fs w)) (fs_writable w) (denied_dirs w).

(** The part of a path up to and including its last slash, if it has one. *)
Fixpoint up_to_last_slash (p : string) : option string :=
  match p with
  | EmptyString => None
  | String c p' =>
      match up_to_last_slash p' with
      | Some head => Some (String c head)
      | None => if Ascii.eqb c "/" then Some (String c EmptyString) else None
      end
  end.

(** [head.rstrip('/')] *)
Fixpoint rstrip_slashes (s : string) : string :=
  match s with
  | EmptyString => EmptyString
  | String c s' =>
      match rstrip_slashes s' with
      | EmptyString => if Ascii.eqb c "/" then EmptyString else String c EmptyString
      | t => String c t
      end
  end.

(** [os.path.dirname(p)] on a POSIX system: what precedes the last slash,
    without its trailing slashes unless it is made of slashes only. *)
Definition dirname (p : string) : string :=
  match up_to_last_slash p with
  | None => EmptyString
  | Some head =>
      match rstrip_slashes head with
      | EmptyString => head
      | stripped => stripped
      end
  end.

(** [os.makedirs(name, exist_ok=True)]: the empty name is not a directory,
    and a directory that exists is left alone.  The directories themselves
    are not part of the state: a cache file is written or not according to
    [fs_writable]. *)
Definition makedirs (name : string) (w : world) : result unit :=
  if String.eqb name EmptyString then Raise FileNotFoundError
  else if bool_decide (name ∈ denied_dirs w) then Raise PermissionError
  else Ok tt.

End World.

Export World.

(** ** data_fetcher.py *)

Module DataFetcher.

(** The loop of [fetch_fd_results] over the draw list. *)
Fixpoint fetch_loop (date_from date_to : Z) (fd_sppl_ids : list string)
    (fd_result_list : list row) (w : world) : list row * world :=
  match fd_sppl_ids with
  | [] => (fd_result_list, w)
  | fd_sppl_id :: rest =>
      let w := issue (GetResult fd_sppl_id) w in
      match result_page (net w) fd_sppl_id with
      | PageError => fetch_loop date_from date_to rest fd_result_list w
      | PageNoDate => fetch_loop date_from date_to rest fd_result_list w
      | PageDraw fd_result_dt first second third starters consolations =>
          if fd_result_dt <? date_from then (fd_result_list, w)
          else if (date_from <=? fd_result_dt) && (fd_result_dt <=? date_to) then
            match first, second, third with
            | Some p1, Some p2, Some p3 =>
                fetch_loop date_from date_to rest
                  (fd_result_list
                     ++ [Row fd_result_dt p1 FD_FIRST_PRIZE_CLASS;
                         Row fd_result_dt p2 FD_SECOND_PRIZE_CLASS;
                         Row fd_result_dt p3 FD_THIRD_PRIZE_CLASS]
                     ++ map (fun n => Row fd_result_dt n FD_STARTER_PRIZE_CLASS) starters
                     ++ map (fun n => Row fd_result_dt n FD_CONSOLATION_PRIZE_CLASS)
                            consolations)
                  w
            | _, _, _ => fetch_loop date_from date_to rest fd_result_list w
            end
          else fetch_loop date_from date_to rest fd_result_list w
      end
  end.

Definition fetch_fd_results (date_from date_to : Z) (w : world)
    : result DataFrame * world :=
  let w := issue GetDrawList w in
  match draw_list (net w) with
  | Raise e => (Raise e, w)
  | Ok fd_sppl_ids =>
      let '(fd_result_list, w) := fetch_loop date_from date_to fd_sppl_ids [] w in
      (Ok fd_result_list, w)
  end.

End DataFetcher.

Export DataFetcher.

(** ** cache_manager.py *)

Module CacheManager.

Definition usec_per_day : Z := 86400000000.

(** [t.date()] *)
Definition date (t : Z) : Z := t / usec_per_day.

(** [pd.Timestamp(d)] for a date [d]: its midnight. *)
Definition Timestamp (d : Z) : Z := d * usec_per_day.

Definition load_cache (cache_file : string) (w : world) : option (DataFrame * Z) :=
  match fs w !! cache_file with
  | Some (Pickle df last_date) =>
      if negb (empty df) then Some (df, last_date) else None
  | Some Unreadable => None
  | None => None
  end.

(** [os.makedirs] is called before the [try]: what it raises leaves
    [save_cache]; a failure to write the file is caught and printed. *)
Definition save_cache (cache_file : string) (df : DataFrame) (last_date : Z)
    (w : world) : result unit * world :=
  match makedirs (dirname cache_file) w with
  | Raise e => (Raise e, w)
  | Ok _ =>
      (Ok tt,
       if fs_writable w then write_file cache_file (Pickle df last_date) w else w)
  end.

(** [df.index.max()]; 0 stands for the missing value of an empty frame. *)
Definition index_max (df : DataFrame) : Z :=
  match df with
  | [] => 0
  | r :: rest => fold_left Z.max (map Date rest) (Date r)
  end.

(** [df[(df.index >= date_from) & (df.index <= date_to)]] *)
Definition between (date_from date_to : Z) (df : DataFrame) : DataFrame :=
  List.filter (fun r => (date_from <=? Date r) && (Date r <=? date_to)) df.

(** [df[~df.index.duplicated(keep='last')]]: a row stays when no later row
    has its index value. *)
Fixpoint drop_index_duplicates_keep_last (df : DataFrame) : DataFrame :=
  match df with
  | [] => []
  | r :: rest =>
      if existsb (fun r' => Date r' =? Date r) rest
      then drop_index_duplicates_keep_last rest
      else r :: drop_index_duplicates_keep_last rest
  end.

(** [df.sort_index()] *)
Definition sort_index (df : DataFrame) : DataFrame :=
  sorted (fun r r' => Date r <=? Date r') df.

(** The merge of a stale cache with newly fetched rows. *)
Definition combine (cached_df new_df : DataFrame) : DataFrame :=
  sort_index (drop_index_duplicates_keep_last (cached_df ++ new_df)).

(** [now] is the reading of [datetime.now()] at the call; [cache_label],
    which is only printed, is left out. *)
Definition fetch_with_cache (now date_from date_to : Z) (cache_file : string)
    (w : world) : result DataFrame * world :=
  let today := date now in
  match load_cache cache_file w with
  | Some (cached_df, cached_last_date) =>
      let max_cached_date := date (index_max cached_df) in
      if today <=? max_cached_date then
        (Ok (between date_from date_to cached_df), w)
      else
        let fetch_from := max_cached_date + 1 in
        let fetch_from :=
          if fetch_from <? date date_from then date date_from else fetch_from in
        match fetch_fd_results (Timestamp fetch_from) date_to w with
        | (Raise e, w) => (Raise e, w)
        | (Ok new_df, w) =>
            if negb (empty new_df) then
              let combined_df := combine cached_df new_df in
              let new_max_date := date (index_max combined_df) in
              match save_cache cache_file combined_df new_max_date w with
              | (Raise e, w) => (Raise e, w)
              | (Ok _, w) => (Ok (between date_from date_to combined_df), w)
              end
            else (Ok (between date_from date_to cached_df), w)
        end
  | None =>
      match fetch_fd_results date_from date_to w with
      | (Raise e, w) => (Raise e, w)
      | (Ok df, w) =>
          if negb (empty df) then
            let max_date := date (index_max df) in
            match save_cache cache_file df max_date w with
            | (Raise e, w) => (Raise e, w)
            | (Ok _, w) => (Ok df, w)
            end
          else (Ok df, w)
      end
  end.

End CacheManager.

Export CacheManager.

(** ** backtest.py *)

Module Backtest.

Record accuracy_cell : Set := AccuracyCell {
  correct : nat;
  total : nat;
  rate : option Q
}.

Record chi2_tally : Set := Chi2Tally {
  uniform : nat;
  non_uniform : nat;
  chi2_total : nat
}.

Record window_result : Type := WindowResult {
  window_size : nat;
  total_tests : nat;
  accuracy : gmap Z accuracy_cell;
  chi2_tests : chi2_tally
}.

(** [index.unique()]: the distinct values, in order of first appearance. *)
Fixpoint unique_from (seen : list Z) (l : list Z) : list Z :=
  match l with
  | [] => []
  | x :: l' =>
      if existsb (Z.eqb x) seen then unique_from seen l'
      else x :: unique_from (x :: seen) l'
  end.

(** [df.index.unique().sort_values()] *)
Definition unique_dates_of (df : DataFrame) : list Z :=
  sorted Z.leb (unique_from [] (map Date df)).

(** [max(l)] *)
Definition max_of (l : list nat) : result nat :=
  match l with
  | [] => Raise ValueError
  | x :: l' => Ok (fold_left Nat.max l' x)
  end.

(** [cell['total'] += 1], and [cell['correct'] += 1] on a hit. *)
Definition record_prediction (hit : bool) (c : accuracy_cell) : accuracy_cell :=
  AccuracyCell (if hit then S (correct c) else correct c) (S (total c)) (rate c).

(** [cell['rate'] = cell['correct'] / cell['total']] when the total is positive. *)
Definition set_rate (c : accuracy_cell) : accuracy_cell :=
  if (0 <? total c)%nat
  then AccuracyCell (correct c) (total c)
         (Some (inject_Z (Z.of_nat (correct c)) / inject_Z (Z.of_nat (total c)))%Q)
  else c.

Section WalkForward.
(** [scipy.stats.chisquare], as in [chi_square_test_uniform]. *)
Variable chisquare : list Q -> list Q -> Q * Q.

(** One iteration of the walk-forward loop, at test index [i]. *)
Definition backtest_step (df : DataFrame) (unique_dates : list Z)
    (top_k_list : list Z) (weights : dict Q) (alpha : Q)
    (window : nat) (i : nat) (window_results : window_result)
    : result window_result :=
  match unique_dates !! i with
  | None => Raise IndexError
  | Some test_date =>
      let train_dates := take window (drop (i - window)%nat unique_dates) in
      let train_df :=
        List.filter (fun r => existsb (Z.eqb (Date r)) train_dates) df in
      let test_df := List.filter (fun r => Date r =? test_date) df in
      let first_prize_df :=
        List.filter (fun r => String.eqb (Prize_Type r) FD_FIRST_PRIZE_CLASS) test_df in
      match first_prize_df with
      | [] => Ok window_results
      | first_row :: _ =>
          bind (getitem0 (strip (Prize_Number first_row))) (fun actual_first_digit =>
          if negb (isdigit actual_first_digit) then Ok window_results
          else
            bind (analyze_first_digit_weighted train_df (Some weights))
                 (fun weighted_counts =>
            bind (bayesian_smoothing weighted_counts alpha) (fun probabilities =>
            let chi2_result := chi_square_test_uniform chisquare weighted_counts in
            let t := chi2_tests window_results in
            let t :=
              if is_uniform chi2_result
              then Chi2Tally (S (uniform t)) (non_uniform t) (S (chi2_total t))
              else Chi2Tally (uniform t) (S (non_uniform t)) (S (chi2_total t)) in
            let acc :=
              fold_left
                (fun acc top_k =>
                   let predicted_digits :=
                     select_digits_by_probability probabilities top_k in
                   alter (record_prediction
                            (str_in (chr actual_first_digit) predicted_digits))
                         top_k acc)
                top_k_list (accuracy window_results) in
            Ok (WindowResult (window_size window_results)
                             (total_tests window_results) acc t))))
      end
  end.

(** [for i in range(window_size, len(unique_dates))] *)
Fixpoint backtest_loop (step : nat -> window_result -> result window_result)
    (indices : list nat) (window_results : window_result) : result window_result :=
  match indices with
  | [] => Ok window_results
  | i :: rest =>
      match step i window_results with
      | Raise e => Raise e
      | Ok window_results => backtest_loop step rest window_results
      end
  end.

Definition backtest_window (df : DataFrame) (unique_dates : list Z)
    (top_k_list : list Z) (weights : dict Q) (alpha : Q) (window : nat)
    : result window_result :=
  let window_results :=
    WindowResult window 0
      (list_to_map (map (fun k => (k, AccuracyCell 0 0 None)) top_k_list))
      (Chi2Tally 0 0 0) in
  bind (backtest_loop
          (backtest_step df unique_dates top_k_list weights alpha window)
          (seq window (length unique_dates - window))
          window_results)
       (fun window_results =>
  let acc :=
    fold_left (fun acc top_k => alter set_rate top_k acc)
              top_k_list (accuracy window_results) in
  Ok (WindowResult (window_size window_results) (total_tests window_results)
                   acc (chi2_tests window_results))).

(** [for window_size in window_sizes: ... results[window_size] = ...] *)
Fixpoint backtest_windows (run : nat -> result window_result)
    (window_sizes : list nat) (results : gmap nat window_result)
    : result (gmap nat window_result) :=
  match window_sizes with
  | [] => Ok results
  | window :: rest =>
      match run window with
      | Raise e => Raise e
      | Ok window_results =>
          backtest_windows run rest (<[window := window_results]> results)
      end
  end.

(** Window sizes are numbers of draws, hence natural numbers; a [top_k] is
    any integer, read by the slice [[:top_k]]. *)
Definition backtest_digit_prediction (df : DataFrame) (window_sizes : list nat)
    (top_k_list : list Z) (weights : option (dict Q)) (alpha : Q)
    : result (gmap nat window_result) :=
  let weights := default DEFAULT_PRIZE_WEIGHTS weights in
  let unique_dates := unique_dates_of df in
  bind (max_of window_sizes) (fun max_window =>
  if (length unique_dates <? max_window + 10)%nat then Ok ∅
  else
    backtest_windows
      (backtest_window df unique_dates top_k_list weights alpha)
      window_sizes ∅).
End WalkForward.

End Backtest.

(** ** Notions used to state the properties *)

Module Notions.

(** The order on [str] that [sorted] uses, as a relation. *)
Definition str_lt (a b : string) : Prop := String_as_OT.lt a b.

(** [num] is the prize number of some row of the history. *)
Definition in_history (num : string) (df : DataFrame) : Prop :=
  ∃ r, r ∈ df ∧ Prize_Number r = num.

(** [num] is the prize number of some Top-3 row of the history. *)
Definition in_top3 (num : string) (df : DataFrame) : Prop :=
  ∃ r, r ∈ df ∧ Prize_Number r = num ∧ Prize_Type r ∈ TOP_3_PRIZE_TYPES.

(** Number of rows of the history whose prize number is [num]. *)
Definition occurrences (num : string) (df : DataFrame) : nat :=
  count_occ string_dec (prize_numbers df) num.

(** One of the ten characters "0".."9". *)
Definition is_decimal (c : ascii) : bool :=
  let n := N_of_ascii c in ((48 <=? n) && (n <=? 57))%N.

(** A well-formed prize string: exactly four decimal digits. *)
Definition well_formed_prize (s : string) : bool :=
  (String.length s =? 4)%nat && forallb is_decimal (list_ascii_of_string s).

(** The prize string, stripped of surrounding whitespace, starts with [c]. *)
Definition leading_char_is (c : ascii) (s : string) : bool :=
  match strip s with
  | String c' _ => Ascii.eqb c' c
  | EmptyString => false
  end.

(** The rows [extract_first_digits] goes through. *)
Definition selected_rows (df : DataFrame) (prize_types : option (list string))
    : DataFrame :=
  match prize_types with
  | None => df
  | Some types => isin_prize_types types df
  end.

(** The first digits one prize string contributes to [first_digits]. *)
Definition first_digit_of (prize_num : string) : list string :=
  match strip prize_num with
  | String c _ => if isdigit c then [chr c] else []
  | EmptyString => []
  end.

(** Number of occurrences of [x] in a list of strings. *)
Definition count_str (x : string) (l : list string) : nat :=
  length (List.filter (String.eqb x) l).

(** The smoothed value of one item of a digit-count mapping. *)
Definition smoothed (alpha denominator : Q) (item : string * Q) : string * Q :=
  (item.1, ((item.2 + alpha) / denominator)%Q).

(** The rows a cache file yields when loaded, none when it is absent,
    unreadable or empty. *)
Definition cached_rows (cache_file : string) (w : world) : DataFrame :=
  match load_cache cache_file w with
  | Some (df, _) => df
  | None => []
  end.

(** The lower bound of the range [fetch_with_cache] asks the site for when
    the cache is not up to date: the day after the cached watermark, or the
    day of [date_from] if that is later; [date_from] itself without a
    cache. *)
Definition fetch_start (date_from : Z) (cache_file : string) (w : world) : Z :=
  match load_cache cache_file w with
  | Some (df, _) => Timestamp (Z.max (date (index_max df) + 1) (date date_from))
  | None => date_from
  end.

(** The upstream fetch returns nothing, whatever the range asked for. *)
Definition upstream_returns_nothing (w : world) : Prop :=
  ∀ date_from date_to, (fetch_fd_results date_from date_to w).1 = Ok [].

(** The logical key of each row of a frame: its date, its prize category
    and its position among the rows of the frame with that date and
    category. *)
Fixpoint logical_keys_from (seen : list (Z * string)) (df : DataFrame)
    : list (Z * string * nat) :=
  match df with
  | [] => []
  | r :: rest =>
      let k := (Date r, Prize_Type r) in
      (Date r, Prize_Type r, length (List.filter (fun k' => bool_decide (k' = k)) seen))
        :: logical_keys_from (k :: seen) rest
  end.

Definition logical_keys (df : DataFrame) : list (Z * string * nat) :=
  logical_keys_from [] df.

(** The set of the draw dates of a frame. *)
Definition draw_dates (df : DataFrame) : gset Z := list_to_set (map Date df).

End Notions.

Export Notions.

(** ** Worlds used as examples *)

Module Scenarios.

(** A cache holding the three top prizes of the draw of day 10. *)
Definition stale_cache : DataFrame :=
  [Row (Timestamp 10) "1111" FD_FIRST_PRIZE_CLASS;
   Row (Timestamp 10) "2222" FD_SECOND_PRIZE_CLASS;
   Row (Timestamp 10) "3333" FD_THIRD_PRIZE_CLASS].

(** The rows of the draw of day 13 as [fetch_fd_results] builds them. *)
Definition new_rows : DataFrame :=
  [Row (Timestamp 13) "4444" FD_FIRST_PRIZE_CLASS;
   Row (Timestamp 13) "5555" FD_SECOND_PRIZE_CLASS;
   Row (Timestamp 13) "6666" FD_THIRD_PRIZE_CLASS;
   Row (Timestamp 13) "7777" FD_STARTER_PRIZE_CLASS;
   Row (Timestamp 13) "8888" FD_CONSOLATION_PRIZE_CLASS].

(** A site listing the draws of day 13 and day 10, newest first. *)
Definition site : network :=
  Network (Ok ["5120"; "5119"])
    (fun fd_sppl_id =>
       if String.eqb fd_sppl_id "5120" then
         PageDraw (Timestamp 13) (Some "4444") (Some "5555") (Some "6666")
                  ["7777"] ["8888"]
       else if String.eqb fd_sppl_id "5119" then
         PageDraw (Timestamp 10) (Some "1111") (Some "2222") (Some "3333") [] []
       else PageError).

(** A site whose draw-list request fails. *)
Definition unreachable_site : network :=
  Network (Raise ConnectionError) (fun _ => PageError).

(** A site whose draw list is served but whose result pages all fail. *)
Definition failing_pages_site : network :=
  Network (Ok ["5120"; "5119"]) (fun _ => PageError).

Definition cache_file : string := "cache/fd_results_1year.pkl".

(** The world on day 14: the cache stops at day 10. *)
Definition stale_world (n : network) : world :=
  MkWorld n [] {[cache_file := Pickle stale_cache 10]} true ∅.

(** The world before the first run: no cache file. *)
Definition fresh_world (n : network) : world :=
  MkWorld n [] ∅ true ∅.

End Scenarios.

Export Scenarios.

(** ** Python integers and their text (second part of the primitives) *)

Module PyNum.

(** The digits of an integer literal after its sign: decimal digits, with
    single underscores between digits.  [after_digit] tells whether the
    previous character was a digit. *)
Fixpoint int_digits (acc : Z) (after_digit : bool) (s : string) : option Z :=
  match s with
  | EmptyString => if after_digit then Some acc else None
  | String c rest =>
      if is_decimal c
      then int_digits (10 * acc + (Z.of_N (N_of_ascii c) - 48)) true rest
      else if Ascii.eqb c "_" && after_digit then int_digits acc false rest
      else None
  end.

(** The whitespace [int] skips around a literal, on code points below 256:
    TAB..CR, space, NEL and the no-break space.  Unlike [str.strip], it does
    not skip the separators FS..US. *)
Definition int_isspace (c : ascii) : bool :=
  let n := N_of_ascii c in
  (((9 <=? n) && (n <=? 13)) || (n =? 32) || (n =? 133) || (n =? 160))%N.

Fixpoint int_lstrip (s : string) : string :=
  match s with
  | EmptyString => EmptyString
  | String c s' => if int_isspace c then int_lstrip s' else s
  end.

Fixpoint int_rstrip (s : string) : string :=
  match s with
  | EmptyString => EmptyString
  | String c s' =>
      match int_rstrip s' with
      | EmptyString => if int_isspace c then EmptyString else String c EmptyString
      | t => String c t
      end
  end.

(** [int(s)] for a [str]: surrounding whitespace is dropped and a sign is
    allowed. *)
Definition int (s : string) : result Z :=
  let parsed :=
    match int_lstrip (int_rstrip s) with
    | String "+" rest => int_digits 0 false rest
    | String "-" rest => Z.opp <$> int_digits 0 false rest
    | t => int_digits 0 false t
    end in
  match parsed with
  | Some n => Ok n
  | None => Raise ValueError
  end.

(** [str(n)] for an [int]. *)
Definition str (n : Z) : string := pretty n.

(** [s.zfill(width)]: zeros are inserted after a leading sign. *)
Definition zfill (width : nat) (s : string) : string :=
  let fill := (width - String.length s)%nat in
  match fill with
  | O => s
  | _ =>
      let zeros := string_of_list_ascii (replicate fill "0"%char) in
      match s with
      | String c rest =>
          if Ascii.eqb c "+" || Ascii.eqb c "-"
          then String c (zeros +:+ rest)
          else zeros +:+ s
      | EmptyString => zeros
      end
  end.

(** [range(a, b)] *)
Definition range (a b : Z) : list Z := seqZ a (b - a).

End PyNum.

Export PyNum.

(** ** filter.py: the candidate numbers of the selected digits *)

Module Generate.

(** The inner loop of [generate_numbers_from_first_digits]. *)
Definition add_numbers (nums : list Z) (generated_numbers : gset string) : gset string :=
  fold_left (fun generated_numbers num => generated_numbers ∪ {[zfill 4 (str num)]})
            nums generated_numbers.

(** The outer loop, over [first_digits]. *)
Fixpoint generate_loop (first_digits : list string) (generated_numbers : gset string)
    : result (gset string) :=
  match first_digits with
  | [] => Ok generated_numbers
  | first_digit :: rest =>
      match int first_digit with
      | Raise e => Raise e
      | Ok n =>
          let start_num := n * 1000 in
          let end_num := start_num + 999 in
          generate_loop rest
            (add_numbers (range start_num (end_num + 1)) generated_numbers)
      end
  end.

Definition generate_numbers_from_first_digits (first_digits : list string)
    : result (gset string) :=
  generate_loop first_digits ∅.

End Generate.

Export Generate.

(** ** utils.py *)

Module Utils.

(** [df.index.unique().sort_values(ascending=False)[:n]], then the rows
    whose index is one of these dates. *)
Definition get_last_n_draws (df : DataFrame) (n : Z) : DataFrame :=
  if empty df then []
  else
    let unique_dates :=
      sorted (fun a b => b <=? a) (Backtest.unique_from [] (map Date df)) in
    let last_n_dates := slice_to n unique_dates in
    List.filter (fun r => existsb (Z.eqb (Date r)) last_n_dates) df.

End Utils.

Export Utils.

(** ** Further notions used in the statements *)

Module MoreNotions.

(** The ten decimal digit characters. *)
Definition DECIMALS : list ascii :=
  ["0"; "1"; "2"; "3"; "4"; "5"; "6"; "7"; "8"; "9"]%char.

(** The thousand strings of three decimal digits, in increasing order. *)
Definition three_digits : list string :=
  a1 ← DECIMALS; a2 ← DECIMALS; a3 ← DECIMALS;
  [String a1 (String a2 (String a3 EmptyString))].

(** The thousand four-character strings made of [c] and three decimal
    digits. *)
Definition numbers_with_first (c : ascii) : list string :=
  String c <$> three_digits.

(** The numbers generated for one digit string: those starting with its
    character. *)
Definition numbers_of_digit (d : string) : list string :=
  match d with
  | String c EmptyString => numbers_with_first c
  | _ => []
  end.

(** Number of distinct draw dates of the frame that are later than [t]. *)
Definition later_draws (t : Z) (df : DataFrame) : nat :=
  size (draw_dates (List.filter (fun r => t <? Date r) df)).

(** The distinct dates of a frame, latest first. *)
Definition dates_desc (df : DataFrame) : list Z :=
  sorted (fun a b => b <=? a) (Backtest.unique_from [] (map Date df)).

(** The five prize categories. *)
Definition PRIZE_TYPES : list string :=
  [FD_FIRST_PRIZE_CLASS; FD_SECOND_PRIZE_CLASS; FD_THIRD_PRIZE_CLASS;
   FD_STARTER_PRIZE_CLASS; FD_CONSOLATION_PRIZE_CLASS].

(** The result page of a draw dated before [date_from]. *)
Definition dated_before (date_from : Z) (p : page) : Prop :=
  match p with
  | PageDraw fd_result_dt _ _ _ _ _ => fd_result_dt < date_from
  | _ => False
  end.

(** The same world with another draw list on the site. *)
Definition with_draw_list (ids : list string) (w : world) : world :=
  MkWorld (Network (Ok ids) (result_page (net w))) (requests w) (fs w) (fs_writable w)
          (denied_dirs w).

(** The same world with the cache directory writable or not. *)
Definition with_writable (b : bool) (w : world) : world :=
  MkWorld (net w) (requests w) (fs w) b (denied_dirs w).

(** The weight [analyze_first_digit_weighted] gives a row. *)
Definition row_weight (weights : dict Q) (r : row) : Q :=
  default 1%Q (dict_get (Prize_Type r) weights).

(** The stripped prize string starts with a character that [isdigit]
    accepts and that is not one of "0".."9". *)
Definition odd_digit (prize_num : string) : bool :=
  match strip prize_num with
  | String c _ => isdigit c && negb (is_decimal c)
  | EmptyString => false
  end.

(** The rows whose stripped prize string starts with [c]. *)
Definition rows_leading (c : ascii) (df : DataFrame) : DataFrame :=
  List.filter (fun r => leading_char_is c (Prize_Number r)) df.

(** The prize string, stripped of surrounding whitespace, starts with one of
    "0".."9". *)
Definition digit_led (prize_num : string) : Prop :=
  ∃ c t, strip prize_num = String c t ∧ is_decimal c = true.

(** What holds of the results of a window after [n] test indices. *)
Definition window_invariant (top_k_list : list Z) (window : nat) (n : nat)
    (wr : Backtest.window_result) : Prop :=
  Backtest.window_size wr = window ∧
  Backtest.total_tests wr = 0%nat ∧
  (Backtest.uniform (Backtest.chi2_tests wr)
   + Backtest.non_uniform (Backtest.chi2_tests wr))%nat
    = Backtest.chi2_total (Backtest.chi2_tests wr) ∧
  (Backtest.chi2_total (Backtest.chi2_tests wr) ≤ n)%nat ∧
  ∀ k cell, Backtest.accuracy wr !! k = Some cell →
    k ∈ top_k_list ∧
    (Backtest.correct cell ≤ Backtest.total cell)%nat ∧
    Backtest.total cell
      = (Backtest.chi2_total (Backtest.chi2_tests wr)
         * count_occ Z.eq_dec top_k_list k)%nat ∧
    Backtest.rate cell = None.

(** Every prediction recorded for a [top_k] of ten or more was a hit. *)
Definition always_hit (wr : Backtest.window_result) : Prop :=
  ∀ k cell, Backtest.accuracy wr !! k = Some cell → 10 ≤ k →
    Backtest.correct cell = Backtest.total cell.

End MoreNotions.

Export MoreNotions.

(** ** Further concrete situations *)

Module MoreScenarios.

(** Two draws: the rows of day 10 followed by those of day 13. *)
Definition two_draws : DataFrame := stale_cache ++ new_rows.

(** Thirteen draws, one first prize each. *)
Definition history : DataFrame :=
  map (fun item : Z * string => Row (Timestamp item.1) item.2 FD_FIRST_PRIZE_CLASS)
      [(1, "1234"); (4, "2087"); (8, "1940"); (11, "7731"); (15, "0412");
       (18, "1659"); (22, "3308"); (25, "9121"); (29, "1470"); (32, "5586");
       (36, "2215"); (39, "1003"); (43, "6642")].

(** A chi-square routine that always answers statistic 0 and p-value 1. *)
Definition flat_chisquare (observed expected : list Q) : Q * Q := (0, 1)%Q.

(** The backtest of [history] over windows of 2 draws. *)
Definition history_results : gmap nat Backtest.window_result :=
  match Backtest.backtest_digit_prediction flat_chisquare history [2%nat] [1; 3; 10]
          None 1 with
  | Ok r => r
  | Raise _ => ∅
  end.

Definition history_window : Backtest.window_result :=
  default (Backtest.WindowResult 0 0 ∅ (Backtest.Chi2Tally 0 0 0))
          (history_results !! 2%nat).

Definition history_cell : Backtest.accuracy_cell :=
  default (Backtest.AccuracyCell 0 0 None) (Backtest.accuracy history_window !! 10).

End MoreScenarios.

Export MoreScenarios.

(** ** analyzer.py read with Python's [float]

    The functions of Module [Analyzer] that compute with counts, weights and
    probabilities, as CPython evaluates them: numbers are IEEE binary64
    values and every operation rounds.  An [int] count is the binary64 value
    equal to it (counts stay far below 2^53). *)

Module Binary64.
Import PrimFloat.

(** [float(n)] for a length [n]. *)
Definition of_nat (n : nat) : float := of_uint63 (Uint63.of_Z (Z.of_nat n)).

(** The number a binary64 value stands for; none for an infinity or a NaN. *)
Definition exact (x : float) : option Q :=
  match FloatOps.Prim2SF x with
  | SpecFloat.S754_zero _ => Some 0%Q
  | SpecFloat.S754_finite s m e =>
      Some ((if s then -1 else 1) * inject_Z (Zpos m) * Qpower 2 e)%Q
  | _ => None
  end.


(** [a / b]: a zero divisor, of either sign, raises. *)
Definition div (a b : float) : result float :=
  if eqb b 0 then Raise ZeroDivisionError else Ok (a / b)%float.

(** [a / n] for an [int] [n], here a length: [n] is converted and the
    division raises exactly when [n] is 0. *)
Definition div_int (a : float) (n : nat) : result float :=
  match n with
  | O => Raise ZeroDivisionError
  | _ => Ok (a / of_nat n)%float
  end.

(** How the builtin [sum] adds floats: one after the other up to CPython
    3.11, with a running compensation of the rounding errors (Neumaier's
    algorithm) from CPython 3.12. *)
Inductive summation : Set :=
| LeftToRight
| Compensated.

Definition sum_left (l : list float) : float := fold_left add l 0%float.

(** The loop of the compensated sum: [f_result] is the running sum and [c]
    the compensation, added at the end unless it is zero or not finite. *)
Fixpoint sum_loop (l : list float) (f_result c : float) : float :=
  match l with
  | [] => if negb (eqb c 0) && is_finite c then (f_result + c)%float else f_result
  | x :: l' =>
      let t := (f_result + x)%float in
      let c :=
        if leb (abs x) (abs f_result)
        then (c + ((f_result - t) + x))%float
        else (c + ((x - t) + f_result))%float in
      sum_loop l' t c
  end.

Definition sum_compensated (l : list float) : float :=
  match l with
  | [] => 0%float
  | x :: l' => sum_loop l' (0 + x)%float 0%float
  end.

(** [sum(l)] *)
Definition sum (s : summation) (l : list float) : float :=
  match s with
  | LeftToRight => sum_left l
  | Compensated => sum_compensated l
  end.

(** [DEFAULT_PRIZE_WEIGHTS]: 1.0 for the top three prizes and the binary64
    value nearest to 0.3 for the others. *)
Definition DEFAULT_PRIZE_WEIGHTS : dict float :=
  [(FD_FIRST_PRIZE_CLASS, 1%float);
   (FD_SECOND_PRIZE_CLASS, 1%float);
   (FD_THIRD_PRIZE_CLASS, 1%float);
   (FD_STARTER_PRIZE_CLASS, 0x1.3333333333333p-2%float);
   (FD_CONSOLATION_PRIZE_CLASS, 0x1.3333333333333p-2%float)].

(** The loop of [analyze_first_digit_weighted] over the rows. *)
Fixpoint weighted_loop (weights : dict float) (rows : DataFrame)
    (weighted_counts : dict float) : result (dict float) :=
  match rows with
  | [] => Ok weighted_counts
  | r :: rest =>
      let prize_type := Prize_Type r in
      let prize_num := strip (Prize_Number r) in
      match prize_num with
      | String c _ =>
          if isdigit c then
            let first_digit := chr c in
            let weight := default 1%float (dict_get prize_type weights) in
            match dict_getitem first_digit weighted_counts with
            | Raise e => Raise e
            | Ok w =>
                weighted_loop weights rest
                  (dict_set first_digit (w + weight)%float weighted_counts)
            end
          else weighted_loop weights rest weighted_counts
      | EmptyString => weighted_loop weights rest weighted_counts
      end
  end.

Definition analyze_first_digit_weighted (df : DataFrame) (weights : option (dict float))
    : result (dict float) :=
  let weights := default DEFAULT_PRIZE_WEIGHTS weights in
  weighted_loop weights df (map (fun d => (d, 0%float)) DIGITS).

(** The loop of [bayesian_smoothing] filling [probabilities]. *)
Fixpoint smoothing_loop (alpha denominator : float) (items : dict float)
    (probabilities : dict float) : result (dict float) :=
  match items with
  | [] => Ok probabilities
  | (digit, c) :: rest =>
      match div (c + alpha)%float denominator with
      | Raise e => Raise e
      | Ok p => smoothing_loop alpha denominator rest (dict_set digit p probabilities)
      end
  end.

Definition bayesian_smoothing (s : summation) (digit_counts : dict float) (alpha : float)
    : result (dict float) :=
  let total_count := sum s (values digit_counts) in
  let n_digits := length digit_counts in
  let denominator := (total_count + of_nat n_digits * alpha)%float in
  smoothing_loop alpha denominator digit_counts [].

(** [[digit for digit, count in digit_counts.items() if count <= threshold]] *)
Definition at_most (threshold : float) (digit_counts : dict float) : list string :=
  map fst (List.filter (fun item => leb (snd item) threshold) digit_counts).

(** The part of [select_low_occurrence_digits] after the threshold is set.
    The sort by count is the stable sort of counts that compare (no NaN). *)
Definition select_with_threshold (digit_counts : dict float) (min_count_threshold : float)
    : list string :=
  let selected_digits := at_most min_count_threshold digit_counts in
  let selected_digits :=
    match selected_digits with
    | [] =>
        let sorted_digits :=
          sorted (fun x y => leb (snd x) (snd y)) digit_counts in
        let num_to_select := Nat.max 1 (length digit_counts / 2) in
        map fst (take num_to_select sorted_digits)
    | _ => selected_digits
    end in
  sorted_str selected_digits.

Definition select_low_occurrence_digits (s : summation)
    (digit_counts : dict float) (min_count_threshold : option float)
    : result (list string) :=
  match min_count_threshold with
  | None =>
      let total_counts := sum s (values digit_counts) in
      if eqb total_counts 0 then Ok DIGITS
      else
        bind (div_int total_counts (length digit_counts))
             (fun avg_count => Ok (select_with_threshold digit_counts avg_count))
  | Some threshold => Ok (select_with_threshold digit_counts threshold)
  end.

End Binary64.

(** ** Notions and inputs for the binary64 reading *)

Module Binary64Notions.
Import PrimFloat.

(** The weight [analyze_first_digit_weighted] gives a row, as a float. *)
Definition float_row_weight (weights : dict float) (r : row) : float :=
  default 1%float (dict_get (Prize_Type r) weights).

(** The ten digits with one and the same count. *)
Definition equal_counts (count : float) : dict float :=
  map (fun d => (d, count)) DIGITS.



Definition above_one_point_nine : float := 0x1.e666666666667p+0%float.



End Binary64Notions.

Export Binary64Notions.

(** * Properties *)

(** ** Facts about the Python primitives *)

Module PyFacts.

Section SortedFacts.
Context {A : Type} (le : A -> A -> bool).

Lemma insert_sorted_Permutation (x : A) (l : list A) :
  insert_sorted le x l ≡ₚ x :: l.
Proof.
  induction l as [|y l IH]; simpl; [done|].
  destruct (le x y); [done|].
  rewrite IH. apply perm_swap.
Qed.

Lemma sorted_Permutation (l : list A) : sorted le l ≡ₚ l.
Proof.
  induction l as [|x l IH]; simpl; [done|].
  unfold sorted in *. simpl.
  rewrite insert_sorted_Permutation. by rewrite IH.
Qed.

Lemma elem_of_sorted (x : A) (l : list A) : x ∈ sorted le l ↔ x ∈ l.
Proof. by rewrite sorted_Permutation. Qed.

Lemma length_sorted (l : list A) : length (sorted le l) = length l.
Proof. by rewrite sorted_Permutation. Qed.

Lemma sorted_nil_inv (l : list A) : sorted le l = [] → l = [].
Proof.
  intros H. apply Permutation_nil_r. rewrite <- H.
  symmetry. apply sorted_Permutation.
Qed.

Hypothesis le_total : ∀ x y, le x y = true ∨ le y x = true.

Lemma insert_sorted_Sorted (x : A) (l : list A) :
  Sorted (λ a b, le a b = true) l →
  Sorted (λ a b, le a b = true) (insert_sorted le x l).
Proof.
  induction l as [|y l IH]; simpl; intros Hs.
  - repeat constructor.
  - destruct (le x y) eqn:E.
    + constructor; [done|]. by constructor.
    + apply Sorted_inv in Hs as [Hs Hhd].
      constructor; [by apply IH|].
      destruct l as [|z l]; simpl.
      * constructor. destruct (le_total x y); congruence.
      * destruct (le x z).
        -- constructor. destruct (le_total x y); congruence.
        -- constructor. by apply HdRel_inv in Hhd.
Qed.

Lemma sorted_Sorted (l : list A) : Sorted (λ a b, le a b = true) (sorted le l).
Proof.
  induction l as [|x l IH]; [constructor|].
  by apply insert_sorted_Sorted.
Qed.
End SortedFacts.

Lemma str_le_spec (a b : string) : str_le a b = true ↔ a = b ∨ str_lt a b.
Proof.
  unfold str_le, str_lt.
  destruct (String_as_OT.compare_spec a b) as [E|L|G].
  - split; [by left | done].
  - split; [by right | done].
  - split; [done|]. intros [->|L].
    + by apply (irreflexivity String_as_OT.lt) in G.
    + exfalso. apply (irreflexivity String_as_OT.lt a). by etransitivity.
Qed.

Lemma str_le_total (a b : string) : str_le a b = true ∨ str_le b a = true.
Proof.
  rewrite !str_le_spec.
  destruct (String_as_OT.compare_spec a b) as [E|L|G]; unfold str_lt; auto.
Qed.

Lemma str_le_trans (a b c : string) :
  str_le a b = true → str_le b c = true → str_le a c = true.
Proof.
  rewrite !str_le_spec. unfold str_lt.
  intros [->|H1] [->|H2]; auto.
  right. by etransitivity.
Qed.

(** [sorted] on strings without repetition gives a strictly increasing
    list. *)
Lemma sorted_str_increasing (l : list string) :
  NoDup l → StronglySorted str_lt (sorted_str l).
Proof.
  intros Hnd.
  assert (Hs : StronglySorted (λ a b, str_le a b = true) (sorted_str l)).
  { apply Sorted_StronglySorted.
    - intros a b c. apply str_le_trans.
    - apply sorted_Sorted, str_le_total. }
  assert (Hnd' : NoDup (sorted_str l)).
  { unfold sorted_str. by rewrite sorted_Permutation. }
  induction Hs as [|x l' Hs IH Hall]; [constructor|].
  apply NoDup_cons in Hnd' as [Hx Hnd'].
  constructor; [by apply IH|].
  rewrite Forall_forall in Hall |- *.
  intros y Hy. specialize (Hall y Hy).
  apply str_le_spec in Hall as [->|Hlt]; [|done].
  exfalso. apply Hx. by apply list_elem_of_In.
Qed.

Lemma elem_of_sorted_str (x : string) (l : list string) : x ∈ sorted_str l ↔ x ∈ l.
Proof. apply elem_of_sorted. Qed.

End PyFacts.

Export PyFacts.

(** ** filter.py: the three exclusion rules *)

Module FilterSpec.
Import Filter.

Lemma str_in_spec (x : string) (l : list string) : str_in x l = true ↔ x ∈ l.
Proof.
  unfold str_in. rewrite existsb_exists, list_elem_of_In. split.
  - intros (y & Hy & E). apply String.eqb_eq in E. by subst.
  - intros H. exists x. split; [done | apply String.eqb_refl].
Qed.

Lemma elem_of_prize_numbers (num : string) (df : DataFrame) :
  num ∈ prize_numbers df ↔ in_history num df.
Proof.
  unfold prize_numbers, in_history. rewrite list_elem_of_fmap.
  split; intros (r & H1 & H2); exists r; done.
Qed.

Lemma elem_of_top3_numbers (num : string) (df : DataFrame) :
  num ∈ prize_numbers (isin_prize_types TOP_3_PRIZE_TYPES df) ↔ in_top3 num df.
Proof.
  rewrite elem_of_prize_numbers. unfold in_history, in_top3, isin_prize_types.
  split.
  - intros (r & Hr & E). apply list_elem_of_In, filter_In in Hr as [Hr Ht].
    exists r. rewrite <- str_in_spec. by rewrite list_elem_of_In.
  - intros (r & Hr & E & Ht). exists r. split; [|done].
    apply list_elem_of_In, filter_In. rewrite <- list_elem_of_In, str_in_spec. done.
Qed.

Lemma value_count_occurrences (num : string) (df : DataFrame) :
  value_count num df = occurrences num df.
Proof.
  unfold value_count, occurrences.
  induction (prize_numbers df) as [|x l IH]; simpl; [done|].
  destruct (string_dec x num) as [->|Hne].
  - rewrite String.eqb_refl. simpl. by rewrite IH.
  - destruct (String.eqb num x) eqn:E; [|done].
    apply String.eqb_eq in E. congruence.
Qed.

Lemma elem_of_multiple (num : string) (df : DataFrame) :
  num ∈ List.filter (fun n => (1 <? value_count n df)%nat) (prize_numbers df)
  ↔ (1 < occurrences num df)%nat.
Proof.
  rewrite list_elem_of_In, filter_In, Nat.ltb_lt, value_count_occurrences.
  split; [by intros [_ H]|]. intros H. split; [|done].
  apply (count_occ_In string_dec). unfold occurrences in H. lia.
Qed.

Lemma elem_of_sorted_members (num : string) (s t : gset string) :
  num ∈ sorted_members s t ↔ num ∈ s ∧ num ∈ t.
Proof.
  unfold sorted_members.
  rewrite elem_of_sorted_str, list_elem_of_In, filter_In, <- list_elem_of_In.
  rewrite elem_of_elements, bool_decide_eq_true. done.
Qed.

Lemma sorted_members_increasing (s t : gset string) :
  StronglySorted str_lt (sorted_members s t).
Proof.
  apply sorted_str_increasing.
  apply NoDup_ListNoDup, List.NoDup_filter, NoDup_ListNoDup, NoDup_elements.
Qed.

Lemma sorted_elements_increasing (s : gset string) :
  StronglySorted str_lt (sorted_str (elements s)).
Proof. apply sorted_str_increasing, NoDup_elements. Qed.

(** The result of [filter_numbers_by_history], one list at a time. *)
Lemma filter_result_unfold (numbers : list string) (h6 h1 : DataFrame) :
  let s : gset string := list_to_set numbers in
  let w6 : gset string := list_to_set (prize_numbers h6) in
  let t3 : gset string :=
    list_to_set (prize_numbers (isin_prize_types TOP_3_PRIZE_TYPES h1)) in
  let m1 : gset string :=
    list_to_set (List.filter (fun n => (1 <? value_count n h1)%nat) (prize_numbers h1)) in
  filter_numbers_by_history numbers h6 h1 =
    FilterResult (sorted_str (elements (s ∖ w6 ∖ t3 ∖ m1)))
                 (sorted_members s w6)
                 (sorted_members (s ∖ w6) t3)
                 (sorted_members (s ∖ w6 ∖ t3) m1).
Proof.
  intros s w6 t3 m1. unfold filter_numbers_by_history.
  destruct h1 as [|r h1']; [|reflexivity].
  simpl. fold s w6.
  assert (Ht3 : t3 = ∅) by reflexivity.
  assert (Hm1 : m1 = ∅) by reflexivity.
  rewrite Ht3, Hm1. rewrite !difference_empty_L.
  f_equal; unfold sorted_members.
  - replace (List.filter _ (elements (s ∖ w6))) with (@nil string); [done|].
    induction (elements (s ∖ w6)) as [|x l IH]; simpl; [done|].
    rewrite bool_decide_eq_false_2; [done | set_solver].
  - replace (List.filter _ (elements (s ∖ w6))) with (@nil string); [done|].
    induction (elements (s ∖ w6)) as [|x l IH]; simpl; [done|].
    rewrite bool_decide_eq_false_2; [done | set_solver].
Qed.

(** Membership in the four lists, in terms of the input list and the two
    histories. *)
Lemma filter_membership (numbers : list string) (h6 h1 : DataFrame) (num : string) :
  (num ∈ appeared_in_6_months (filter_numbers_by_history numbers h6 h1)
     ↔ num ∈ numbers ∧ in_history num h6) ∧
  (num ∈ appeared_in_top3_1year (filter_numbers_by_history numbers h6 h1)
     ↔ num ∈ numbers ∧ ¬ in_history num h6 ∧ in_top3 num h1) ∧
  (num ∈ appeared_multiple_1year (filter_numbers_by_history numbers h6 h1)
     ↔ num ∈ numbers ∧ ¬ in_history num h6 ∧ ¬ in_top3 num h1
       ∧ (1 < occurrences num h1)%nat) ∧
  (num ∈ filtered_numbers (filter_numbers_by_history numbers h6 h1)
     ↔ num ∈ numbers ∧ ¬ in_history num h6 ∧ ¬ in_top3 num h1
       ∧ (occurrences num h1 ≤ 1)%nat).
Proof.
  rewrite filter_result_unfold. simpl.
  rewrite !elem_of_sorted_members, elem_of_sorted_str, elem_of_elements.
  rewrite !elem_of_difference, !elem_of_list_to_set.
  rewrite elem_of_prize_numbers, elem_of_top3_numbers, elem_of_multiple.
  repeat split; try tauto; lia.
Qed.

Lemma filter_lists_increasing (numbers : list string) (h6 h1 : DataFrame) :
  StronglySorted str_lt (filtered_numbers (filter_numbers_by_history numbers h6 h1)) ∧
  StronglySorted str_lt (appeared_in_6_months (filter_numbers_by_history numbers h6 h1)) ∧
  StronglySorted str_lt (appeared_in_top3_1year (filter_numbers_by_history numbers h6 h1)) ∧
  StronglySorted str_lt (appeared_multiple_1year (filter_numbers_by_history numbers h6 h1)).
Proof.
  rewrite filter_result_unfold. simpl.
  auto using sorted_members_increasing, sorted_elements_increasing.
Qed.

(** C4. [filter_numbers_by_history] applies three exclusion rules in order:
    a candidate is reported in [appeared_in_6_months] exactly when it
    occurs in the 6-month history; in [appeared_in_top3_1year] exactly when
    it survived rule 1 and occurs among the Top-3 rows of the 1-year
    history; in [appeared_multiple_1year] exactly when it survived rules 1
    and 2 and occurs more than once in the 1-year history; it is kept
    exactly when it survived all three.  With an empty 1-year history the
    lists of rules 2 and 3 are empty and the kept numbers are those that
    survived rule 1.  The four lists are in strictly increasing
    lexicographic order.  For the candidates "1234" and "5678", a 6-month
    history made of "1234" and a 1-year history made of the first prize
    "5678", the result is kept = [], appeared_in_6_months = ["1234"],
    appeared_in_top3_1year = ["5678"], appeared_multiple_1year = []. *)
Theorem filter_numbers_by_history_rules (numbers : list string) (h6 h1 : DataFrame) :
  (∀ num, num ∈ appeared_in_6_months (filter_numbers_by_history numbers h6 h1)
     ↔ num ∈ numbers ∧ in_history num h6) ∧
  (∀ num, num ∈ appeared_in_top3_1year (filter_numbers_by_history numbers h6 h1)
     ↔ num ∈ numbers ∧ ¬ in_history num h6 ∧ in_top3 num h1) ∧
  (∀ num, num ∈ appeared_multiple_1year (filter_numbers_by_history numbers h6 h1)
     ↔ num ∈ numbers ∧ ¬ in_history num h6 ∧ ¬ in_top3 num h1
       ∧ (1 < occurrences num h1)%nat) ∧
  (∀ num, num ∈ filtered_numbers (filter_numbers_by_history numbers h6 h1)
     ↔ num ∈ numbers ∧ ¬ in_history num h6 ∧ ¬ in_top3 num h1
       ∧ (occurrences num h1 ≤ 1)%nat) ∧
  appeared_in_top3_1year (filter_numbers_by_history numbers h6 []) = [] ∧
  appeared_multiple_1year (filter_numbers_by_history numbers h6 []) = [] ∧
  (∀ num, num ∈ filtered_numbers (filter_numbers_by_history numbers h6 [])
     ↔ num ∈ numbers ∧ ¬ in_history num h6) ∧
  StronglySorted str_lt (filtered_numbers (filter_numbers_by_history numbers h6 h1)) ∧
  StronglySorted str_lt (appeared_in_6_months (filter_numbers_by_history numbers h6 h1)) ∧
  StronglySorted str_lt (appeared_in_top3_1year (filter_numbers_by_history numbers h6 h1)) ∧
  StronglySorted str_lt (appeared_multiple_1year (filter_numbers_by_history numbers h6 h1)) ∧
  (∀ d6 t6 d1,
     filter_numbers_by_history ["1234"; "5678"]
       [Row d6 "1234" t6] [Row d1 "5678" FD_FIRST_PRIZE_CLASS]
     = FilterResult [] ["1234"] ["5678"] []).
Proof.
  split_and!.
  - intros num. apply filter_membership.
  - intros num. apply filter_membership.
  - intros num. apply filter_membership.
  - intros num. apply filter_membership.
  - reflexivity.
  - reflexivity.
  - intros num.
    destruct (filter_membership numbers h6 [] num) as (_ & _ & _ & ->).
    unfold in_top3, occurrences. simpl. split.
    + tauto.
    + intros [H1 H2]. split_and!; [done | done | | lia].
      intros (r & Hr & _). by apply elem_of_nil in Hr.
  - apply filter_lists_increasing.
  - apply filter_lists_increasing.
  - apply filter_lists_increasing.
  - apply filter_lists_increasing.
  - intros d6 t6 d1. vm_compute. reflexivity.
Qed.

Lemma increasing_singleton (l : list string) (x : string) :
  StronglySorted str_lt l → (∀ y, y ∈ l ↔ y = x) → l = [x].
Proof.
  intros Hs Hm. destruct l as [|a l].
  - exfalso. apply (elem_of_nil x). by apply Hm.
  - assert (a = x) as -> by (apply Hm; left).
    f_equal. destruct l as [|b l]; [done|].
    assert (b = x) as -> by (apply Hm; right; left).
    apply StronglySorted_inv in Hs as [_ Hall].
    apply Forall_inv in Hall.
    by apply (irreflexivity String_as_OT.lt) in Hall.
Qed.

Lemma increasing_empty (l : list string) : (∀ y, y ∉ l) → l = [].
Proof.
  intros Hm. destruct l as [|a l]; [done|].
  exfalso. apply (Hm a). left.
Qed.

(** The scenario for arbitrary histories: "1234" occurs in the 6-month
    history, "5678" does not, and "5678" occurs among the Top-3 rows of the
    1-year history. *)
Lemma filter_scenario (h6 h1 : DataFrame) :
  in_history "1234" h6 → ¬ in_history "5678" h6 → in_top3 "5678" h1 →
  filter_numbers_by_history ["1234"; "5678"] h6 h1
  = FilterResult [] ["1234"] ["5678"] [].
Proof.
  intros H1 H2 H3.
  pose proof (filter_lists_increasing ["1234"; "5678"] h6 h1) as (S0 & S1 & S2 & S3).
  pose proof (filter_membership ["1234"; "5678"] h6 h1) as Hm.
  destruct (filter_numbers_by_history ["1234"; "5678"] h6 h1) as [k a6 t3 m1].
  simpl in *.
  assert (Hin : ∀ y : string, y ∈ ["1234"; "5678"] ↔ y = "1234" ∨ y = "5678").
  { intros y. rewrite !elem_of_cons, elem_of_nil. tauto. }
  f_equal.
  - apply increasing_empty. intros y Hy.
    apply (Hm y) in Hy as (Hy & N6 & N3 & _).
    apply Hin in Hy as [->| ->]; tauto.
  - apply increasing_singleton; [done|]. intros y.
    destruct (Hm y) as (-> & _). rewrite Hin. split.
    + intros [[->| ->] Hh]; tauto.
    + intros ->. tauto.
  - apply increasing_singleton; [done|]. intros y.
    destruct (Hm y) as (_ & -> & _). rewrite Hin. split.
    + intros ([->| ->] & Hh & _); tauto.
    + intros ->. tauto.
  - apply increasing_empty. intros y Hy.
    apply (Hm y) in Hy as (Hy & N6 & N3 & _).
    apply Hin in Hy as [->| ->]; tauto.
Qed.

Lemma filter_scenario_witness :
  filter_numbers_by_history ["1234"; "5678"]
    [Row 0 "1234" FD_STARTER_PRIZE_CLASS; Row 0 "0007" FD_FIRST_PRIZE_CLASS]
    [Row 7 "5678" FD_THIRD_PRIZE_CLASS; Row 7 "1234" FD_STARTER_PRIZE_CLASS]
  = FilterResult [] ["1234"] ["5678"] [].
Proof.
  apply filter_scenario.
  - eexists. split; [left | reflexivity].
  - intros (r & Hr & E). repeat (apply elem_of_cons in Hr as [->|Hr]; [discriminate|]).
    by apply elem_of_nil in Hr.
  - eexists. split; [left|]. split; [reflexivity|]. right. right. left.
Defined.

(** C9. The four lists returned by [filter_numbers_by_history] are
    pairwise disjoint and together hold exactly the input candidates: a
    string is a candidate exactly when it is in one of the four lists, no
    string is in two of them, and no list repeats a string. *)
Theorem filter_outputs_partition (numbers : list string) (h6 h1 : DataFrame) (num : string) :
  (num ∈ numbers
     ↔ num ∈ filtered_numbers (filter_numbers_by_history numbers h6 h1)
       ∨ num ∈ appeared_in_6_months (filter_numbers_by_history numbers h6 h1)
       ∨ num ∈ appeared_in_top3_1year (filter_numbers_by_history numbers h6 h1)
       ∨ num ∈ appeared_multiple_1year (filter_numbers_by_history numbers h6 h1)) ∧
  ¬ (num ∈ filtered_numbers (filter_numbers_by_history numbers h6 h1)
     ∧ num ∈ appeared_in_6_months (filter_numbers_by_history numbers h6 h1)) ∧
  ¬ (num ∈ filtered_numbers (filter_numbers_by_history numbers h6 h1)
     ∧ num ∈ appeared_in_top3_1year (filter_numbers_by_history numbers h6 h1)) ∧
  ¬ (num ∈ filtered_numbers (filter_numbers_by_history numbers h6 h1)
     ∧ num ∈ appeared_multiple_1year (filter_numbers_by_history numbers h6 h1)) ∧
  ¬ (num ∈ appeared_in_6_months (filter_numbers_by_history numbers h6 h1)
     ∧ num ∈ appeared_in_top3_1year (filter_numbers_by_history numbers h6 h1)) ∧
  ¬ (num ∈ appeared_in_6_months (filter_numbers_by_history numbers h6 h1)
     ∧ num ∈ appeared_multiple_1year (filter_numbers_by_history numbers h6 h1)) ∧
  ¬ (num ∈ appeared_in_top3_1year (filter_numbers_by_history numbers h6 h1)
     ∧ num ∈ appeared_multiple_1year (filter_numbers_by_history numbers h6 h1)) ∧
  NoDup (filtered_numbers (filter_numbers_by_history numbers h6 h1)) ∧
  NoDup (appeared_in_6_months (filter_numbers_by_history numbers h6 h1)) ∧
  NoDup (appeared_in_top3_1year (filter_numbers_by_history numbers h6 h1)) ∧
  NoDup (appeared_multiple_1year (filter_numbers_by_history numbers h6 h1)).
Proof.
  rewrite filter_result_unfold. simpl.
  rewrite !elem_of_sorted_members, elem_of_sorted_str, elem_of_elements.
  rewrite !elem_of_difference.
  set (s := list_to_set numbers : gset string).
  set (w6 := list_to_set (prize_numbers h6) : gset string).
  set (t3 := list_to_set (prize_numbers (isin_prize_types TOP_3_PRIZE_TYPES h1))
             : gset string).
  set (m1 := list_to_set _ : gset string).
  assert (Hs : num ∈ numbers ↔ num ∈ s) by (unfold s; by rewrite elem_of_list_to_set).
  rewrite Hs.
  assert (Hnd : ∀ a b : gset string, NoDup (sorted_members a b)).
  { intros a b. unfold sorted_members, sorted_str.
    rewrite sorted_Permutation.
    apply NoDup_ListNoDup, List.NoDup_filter, NoDup_ListNoDup, NoDup_elements. }
  split_and!; try tauto; try apply Hnd.
  - destruct (decide (num ∈ w6)), (decide (num ∈ t3)), (decide (num ∈ m1)); tauto.
  - unfold sorted_str. rewrite sorted_Permutation. apply NoDup_elements.
Qed.

End FilterSpec.

(** ** analyzer.py: Bayesian smoothing *)

Module SmoothingSpec.

Lemma fold_left_Qplus (l : list Q) (a : Q) :
  (fold_left Qplus l a == a + sum l)%Q.
Proof.
  unfold sum. revert a. induction l as [|x l IH]; intros a; simpl.
  - ring.
  - rewrite (IH (a + x)%Q), (IH (0 + x)%Q). ring.
Qed.

Lemma sum_cons (x : Q) (l : list Q) : (sum (x :: l) == x + sum l)%Q.
Proof. unfold sum at 1. simpl. rewrite fold_left_Qplus. ring. Qed.

Lemma sum_nonneg (l : list Q) : Forall (λ c, 0 <= c)%Q l → (0 <= sum l)%Q.
Proof.
  induction 1 as [|x l Hx Hl IH].
  - discriminate.
  - rewrite sum_cons. lra.
Qed.

Lemma dict_get_None_set {V} (k : string) (v : V) (d : dict V) :
  dict_get k d = None → dict_set k v d = d ++ [(k, v)].
Proof.
  induction d as [|[k' v'] d IH]; simpl; [done|].
  destruct (String.eqb k k'); [done|]. intros H. by rewrite IH.
Qed.

Lemma dict_get_None_keys {V} (k : string) (d : dict V) :
  dict_get k d = None ↔ k ∉ keys d.
Proof.
  induction d as [|[k' v'] d IH]; simpl.
  - split; [intros _; apply not_elem_of_nil | done].
  - rewrite not_elem_of_cons. destruct (String.eqb k k') eqn:E.
    + apply String.eqb_eq in E. split; [done | tauto].
    + apply String.eqb_neq in E. rewrite IH. tauto.
Qed.

Lemma smoothing_loop_ok (alpha denominator : Q) (items acc : dict Q) :
  ¬ (denominator == 0)%Q →
  NoDup (keys items) →
  (∀ k, k ∈ keys items → k ∉ keys acc) →
  smoothing_loop alpha denominator items acc
  = Ok (acc ++ map (smoothed alpha denominator) items).
Proof.
  intros Hden. revert acc.
  induction items as [|[k c] items IH]; intros acc Hnd Hfresh; simpl.
  - by rewrite app_nil_r.
  - unfold div. destruct (Qeq_bool denominator 0) eqn:E.
    { apply Qeq_bool_iff in E. contradiction. }
    apply NoDup_cons in Hnd as [Hk Hnd].
    rewrite dict_get_None_set.
    2:{ apply dict_get_None_keys, Hfresh. left. }
    rewrite IH; [by rewrite <- app_assoc | done |].
    intros k' Hk'. unfold keys. rewrite fmap_app, elem_of_app. simpl.
    intros [H|H].
    + apply (Hfresh k'); [by right | done].
    + apply list_elem_of_singleton in H. subst. contradiction.
Qed.

Lemma NoDup_DIGITS : NoDup DIGITS.
Proof. apply (bool_decide_unpack (NoDup DIGITS)). vm_compute. exact I. Qed.

Lemma bayesian_smoothing_ok (digit_counts : dict Q) (alpha : Q) :
  NoDup (keys digit_counts) →
  ¬ (sum (values digit_counts)
     + inject_Z (Z.of_nat (length digit_counts)) * alpha == 0)%Q →
  bayesian_smoothing digit_counts alpha
  = Ok (map (smoothed alpha
               (sum (values digit_counts)
                + inject_Z (Z.of_nat (length digit_counts)) * alpha))
            digit_counts).
Proof.
  intros Hnd Hden. unfold bayesian_smoothing.
  rewrite smoothing_loop_ok; [done | done | done |].
  intros k _. apply not_elem_of_nil.
Qed.



Lemma dict_get_keys {V} (d : string) (items : dict V) :
  d ∈ keys items → ∃ v, dict_get d items = Some v ∧ v ∈ values items.
Proof.
  induction items as [|[k c] items IH]; simpl.
  - intros H. by apply elem_of_nil in H.
  - intros H. destruct (String.eqb d k) eqn:E.
    + exists c. split; [done | left].
    + apply String.eqb_neq in E. apply elem_of_cons in H as [H|H]; [done|].
      destruct (IH H) as (v & Hv & Hin). exists v. split; [done | by right].
Qed.

Lemma length_keys {V} (d : dict V) : length (keys d) = length d.
Proof. unfold keys. apply length_map. Qed.

Lemma keys_smoothed (alpha denominator : Q) (items : dict Q) :
  keys (map (smoothed alpha denominator) items) = keys items.
Proof. unfold keys. rewrite map_map. reflexivity. Qed.

(** With the ten digit keys, non-negative counts and a positive [alpha], the
    denominator of the smoothing is positive. *)
Lemma denominator_positive (digit_counts : dict Q) (alpha : Q) :
  Forall (λ c, 0 <= c)%Q (values digit_counts) → (0 < alpha)%Q →
  length digit_counts = 10%nat →
  (0 < sum (values digit_counts)
       + inject_Z (Z.of_nat (length digit_counts)) * alpha)%Q.
Proof.
  intros Hpos Ha ->. apply sum_nonneg in Hpos.
  change (inject_Z (Z.of_nat 10)) with 10%Q. lra.
Qed.






End SmoothingSpec.

(** ** analyzer.py: low-occurrence selection *)

Module SelectorSpec.
Import SmoothingSpec.

Lemma sum_above (t : Q) (l : list Q) :
  Forall (λ c, t < c)%Q l → l ≠ [] →
  (inject_Z (Z.of_nat (length l)) * t < sum l)%Q.
Proof.
  induction 1 as [|x l Hx Hl IH]; [done|]. intros _.
  rewrite sum_cons. cbn [length].
  rewrite Nat2Z.inj_succ, <- Z.add_1_r, inject_Z_plus.
  destruct l as [|y l].
  - change (inject_Z (Z.of_nat (length (@nil Q)))) with 0%Q.
    change (sum []) with 0%Q. change (inject_Z 1) with 1%Q. lra.
  - assert (H : (inject_Z (Z.of_nat (length (y :: l))) * t < sum (y :: l))%Q)
      by (by apply IH).
    change (inject_Z 1) with 1%Q. lra.
Qed.

Lemma at_most_nil (threshold : Q) (digit_counts : dict Q) :
  at_most threshold digit_counts = [] →
  Forall (λ c, threshold < c)%Q (values digit_counts).
Proof.
  unfold at_most, values.
  induction digit_counts as [|[k c] d IH]; simpl; [constructor|].
  destruct (Qle_bool c threshold) eqn:E; [done|].
  intros H. constructor; [|by apply IH].
  apply Qnot_le_lt. intros Hle. apply Qle_bool_iff in Hle. congruence.
Qed.

(** Some count is at most the mean of a non-empty mapping. *)
Lemma at_most_mean_nonempty (digit_counts : dict Q) (avg_count : Q) :
  digit_counts ≠ [] →
  (avg_count == sum (values digit_counts) / inject_Z (Z.of_nat (length digit_counts)))%Q →
  at_most avg_count digit_counts ≠ [].
Proof.
  intros Hne Havg Hnil.
  apply at_most_nil in Hnil.
  apply sum_above in Hnil.
  2:{ unfold values. by destruct digit_counts. }
  unfold values in Hnil at 1. rewrite length_map in Hnil.
  assert (Hlen : (0 < inject_Z (Z.of_nat (length digit_counts)))%Q).
  { destruct digit_counts; [done|]. unfold Qlt. simpl. lia. }
  rewrite Havg in Hnil.
  rewrite Qmult_div_r in Hnil by lra. lra.
Qed.

Lemma DIGITS_nonempty : DIGITS ≠ [].
Proof. discriminate. Qed.

(** The selection evaluated without rounding, with the threshold left to
    [None]: the result is not empty; either the total count is 0 and all ten
    digits are returned, or some digit has a count at most the mean and the
    result is the sorted list of the digits with count at most the mean, so
    that the lower-half branch is not taken. *)
Lemma select_low_occurrence_default (digit_counts : dict Q) :
  (∃ selected,
     select_low_occurrence_digits digit_counts None = Ok selected ∧ selected ≠ []) ∧
  ((sum (values digit_counts) == 0)%Q
   ∨ ∃ avg_count,
       div (sum (values digit_counts)) (inject_Z (Z.of_nat (length digit_counts)))
         = Ok avg_count ∧
       at_most avg_count digit_counts ≠ [] ∧
       select_low_occurrence_digits digit_counts None
         = Ok (sorted_str (at_most avg_count digit_counts))).
Proof.
  unfold select_low_occurrence_digits.
  destruct (Qeq_bool (sum (values digit_counts)) 0) eqn:E.
  { apply Qeq_bool_iff in E. split; [|by left].
    exists DIGITS. split; [done | apply DIGITS_nonempty]. }
  assert (Hne : digit_counts ≠ []).
  { intros ->. discriminate E. }
  assert (Hlen : (0 < inject_Z (Z.of_nat (length digit_counts)))%Q).
  { destruct digit_counts; [done|]. unfold Qlt. simpl. lia. }
  unfold div.
  destruct (Qeq_bool (inject_Z (Z.of_nat (length digit_counts))) 0) eqn:E'.
  { apply Qeq_bool_iff in E'. lra. }
  simpl.
  pose proof (at_most_mean_nonempty digit_counts _ Hne (Qeq_refl _)) as Hsel.
  assert (Hres : select_with_threshold digit_counts
                   (sum (values digit_counts)
                    / inject_Z (Z.of_nat (length digit_counts)))
                 = sorted_str
                     (at_most (sum (values digit_counts)
                               / inject_Z (Z.of_nat (length digit_counts)))
                              digit_counts)).
  { unfold select_with_threshold.
    destruct (at_most _ digit_counts); [done | reflexivity]. }
  split.
  - eexists. split; [reflexivity|]. rewrite Hres.
    intros Hnil. apply sorted_nil_inv in Hnil. done.
  - right. eexists. split; [reflexivity|]. split; [done|]. by rewrite Hres.
Qed.

End SelectorSpec.

(** ** analyzer.py: first-digit extraction and counting *)

Module ExtractionSpec.

Lemma strip_empty : strip "" = "".
Proof. reflexivity. Qed.

Lemma extract_loop_ok (nums first_digits : list string) :
  Forall (λ s, s = "" ∨ strip s ≠ "") nums →
  extract_loop nums first_digits
  = Ok (first_digits ++ flat_map first_digit_of nums).
Proof.
  intros H. revert first_digits.
  induction H as [|s nums Hs Hnums IH]; intros first_digits; simpl.
  - by rewrite app_nil_r.
  - unfold first_digit_of at 1.
    destruct s as [|a s].
    + simpl. apply IH.
    + cbn [String.length Nat.leb].
      destruct Hs as [Hs|Hs]; [discriminate|].
      destruct (strip (String a s)) as [|c t]; [done|]. simpl.
      destruct (isdigit c); rewrite IH; [|done].
      by rewrite <- app_assoc.
Qed.

Lemma dict_get_set {V} (k k' : string) (v : V) (d : dict V) :
  dict_get k (dict_set k' v d) = if String.eqb k k' then Some v else dict_get k d.
Proof.
  induction d as [|[k0 v0] d IH]; simpl; [done|].
  destruct (String.eqb k' k0) eqn:E'; simpl.
  - apply String.eqb_eq in E'. subst k0.
    destruct (String.eqb k k'); done.
  - rewrite IH. destruct (String.eqb k k0) eqn:E0; [|done].
    apply String.eqb_eq in E0. subst k0.
    rewrite String.eqb_sym in E'. by rewrite E'.
Qed.

Lemma keys_dict_set {V} (k : string) (v v0 : V) (d : dict V) :
  dict_get k d = Some v0 → keys (dict_set k v d) = keys d.
Proof.
  induction d as [|[k1 v1] d IH]; simpl; [done|].
  destruct (String.eqb k k1) eqn:E; [done|].
  intros H. simpl. f_equal. by apply IH.
Qed.

Lemma count_fold_keys (first_digits : list string) (d : dict Q) :
  keys (fold_left count_step first_digits d) = keys d.
Proof.
  revert d. induction first_digits as [|x l IH]; intros d; simpl; [done|].
  rewrite IH. unfold count_step.
  destruct (dict_get x d) eqn:E; [|done]. by eapply keys_dict_set.
Qed.

Lemma count_str_cons (k x : string) (l : list string) :
  count_str k (x :: l)
  = if String.eqb k x then S (count_str k l) else count_str k l.
Proof. unfold count_str. simpl. by destruct (String.eqb k x). Qed.

Lemma count_fold_get (first_digits : list string) (d : dict Q) (k : string) (v : Q) :
  dict_get k d = Some v →
  ∃ v', dict_get k (fold_left count_step first_digits d) = Some v' ∧
        (v' == v + inject_Z (Z.of_nat (count_str k first_digits)))%Q.
Proof.
  revert d v. induction first_digits as [|x l IH]; intros d v Hk; cbn [fold_left].
  - exists v. split; [done|].
    change (inject_Z (Z.of_nat (count_str k []))) with 0%Q. ring.
  - rewrite count_str_cons.
    destruct (String.eqb k x) eqn:E.
    + apply String.eqb_eq in E. subst x.
      unfold count_step at 2. rewrite Hk.
      destruct (IH (dict_set k (v + 1)%Q d) (v + 1)%Q) as (v' & Hv' & Hq).
      { by rewrite dict_get_set, String.eqb_refl. }
      exists v'. split; [done|]. rewrite Hq.
      rewrite Nat2Z.inj_succ, <- Z.add_1_r, inject_Z_plus.
      change (inject_Z 1) with 1%Q. ring.
    + destruct (IH (count_step d x) v) as (v' & Hv' & Hq).
      { unfold count_step. destruct (dict_get x d); [|done].
        by rewrite dict_get_set, E. }
      exists v'. done.
Qed.

Lemma chr_inj (c c' : ascii) : String.eqb (chr c) (chr c') = Ascii.eqb c c'.
Proof.
  unfold chr. simpl. destruct (Ascii.eqb c c'); reflexivity.
Qed.

Lemma is_decimal_isdigit (c : ascii) : is_decimal c = true → isdigit c = true.
Proof.
  unfold is_decimal, isdigit. intros ->. reflexivity.
Qed.

Lemma count_str_app (k : string) (l1 l2 : list string) :
  count_str k (l1 ++ l2) = (count_str k l1 + count_str k l2)%nat.
Proof. unfold count_str. by rewrite List.filter_app, length_app. Qed.

Lemma count_first_digit_of (c : ascii) (prize_num : string) :
  is_decimal c = true →
  count_str (chr c) (first_digit_of prize_num)
  = if leading_char_is c prize_num then 1%nat else 0%nat.
Proof.
  intros Hc. unfold first_digit_of, leading_char_is.
  destruct (strip prize_num) as [|c' t]; [done|].
  destruct (Ascii.eqb c' c) eqn:E.
  - apply Ascii.eqb_eq in E. subst c'.
    rewrite (is_decimal_isdigit c Hc), count_str_cons, String.eqb_refl. done.
  - destruct (isdigit c'); [|done].
    rewrite count_str_cons, chr_inj, Ascii.eqb_sym, E. done.
Qed.

Lemma count_first_digits (c : ascii) (df : DataFrame) :
  is_decimal c = true →
  count_str (chr c) (flat_map first_digit_of (prize_numbers df))
  = length (List.filter (λ r, leading_char_is c (Prize_Number r)) df).
Proof.
  intros Hc.
  induction df as [|r df IH]; [done|].
  change (prize_numbers (r :: df)) with (Prize_Number r :: prize_numbers df).
  cbn [flat_map List.filter].
  rewrite count_str_app, IH, count_first_digit_of by done.
  by destruct (leading_char_is c (Prize_Number r)).
Qed.

Lemma decimal_in_DIGITS (c : ascii) : is_decimal c = true → chr c ∈ DIGITS.
Proof.
  intros H. unfold is_decimal in H.
  apply andb_true_iff in H as [H1 H2].
  apply N.leb_le in H1, H2.
  rewrite <- (ascii_N_embedding c).
  remember (N_of_ascii c) as n eqn:En. clear En.
  assert (n = 48 ∨ n = 49 ∨ n = 50 ∨ n = 51 ∨ n = 52 ∨ n = 53 ∨ n = 54
          ∨ n = 55 ∨ n = 56 ∨ n = 57)%N as Hor by lia.
  clear H1 H2.
  decompose [or] Hor; subst n;
    apply (bool_decide_unpack (_ ∈ DIGITS)); vm_compute; exact I.
Qed.

(** C7, amended.  Extraction and counting look only at the first character
    of the prize string stripped of surrounding whitespace.  When no selected
    prize string is made of whitespace only, the count of each digit "0".."9"
    is the number of selected rows whose stripped prize string starts with
    that digit; so a prize string that is empty or whose first character is
    not one of "0".."9" contributes to no digit's count, no error is raised,
    and a string starting with a digit is counted whatever its length and
    its other characters. *)
Theorem first_digit_counts (df : DataFrame) (prize_types : option (list string)) :
  Forall (λ r, Prize_Number r = "" ∨ strip (Prize_Number r) ≠ "")
         (selected_rows df prize_types) →
  ∃ digit_counts,
    analyze_first_digit_by_prize_type df prize_types = Ok digit_counts ∧
    keys digit_counts = DIGITS ∧
    ∀ c, is_decimal c = true →
      ∃ q, dict_get (chr c) digit_counts = Some q ∧
           (q == inject_Z (Z.of_nat (length
                   (List.filter (λ r, leading_char_is c (Prize_Number r))
                                (selected_rows df prize_types)))))%Q.
Proof.
  intros Hrows.
  unfold analyze_first_digit_by_prize_type, extract_first_digits.
  fold (selected_rows df prize_types).
  rewrite extract_loop_ok.
  2:{ unfold prize_numbers. rewrite Forall_fmap.
      eapply Forall_impl; [exact Hrows | done]. }
  simpl. eexists. split; [reflexivity|].
  unfold count_digits.
  split.
  - rewrite count_fold_keys. reflexivity.
  - intros c Hc.
    pose proof (decimal_in_DIGITS c Hc) as Hin.
    assert (Hget : dict_get (chr c) (map (λ d, (d, 0%Q)) DIGITS) = Some 0%Q).
    { clear -Hin.
      repeat (apply elem_of_cons in Hin as [->|Hin]; [reflexivity|]).
      by apply elem_of_nil in Hin. }
    destruct (count_fold_get
                (flat_map first_digit_of (prize_numbers (selected_rows df prize_types)))
                _ _ _ Hget) as (q & Hq & Eq).
    exists q. split; [done|].
    rewrite Eq, count_first_digits by done. ring.
Qed.

Lemma first_digit_counts_witness :
  ∃ digit_counts,
    analyze_first_digit_by_prize_type
      [Row 0 "0420" FD_FIRST_PRIZE_CLASS; Row 0 "x1" FD_SECOND_PRIZE_CLASS;
       Row 0 "" FD_THIRD_PRIZE_CLASS; Row 0 " 07" FD_STARTER_PRIZE_CLASS]
      None = Ok digit_counts ∧
    keys digit_counts = DIGITS ∧
    ∀ c, is_decimal c = true →
      ∃ q, dict_get (chr c) digit_counts = Some q ∧
           (q == inject_Z (Z.of_nat (length
                   (List.filter (λ r, leading_char_is c (Prize_Number r))
                      (selected_rows
                         [Row 0 "0420" FD_FIRST_PRIZE_CLASS;
                          Row 0 "x1" FD_SECOND_PRIZE_CLASS;
                          Row 0 "" FD_THIRD_PRIZE_CLASS;
                          Row 0 " 07" FD_STARTER_PRIZE_CLASS]
                         None)))))%Q.
Proof.
  apply (first_digit_counts
           [Row 0 "0420" FD_FIRST_PRIZE_CLASS; Row 0 "x1" FD_SECOND_PRIZE_CLASS;
            Row 0 "" FD_THIRD_PRIZE_CLASS; Row 0 " 07" FD_STARTER_PRIZE_CLASS]
           None).
  repeat (apply List.Forall_cons; [first [by left | by right] |]).
  apply List.Forall_nil.
Defined.

(** C7 as stated fails: a prize string of the wrong length, and one with a
    letter in it, are counted under their first digit. *)
Lemma malformed_prize_is_counted :
  well_formed_prize "12345" = false ∧
  well_formed_prize "7x" = false ∧
  ∃ digit_counts,
    analyze_first_digit_by_prize_type
      [Row 0 "12345" FD_FIRST_PRIZE_CLASS; Row 0 "7x" FD_SECOND_PRIZE_CLASS] None
    = Ok digit_counts ∧
    dict_get "1" digit_counts = Some 1%Q ∧
    dict_get "7" digit_counts = Some 1%Q.
Proof.
  split; [reflexivity|]. split; [reflexivity|].
  eexists. split; [reflexivity|]. split; reflexivity.
Qed.

(** A prize string made of whitespace only is not skipped by
    [extract_first_digits]: indexing the stripped string raises.
    [analyze_first_digit_weighted], which strips before it tests the length,
    skips it. *)
Lemma whitespace_prize_raises :
  extract_first_digits [Row 0 " " FD_FIRST_PRIZE_CLASS] None = Raise IndexError ∧
  analyze_first_digit_by_prize_type [Row 0 " " FD_FIRST_PRIZE_CLASS] None
    = Raise IndexError ∧
  analyze_first_digit_weighted [Row 0 " " FD_FIRST_PRIZE_CLASS] None
    = Ok (map (λ d, (d, 0%Q)) DIGITS).
Proof. split_and!; reflexivity. Qed.

End ExtractionSpec.

(** ** cache_manager.py: synchronisation *)

Module CacheSpec.

Lemma between_filter (date_from date_to : Z) (df : DataFrame) :
  between date_from date_to df
  = filter (λ r, date_from ≤ Date r ∧ Date r ≤ date_to) df.
Proof.
  unfold between. induction df as [|r df IH]; [done|].
  cbn [List.filter]. rewrite filter_cons, IH.
  destruct (decide (date_from ≤ Date r ∧ Date r ≤ date_to)) as [[H1 H2]|Hn].
  - apply Z.leb_le in H1, H2. by rewrite H1, H2.
  - destruct (date_from <=? Date r) eqn:E1; [|done].
    destruct (Date r <=? date_to) eqn:E2; [|done].
    apply Z.leb_le in E1, E2. tauto.
Qed.

Lemma load_cache_data (cache_file : string) (w : world) (df : DataFrame) (last : Z) :
  fs w !! cache_file = Some (Pickle df last) → df ≠ [] →
  load_cache cache_file w = Some (df, last).
Proof.
  intros Hf Hne. unfold load_cache. rewrite Hf.
  destruct df; [done | reflexivity].
Qed.

(** C3. When the cache file holds a non-empty frame whose greatest date is
    today or later, [fetch_with_cache] issues no upstream request, leaves the
    world as it is and returns the cached rows whose index lies in
    [[date_from, date_to]], in cache order, whatever the dates the cache
    covers before [date_from]; a second call made while the cache is still
    up to date returns the same result and the same world, so it issues no
    request either. *)
Theorem fetch_with_cache_up_to_date
    (now date_from date_to : Z) (cache_file : string) (w : world)
    (cached_df : DataFrame) (last_date : Z) :
  fs w !! cache_file = Some (Pickle cached_df last_date) →
  cached_df ≠ [] →
  date now ≤ date (index_max cached_df) →
  fetch_with_cache now date_from date_to cache_file w
    = (Ok (filter (λ r, date_from ≤ Date r ∧ Date r ≤ date_to) cached_df), w) ∧
  requests (fetch_with_cache now date_from date_to cache_file w).2 = requests w ∧
  ∀ now', date now' ≤ date (index_max cached_df) →
    fetch_with_cache now' date_from date_to cache_file
      (fetch_with_cache now date_from date_to cache_file w).2
    = fetch_with_cache now date_from date_to cache_file w.
Proof.
  intros Hf Hne Hup.
  assert (Hcall : ∀ t, date t ≤ date (index_max cached_df) →
            fetch_with_cache t date_from date_to cache_file w
            = (Ok (filter (λ r, date_from ≤ Date r ∧ Date r ≤ date_to) cached_df), w)).
  { intros t Ht. unfold fetch_with_cache.
    rewrite (load_cache_data _ _ _ _ Hf Hne).
    apply Z.leb_le in Ht. rewrite Ht. by rewrite between_filter. }
  rewrite (Hcall now Hup). simpl. split_and!; [done | done |].
  intros now' Hup'. apply Hcall, Hup'.
Qed.

(** The loop of [fetch_fd_results] collects nothing when every page of the
    draw list fails. *)
Lemma fetch_loop_failed_pages (date_from date_to : Z) (ids : list string)
    (acc : list row) (w : world) :
  Forall (λ id, result_page (net w) id = PageError) ids →
  (fetch_loop date_from date_to ids acc w).1 = acc.
Proof.
  intros H. revert w H. induction ids as [|id ids IH]; intros w H; [done|].
  apply Forall_cons in H as [Hid Hids]. cbn [fetch_loop].
  change (net (issue (GetResult id) w)) with (net w). rewrite Hid.
  apply IH. exact Hids.
Qed.

Lemma failed_pages_return_nothing (w : world) (ids : list string) :
  draw_list (net w) = Ok ids →
  Forall (λ id, result_page (net w) id = PageError) ids →
  upstream_returns_nothing w.
Proof.
  intros Hl Hp date_from date_to. unfold fetch_fd_results.
  change (net (issue GetDrawList w)) with (net w). rewrite Hl.
  pose proof (fetch_loop_failed_pages date_from date_to ids [] (issue GetDrawList w) Hp) as H.
  destruct (fetch_loop date_from date_to ids [] (issue GetDrawList w)) as [l w'].
  simpl in *. by subst.
Qed.

Lemma fetch_fd_results_fs (date_from date_to : Z) (w : world) :
  fs (fetch_fd_results date_from date_to w).2 = fs w ∧
  fs_writable (fetch_fd_results date_from date_to w).2 = fs_writable w.
Proof.
  unfold fetch_fd_results.
  assert (Hloop : ∀ ids acc w0,
            fs (fetch_loop date_from date_to ids acc w0).2 = fs w0 ∧
            fs_writable (fetch_loop date_from date_to ids acc w0).2 = fs_writable w0).
  { induction ids as [|id ids IH]; intros acc w0; [done|].
    cbn [fetch_loop].
    change (net (issue (GetResult id) w0)) with (net w0).
    destruct (result_page (net w0) id) as [| |dt p1 p2 p3 st co].
    - exact (IH _ _).
    - exact (IH _ _).
    - destruct (dt <? date_from); [done|].
      destruct ((date_from <=? dt) && (dt <=? date_to)); [|exact (IH _ _)].
      destruct p1, p2, p3; exact (IH _ _). }
  destruct (draw_list (net (issue GetDrawList w))) as [ids|e]; [|done].
  specialize (Hloop ids [] (issue GetDrawList w)).
  destruct (fetch_loop date_from date_to ids [] (issue GetDrawList w)). done.
Qed.

(** The half of the fallback the code has.  When the upstream fetch returns
    nothing (no draw in the range asked for, or every result page failing,
    which [fetch_fd_results] absorbs), [fetch_with_cache] does not fail: it
    returns the cached rows whose index lies in the requested range, which
    is the empty result when there is no usable cache, and it leaves the
    cache files as they are. *)
Lemma fetch_with_cache_fallback
    (now date_from date_to : Z) (cache_file : string) (w : world) :
  (fetch_fd_results (fetch_start date_from cache_file w) date_to w).1 = Ok [] →
  (fetch_with_cache now date_from date_to cache_file w).1
    = Ok (filter (λ r, date_from ≤ Date r ∧ Date r ≤ date_to)
                 (cached_rows cache_file w)) ∧
  fs (fetch_with_cache now date_from date_to cache_file w).2 = fs w.
Proof.
  unfold fetch_with_cache, cached_rows, fetch_start.
  destruct (load_cache cache_file w) as [[cached_df last]|].
  - intros Hf.
    destruct (date now <=? date (index_max cached_df)).
    { by rewrite between_filter. }
    replace (if date (index_max cached_df) + 1 <? date date_from
             then date date_from else date (index_max cached_df) + 1)
      with (Z.max (date (index_max cached_df) + 1) (date date_from)).
    2:{ destruct (Z.ltb_spec (date (index_max cached_df) + 1) (date date_from)); lia. }
    pose proof (fetch_fd_results_fs
                  (Timestamp (Z.max (date (index_max cached_df) + 1) (date date_from)))
                  date_to w) as [Hfs _].
    destruct (fetch_fd_results _ date_to w) as [[new_df|e] w'];
      simpl in Hf; [|discriminate].
    injection Hf as ->. simpl. by rewrite between_filter.
  - intros Hf.
    pose proof (fetch_fd_results_fs date_from date_to w) as [Hfs _].
    destruct (fetch_fd_results date_from date_to w) as [[new_df|e] w'];
      simpl in Hf; [|discriminate].
    injection Hf as ->. simpl. done.
Qed.

(** A failure of the draw-list request is not absorbed: unless the cache is
    up to date, [fetch_with_cache] raises what the request raised. *)
Lemma fetch_with_cache_raises
    (now date_from date_to : Z) (cache_file : string) (w : world) (e : exn) :
  draw_list (net w) = Raise e →
  (∀ df last, load_cache cache_file w = Some (df, last) →
              date (index_max df) < date now) →
  (fetch_with_cache now date_from date_to cache_file w).1 = Raise e.
Proof.
  intros Hl Hstale. unfold fetch_with_cache.
  destruct (load_cache cache_file w) as [[cached_df last]|].
  - specialize (Hstale cached_df last eq_refl).
    destruct (Z.leb_spec (date now) (date (index_max cached_df))); [lia|].
    unfold fetch_fd_results.
    change (net (issue GetDrawList w)) with (net w). by rewrite Hl.
  - unfold fetch_fd_results.
    change (net (issue GetDrawList w)) with (net w). by rewrite Hl.
Qed.

Lemma fetch_with_cache_up_to_date_witness :
  fetch_with_cache (Timestamp 10 + 3600000000) (Timestamp 2) (Timestamp 10 + 3600000000)
    cache_file (stale_world unreachable_site)
    = (Ok (filter (λ r, Timestamp 2 ≤ Date r ∧ Date r ≤ Timestamp 10 + 3600000000)
                  stale_cache),
       stale_world unreachable_site) ∧
  requests (fetch_with_cache (Timestamp 10 + 3600000000) (Timestamp 2)
              (Timestamp 10 + 3600000000) cache_file (stale_world unreachable_site)).2
    = requests (stale_world unreachable_site) ∧
  ∀ now', date now' ≤ date (index_max stale_cache) →
    fetch_with_cache now' (Timestamp 2) (Timestamp 10 + 3600000000) cache_file
      (fetch_with_cache (Timestamp 10 + 3600000000) (Timestamp 2)
         (Timestamp 10 + 3600000000) cache_file (stale_world unreachable_site)).2
    = fetch_with_cache (Timestamp 10 + 3600000000) (Timestamp 2)
        (Timestamp 10 + 3600000000) cache_file (stale_world unreachable_site).
Proof.
  apply (fetch_with_cache_up_to_date (Timestamp 10 + 3600000000) (Timestamp 2)
           (Timestamp 10 + 3600000000) cache_file (stale_world unreachable_site)
           stale_cache 10).
  - reflexivity.
  - discriminate.
  - vm_compute. discriminate.
Defined.

Lemma fetch_with_cache_fallback_witness :
  (fetch_with_cache (Timestamp 14) (Timestamp 2) (Timestamp 14) cache_file
     (stale_world failing_pages_site)).1
    = Ok (filter (λ r, Timestamp 2 ≤ Date r ∧ Date r ≤ Timestamp 14)
                 (cached_rows cache_file (stale_world failing_pages_site))) ∧
  fs (fetch_with_cache (Timestamp 14) (Timestamp 2) (Timestamp 14) cache_file
        (stale_world failing_pages_site)).2
    = fs (stale_world failing_pages_site).
Proof.
  apply (fetch_with_cache_fallback (Timestamp 14) (Timestamp 2) (Timestamp 14)
           cache_file (stale_world failing_pages_site)).
  reflexivity.
Defined.

(** C2 at a failing input.  The draw-list request of the site raises a
    connection error.  Called on day 14 for the range from day 2 to day 14,
    [fetch_with_cache] raises that error, both with no cache file, where C2
    promises an empty result, and with a cache file that holds the three
    rows of day 10, which lie in the requested range and which C2 promises
    as the result. *)
Theorem fetch_failure_propagates :
  (fetch_with_cache (Timestamp 14) (Timestamp 2) (Timestamp 14) cache_file
     (fresh_world unreachable_site)).1 = Raise ConnectionError ∧
  (fetch_with_cache (Timestamp 14) (Timestamp 2) (Timestamp 14) cache_file
     (stale_world unreachable_site)).1 = Raise ConnectionError ∧
  cached_rows cache_file (stale_world unreachable_site) = stale_cache ∧
  between (Timestamp 2) (Timestamp 14) stale_cache = stale_cache.
Proof. split_and!; reflexivity. Qed.

Lemma drop_duplicates_subset (df : DataFrame) (r : row) :
  r ∈ drop_index_duplicates_keep_last df → r ∈ df.
Proof.
  induction df as [|x df IH]; simpl; [done|].
  destruct (existsb _ df).
  - intros H. right. by apply IH.
  - intros H. apply elem_of_cons in H as [->|H]; [left | right; by apply IH].
Qed.

Lemma drop_duplicates_dates_NoDup (df : DataFrame) :
  NoDup (map Date (drop_index_duplicates_keep_last df)).
Proof.
  induction df as [|x df IH]; simpl; [constructor|].
  destruct (existsb _ df) eqn:E; [done|].
  simpl. constructor; [|done].
  intros Hin. apply list_elem_of_fmap in Hin as (r & Hd & Hr).
  apply drop_duplicates_subset in Hr.
  assert (existsb (λ r', Date r' =? Date x) df = true); [|congruence].
  apply existsb_exists. exists r. split; [by apply list_elem_of_In|].
  apply Z.eqb_eq. done.
Qed.

(** The merge keeps at most one row for each date. *)
Lemma combine_one_row_per_date (cached_df new_df : DataFrame) :
  NoDup (map Date (combine cached_df new_df)).
Proof.
  unfold combine, sort_index.
  rewrite sorted_Permutation. apply drop_duplicates_dates_NoDup.
Qed.

(** The merge is in ascending order of date. *)
Lemma combine_Sorted (cached_df new_df : DataFrame) :
  Sorted (λ r r', Date r ≤ Date r') (combine cached_df new_df).
Proof.
  unfold combine, sort_index.
  assert (Hs : Sorted (λ r r', (Date r <=? Date r') = true)
                 (sorted (λ r r', Date r <=? Date r')
                    (drop_index_duplicates_keep_last (cached_df ++ new_df)))).
  { apply sorted_Sorted. intros x y. rewrite !Z.leb_le. lia. }
  induction Hs as [|r l Hs IH Hhd]; constructor; [done|].
  destruct Hhd as [|r' l' Hle]; constructor. by apply Z.leb_le.
Qed.

(** C1 at a failing input.  The cache holds the three top prizes of the
    draw of day 10 and the site has a new draw on day 13 with five prizes.
    The eight records have pairwise distinct logical keys, yet the merge
    keeps only the last row of each date: the merged frame, the result of
    [fetch_with_cache] and the frame written to the cache file (with
    watermark 13) have two rows. *)
Theorem merge_drops_records_of_a_date :
  NoDup (logical_keys stale_cache ++ logical_keys new_rows) ∧
  length (stale_cache ++ new_rows) = 8%nat ∧
  (fetch_fd_results (Timestamp 11) (Timestamp 14) (stale_world site)).1 = Ok new_rows ∧
  combine stale_cache new_rows
    = [Row (Timestamp 10) "3333" FD_THIRD_PRIZE_CLASS;
       Row (Timestamp 13) "8888" FD_CONSOLATION_PRIZE_CLASS] ∧
  (fetch_with_cache (Timestamp 14) (Timestamp 2) (Timestamp 14) cache_file
     (stale_world site)).1
    = Ok [Row (Timestamp 10) "3333" FD_THIRD_PRIZE_CLASS;
          Row (Timestamp 13) "8888" FD_CONSOLATION_PRIZE_CLASS] ∧
  fs (fetch_with_cache (Timestamp 14) (Timestamp 2) (Timestamp 14) cache_file
        (stale_world site)).2 !! cache_file
    = Some (Pickle [Row (Timestamp 10) "3333" FD_THIRD_PRIZE_CLASS;
                    Row (Timestamp 13) "8888" FD_CONSOLATION_PRIZE_CLASS] 13).
Proof.
  split_and!.
  - apply (bool_decide_unpack (NoDup _)). vm_compute. exact I.
  - reflexivity.
  - reflexivity.
  - reflexivity.
  - reflexivity.
  - vm_compute. reflexivity.
Qed.

End CacheSpec.

(** ** backtest.py: the refusal on short histories *)

Module BacktestSpec.
Import Backtest.

Lemma existsb_eqb_elem_of (x : Z) (l : list Z) : existsb (Z.eqb x) l = true ↔ x ∈ l.
Proof.
  rewrite existsb_exists, list_elem_of_In. split.
  - intros (y & Hy & E). apply Z.eqb_eq in E. by subst.
  - intros H. exists x. split; [done | apply Z.eqb_refl].
Qed.

Lemma unique_from_spec (seen l : list Z) :
  NoDup (unique_from seen l) ∧
  ∀ x, x ∈ unique_from seen l ↔ x ∈ l ∧ x ∉ seen.
Proof.
  revert seen. induction l as [|y l IH]; intros seen; simpl.
  - split; [constructor|]. intros x. rewrite elem_of_nil. tauto.
  - destruct (existsb (Z.eqb y) seen) eqn:E.
    + apply existsb_eqb_elem_of in E.
      destruct (IH seen) as [Hnd Hin]. split; [done|].
      intros x. rewrite Hin, elem_of_cons. split; [tauto|].
      intros [[->|H] Hs]; tauto.
    + assert (Hy : y ∉ seen).
      { intros H. apply existsb_eqb_elem_of in H. congruence. }
      destruct (IH (y :: seen)) as [Hnd Hin]. split.
      * constructor; [|done]. rewrite Hin, elem_of_cons. tauto.
      * intros x. rewrite !elem_of_cons, Hin, elem_of_cons.
        destruct (decide (x = y)) as [->|Hne]; tauto.
Qed.

(** The length of [unique_dates] is the number of distinct draw dates. *)
Lemma length_unique_dates (df : DataFrame) :
  length (unique_dates_of df) = size (draw_dates df).
Proof.
  unfold unique_dates_of, draw_dates. rewrite length_sorted.
  destruct (unique_from_spec [] (map Date df)) as [Hnd Hin].
  rewrite <- (size_list_to_set (C := gset Z)) by done.
  f_equal. apply set_eq. intros x.
  rewrite !elem_of_list_to_set, Hin, elem_of_nil. tauto.
Qed.

Lemma max_of_spec (l : list nat) (m : nat) :
  m ∈ l → (∀ x, x ∈ l → (x ≤ m)%nat) → max_of l = Ok m.
Proof.
  destruct l as [|a l]; [intros H; by apply elem_of_nil in H|].
  intros Hin Hmax. unfold max_of. f_equal.
  assert (Hgen : ∀ l a, (a ≤ fold_left Nat.max l a)%nat ∧
                        (∀ x, x ∈ l → (x ≤ fold_left Nat.max l a)%nat) ∧
                        fold_left Nat.max l a ∈ a :: l).
  { clear. induction l as [|b l IH]; intros a; simpl.
    - split_and!; [lia | intros x H; by apply elem_of_nil in H | left].
    - destruct (IH (Nat.max a b)) as (H1 & H2 & H3). split_and!.
      + lia.
      + intros x Hx. apply elem_of_cons in Hx as [->|Hx]; [lia | by apply H2].
      + apply elem_of_cons in H3 as [H3|H3].
        * rewrite H3. destruct (Nat.max_spec a b) as [[_ ->]|[_ ->]]; [right; left | left].
        * right. by right. }
  destruct (Hgen l a) as (H1 & H2 & H3).
  apply Nat.le_antisymm.
  - by apply Hmax.
  - apply elem_of_cons in Hin as [->|Hin]; [done | by apply H2].
Qed.

Section Refusal.
Variable chisquare : list Q -> list Q -> Q * Q.

(** C6. When the number of distinct draw dates is less than
    [max(window_sizes) + 10], [backtest_digit_prediction] returns the empty
    dictionary, without error and without running any window; so does a
    history of 5 draws with [window_sizes = [12]]. *)
Theorem backtest_refuses_short_history
    (df : DataFrame) (window_sizes : list nat) (top_k_list : list Z)
    (weights : option (dict Q)) (alpha : Q) (max_window : nat) :
  max_window ∈ window_sizes →
  (∀ window, window ∈ window_sizes → (window ≤ max_window)%nat) →
  (size (draw_dates df) < max_window + 10)%nat →
  backtest_digit_prediction chisquare df window_sizes top_k_list weights alpha = Ok ∅.
Proof.
  intros Hin Hmax Hshort. unfold backtest_digit_prediction.
  rewrite (max_of_spec _ _ Hin Hmax). simpl.
  rewrite length_unique_dates.
  apply Nat.ltb_lt in Hshort. by rewrite Hshort.
Qed.

(** A run that is not refused and ends without error has an entry for each
    window size, so that the empty result stands for the refusal only. *)
Lemma backtest_windows_keys (run : nat → result window_result)
    (window_sizes : list nat) (results r : gmap nat window_result) :
  backtest_windows run window_sizes results = Ok r →
  ∀ window, window ∈ window_sizes ∨ is_Some (results !! window) → is_Some (r !! window).
Proof.
  revert results. induction window_sizes as [|w ws IH]; intros results; simpl.
  - intros [= <-] window [H|H]; [by apply elem_of_nil in H | done].
  - destruct (run w) as [wr|e]; [|done]. intros Hr window Hw.
    apply (IH _ Hr). destruct Hw as [Hw|Hw].
    + apply elem_of_cons in Hw as [->|Hw]; [right | by left].
      rewrite lookup_insert_eq. by eexists.
    + right. destruct (decide (w = window)) as [->|Hne].
      * rewrite lookup_insert_eq. by eexists.
      * by rewrite lookup_insert_ne.
Qed.

Lemma backtest_run_nonempty
    (df : DataFrame) (window_sizes : list nat) (top_k_list : list Z)
    (weights : option (dict Q)) (alpha : Q) (max_window : nat)
    (r : gmap nat window_result) :
  max_window ∈ window_sizes →
  (∀ window, window ∈ window_sizes → (window ≤ max_window)%nat) →
  (max_window + 10 ≤ size (draw_dates df))%nat →
  backtest_digit_prediction chisquare df window_sizes top_k_list weights alpha = Ok r →
  r ≠ ∅.
Proof.
  intros Hin Hmax Hlong. unfold backtest_digit_prediction.
  rewrite (max_of_spec _ _ Hin Hmax). simpl.
  rewrite length_unique_dates.
  destruct (_ <? _)%nat eqn:E; [apply Nat.ltb_lt in E; lia|].
  intros Hr ->.
  pose proof (backtest_windows_keys _ _ _ _ Hr max_window (or_introl Hin)) as [x Hx].
  by rewrite lookup_empty in Hx.
Qed.
End Refusal.

Lemma backtest_refuses_short_history_witness :
  backtest_digit_prediction (λ _ _, (0, 1)%Q)
    (map (λ d, Row (Timestamp d) "1234" FD_FIRST_PRIZE_CLASS) [1; 4; 8; 11; 15])
    [12%nat] [1; 3; 5] None 1 = Ok ∅.
Proof.
  apply (backtest_refuses_short_history (λ _ _, (0, 1)%Q)
           (map (λ d, Row (Timestamp d) "1234" FD_FIRST_PRIZE_CLASS) [1; 4; 8; 11; 15])
           [12%nat] [1; 3; 5] None 1 12%nat).
  - left.
  - intros window H. apply elem_of_cons in H as [->|H]; [done|].
    by apply elem_of_nil in H.
  - vm_compute. lia.
Defined.

End BacktestSpec.

(** ** The candidate numbers of the selected digits *)

Module GenerateSpec.

Lemma is_decimal_DECIMALS (c : ascii) : is_decimal c = true ↔ c ∈ DECIMALS.
Proof.
  split.
  - intros H. unfold is_decimal in H.
    apply andb_true_iff in H as [H1 H2]. apply N.leb_le in H1, H2.
    rewrite <- (ascii_N_embedding c).
    remember (N_of_ascii c) as n eqn:En. clear En.
    assert (n = 48 ∨ n = 49 ∨ n = 50 ∨ n = 51 ∨ n = 52 ∨ n = 53 ∨ n = 54
            ∨ n = 55 ∨ n = 56 ∨ n = 57)%N as Hor by lia.
    clear H1 H2.
    decompose [or] Hor; subst n;
      apply (bool_decide_unpack (_ ∈ DECIMALS)); vm_compute; exact I.
  - intros H. unfold DECIMALS in H.
    repeat (apply elem_of_cons in H as [->|H]; [reflexivity|]).
    by apply elem_of_nil in H.
Qed.

Lemma elem_of_three_digits (t : string) :
  t ∈ three_digits ↔
  ∃ a1 a2 a3, t = String a1 (String a2 (String a3 EmptyString))
              ∧ is_decimal a1 = true ∧ is_decimal a2 = true ∧ is_decimal a3 = true.
Proof.
  unfold three_digits. rewrite list_elem_of_bind. split.
  - intros (a1 & H & H1). apply list_elem_of_bind in H as (a2 & H & H2).
    apply list_elem_of_bind in H as (a3 & H & H3).
    apply list_elem_of_singleton in H.
    exists a1, a2, a3. by rewrite !is_decimal_DECIMALS.
  - intros (a1 & a2 & a3 & -> & H1 & H2 & H3).
    apply is_decimal_DECIMALS in H1, H2, H3.
    exists a1. split; [|done]. apply list_elem_of_bind.
    exists a2. split; [|done]. apply list_elem_of_bind.
    exists a3. split; [|done]. by apply list_elem_of_singleton.
Qed.

Lemma elem_of_numbers_with_first (c : ascii) (s : string) :
  s ∈ numbers_with_first c ↔
  ∃ a1 a2 a3, s = String c (String a1 (String a2 (String a3 EmptyString)))
              ∧ is_decimal a1 = true ∧ is_decimal a2 = true ∧ is_decimal a3 = true.
Proof.
  unfold numbers_with_first. rewrite list_elem_of_fmap. split.
  - intros (t & -> & Ht). apply elem_of_three_digits in Ht as (a1 & a2 & a3 & -> & H).
    by exists a1, a2, a3.
  - intros (a1 & a2 & a3 & -> & H). eexists. split; [reflexivity|].
    apply elem_of_three_digits. by exists a1, a2, a3.
Qed.

Lemma NoDup_three_digits : NoDup three_digits.
Proof. apply (bool_decide_unpack (NoDup three_digits)). vm_compute. exact I. Qed.

Lemma NoDup_numbers_with_first (c : ascii) : NoDup (numbers_with_first c).
Proof.
  unfold numbers_with_first. apply NoDup_fmap_2; [|apply NoDup_three_digits].
  intros t1 t2 H. by injection H.
Qed.

Lemma length_numbers_with_first (c : ascii) : length (numbers_with_first c) = 1000%nat.
Proof. unfold numbers_with_first. rewrite length_fmap. reflexivity. Qed.

(** What the inner loop adds for one of the ten digits. *)
Lemma digit_block (d : string) :
  d ∈ DIGITS →
  ∃ c n, d = chr c ∧ is_decimal c = true ∧ int d = Ok n ∧
         (λ num, zfill 4 (str num)) <$> range (n * 1000) (n * 1000 + 999 + 1)
         = numbers_with_first c.
Proof.
  intros H. unfold DIGITS in H.
  repeat (apply elem_of_cons in H as [->|H];
          [eexists _, _; split; [reflexivity|]; split; [reflexivity|];
           split; [reflexivity|]; vm_compute; reflexivity|]).
  by apply elem_of_nil in H.
Qed.

Lemma elem_of_add_numbers (nums : list Z) (g : gset string) (s : string) :
  s ∈ add_numbers nums g ↔ s ∈ g ∨ s ∈ (λ num, zfill 4 (str num)) <$> nums.
Proof.
  unfold add_numbers. revert g. induction nums as [|n nums IH]; intros g; simpl.
  - rewrite elem_of_nil. tauto.
  - rewrite IH, elem_of_union, elem_of_singleton, elem_of_cons. tauto.
Qed.

Lemma generate_loop_digits (first_digits : list string) (g0 : gset string) :
  Forall (λ d, d ∈ DIGITS) first_digits →
  ∃ g, generate_loop first_digits g0 = Ok g ∧
       ∀ s, s ∈ g ↔ s ∈ g0 ∨ ∃ c, chr c ∈ first_digits ∧ s ∈ numbers_with_first c.
Proof.
  intros H. revert g0. induction H as [|d ds Hd Hds IH]; intros g0.
  - exists g0. split; [done|]. intros s. split; [by left|].
    intros [H|(c & H & _)]; [done | by apply elem_of_nil in H].
  - destruct (digit_block d Hd) as (c & n & -> & Hc & Hint & Hblock).
    cbn [generate_loop]. rewrite Hint.
    destruct (IH (add_numbers (range (n * 1000) (n * 1000 + 999 + 1)) g0))
      as (g & Hg & Hmem).
    exists g. split; [done|]. intros s.
    rewrite Hmem, elem_of_add_numbers, Hblock. split.
    + intros [[H|H]|(c' & H & H')].
      * by left.
      * right. exists c. split; [left | done].
      * right. exists c'. split; [by right | done].
    + intros [H|(c' & H & H')]; [by left; left|].
      apply elem_of_cons in H as [H|H].
      * injection H as ->. left. by right.
      * right. exists c'. done.
Qed.

Lemma DIGITS_chr (d : string) : d ∈ DIGITS → ∃ c, d = chr c ∧ is_decimal c = true.
Proof.
  intros H. destruct (digit_block d H) as (c & n & Hd & Hc & _). by exists c.
Qed.

(** A set holding the numbers of each digit of a selection has a thousand
    elements for each distinct digit. *)
Lemma generated_size (first_digits : list string) (g : gset string) :
  Forall (λ d, d ∈ DIGITS) first_digits →
  (∀ s, s ∈ g ↔ ∃ c, chr c ∈ first_digits ∧ s ∈ numbers_with_first c) →
  size g = (1000 * size (list_to_set first_digits : gset string))%nat.
Proof.
  intros Hd Hmem'.
  set (D := elements (list_to_set first_digits : gset string)).
  assert (HD : ∀ d, d ∈ D ↔ d ∈ first_digits).
  { intros d. unfold D. by rewrite elem_of_elements, elem_of_list_to_set. }
  assert (Hg' : g = list_to_set (D ≫= numbers_of_digit)).
  { apply set_eq. intros s.
    rewrite Hmem', elem_of_list_to_set, list_elem_of_bind. split.
    - intros (c & Hc & Hs). exists (chr c). by rewrite HD.
    - intros (d & Hs & Hin). apply HD in Hin.
      rewrite Forall_forall in Hd.
      destruct (DIGITS_chr d (Hd d Hin)) as (c & -> & _). by exists c. }
  rewrite Hg', size_list_to_set.
  - unfold size at 1, set_size. simpl. fold D.
    assert (HDd : Forall (λ d, d ∈ DIGITS) D).
    { apply Forall_forall. intros d Hin. rewrite Forall_forall in Hd.
      by apply Hd, HD. }
    clear -HDd. induction HDd as [|d D Hd HD IH]; [done|].
    destruct (DIGITS_chr d Hd) as (c & -> & _).
    cbn [mbind list_bind]. rewrite length_app, IH. simpl numbers_of_digit.
    rewrite length_numbers_with_first. simpl. lia.
  - apply NoDup_bind.
    + intros d1 d2 s H1 H2 Hs1 Hs2.
      rewrite Forall_forall in Hd.
      destruct (DIGITS_chr d1 (Hd d1 (proj1 (HD d1) H1))) as (c1 & -> & _).
      destruct (DIGITS_chr d2 (Hd d2 (proj1 (HD d2) H2))) as (c2 & -> & _).
      apply elem_of_numbers_with_first in Hs1 as (? & ? & ? & -> & _).
      apply elem_of_numbers_with_first in Hs2 as (? & ? & ? & E & _).
      by injection E as ->.
    + intros d Hin. rewrite Forall_forall in Hd.
      destruct (DIGITS_chr d (Hd d (proj1 (HD d) Hin))) as (c & -> & _).
      apply NoDup_numbers_with_first.
    + apply NoDup_elements.
Qed.

Lemma generate_digits (first_digits : list string) :
  Forall (λ d, d ∈ DIGITS) first_digits →
  ∃ g, generate_numbers_from_first_digits first_digits = Ok g ∧
       ∀ s, s ∈ g ↔ ∃ c, chr c ∈ first_digits ∧ s ∈ numbers_with_first c.
Proof.
  intros Hd. unfold generate_numbers_from_first_digits.
  destruct (generate_loop_digits first_digits ∅ Hd) as (g & Hg & Hmem).
  exists g. split; [done|].
  intros s. rewrite Hmem. split; [|by right].
  intros [H|H]; [by apply not_elem_of_empty in H | done].
Qed.

(** X1. For first digits taken among "0".."9",
    [generate_numbers_from_first_digits] returns the four-character strings
    made of one of these digits followed by three decimal digits: a
    thousand numbers for each distinct digit. *)
Theorem generate_numbers_of_digits (first_digits : list string) :
  Forall (λ d, d ∈ DIGITS) first_digits →
  ∃ generated_numbers,
    generate_numbers_from_first_digits first_digits = Ok generated_numbers ∧
    (∀ s, s ∈ generated_numbers ↔
       ∃ c a1 a2 a3,
         s = String c (String a1 (String a2 (String a3 EmptyString))) ∧
         chr c ∈ first_digits ∧
         is_decimal a1 = true ∧ is_decimal a2 = true ∧ is_decimal a3 = true) ∧
    size generated_numbers
      = (1000 * size (list_to_set first_digits : gset string))%nat.
Proof.
  intros Hd.
  destruct (generate_digits first_digits Hd) as (g & Hg & Hmem').
  exists g. split; [done|]. split.
  - intros s. rewrite Hmem'. split.
    + intros (c & Hc & Hs).
      apply elem_of_numbers_with_first in Hs as (a1 & a2 & a3 & -> & H).
      by exists c, a1, a2, a3.
    + intros (c & a1 & a2 & a3 & -> & Hc & H). exists c. split; [done|].
      apply elem_of_numbers_with_first. by exists a1, a2, a3.
  - by apply generated_size.
Qed.

Lemma generate_numbers_of_digits_witness :
  ∃ generated_numbers,
    generate_numbers_from_first_digits ["2"; "7"; "2"] = Ok generated_numbers ∧
    (∀ s, s ∈ generated_numbers ↔
       ∃ c a1 a2 a3,
         s = String c (String a1 (String a2 (String a3 EmptyString))) ∧
         chr c ∈ ["2"; "7"; "2"] ∧
         is_decimal a1 = true ∧ is_decimal a2 = true ∧ is_decimal a3 = true) ∧
    size generated_numbers
      = (1000 * size (list_to_set ["2"; "7"; "2"] : gset string))%nat.
Proof.
  apply (generate_numbers_of_digits ["2"; "7"; "2"]).
  repeat (apply List.Forall_cons;
          [apply (bool_decide_unpack (_ ∈ DIGITS)); vm_compute; exact I|]).
  apply List.Forall_nil.
Defined.

End GenerateSpec.

(** ** The last draws of a frame *)

Module UtilsSpec.
Import BacktestSpec.

Lemma filter_ext_elem {A} (f g : A → bool) (l : list A) :
  (∀ x, x ∈ l → f x = g x) → List.filter f l = List.filter g l.
Proof.
  intros H. apply List.filter_ext_in. intros x Hx. apply H. by apply list_elem_of_In.
Qed.

Lemma filter_Forall {A} (P : A → Prop) (f : A → bool) (l : list A) :
  Forall P l → Forall P (List.filter f l).
Proof.
  intros H. apply Forall_forall. intros x Hx.
  apply list_elem_of_In, filter_In in Hx as [Hx _].
  rewrite Forall_forall in H. by apply H, list_elem_of_In.
Qed.

Lemma dates_desc_spec (df : DataFrame) :
  StronglySorted (λ a b, b < a) (dates_desc df) ∧
  NoDup (dates_desc df) ∧
  ∀ x, x ∈ dates_desc df ↔ x ∈ draw_dates df.
Proof.
  unfold dates_desc.
  destruct (unique_from_spec [] (map Date df)) as [Hnd Hin].
  assert (Hnd' : NoDup (sorted (λ a b, b <=? a) (Backtest.unique_from [] (map Date df)))).
  { by rewrite sorted_Permutation. }
  split_and!; [|done|].
  - assert (Hs : StronglySorted (λ a b, (b <=? a) = true)
                   (sorted (λ a b, b <=? a) (Backtest.unique_from [] (map Date df)))).
    { apply Sorted_StronglySorted.
      - intros a b c. rewrite !Z.leb_le. lia.
      - apply sorted_Sorted. intros x y. rewrite !Z.leb_le. lia. }
    induction Hs as [|a l Hs IH Hall]; [constructor|].
    apply NoDup_cons in Hnd' as [Ha Hnd'].
    constructor; [by apply IH|].
    rewrite Forall_forall in Hall |- *. intros y Hy.
    specialize (Hall y Hy). apply Z.leb_le in Hall.
    assert (y ≠ a) by (by intros ->). lia.
  - intros x. rewrite elem_of_sorted, Hin. unfold draw_dates.
    rewrite elem_of_list_to_set, elem_of_nil. tauto.
Qed.

Lemma filter_greater_none (x : Z) (l : list Z) :
  (∀ y, y ∈ l → y ≤ x) → filter (λ y, x < y) l = [].
Proof.
  induction l as [|a l IH]; intros H; [done|].
  rewrite filter_cons_False.
  - apply IH. intros y Hy. apply H. by right.
  - specialize (H a (list_elem_of_here _ _)). lia.
Qed.

(** In a strictly decreasing list, the first [n] elements are those with
    fewer than [n] greater elements. *)
Lemma elem_of_take_desc (l : list Z) (n : nat) (x : Z) :
  StronglySorted (λ a b, b < a) l →
  x ∈ take n l ↔ x ∈ l ∧ (length (filter (λ y, (x < y)%Z) l) < n)%nat.
Proof.
  intros Hs. revert n. induction Hs as [|a l Hs IH Hall]; intros n.
  - rewrite take_nil, elem_of_nil. tauto.
  - rewrite Forall_forall in Hall.
    assert (Hall' : ∀ y, y ∈ l → y < a) by exact Hall.
    destruct n as [|n]; simpl.
    + rewrite elem_of_nil. split; [tauto | intros [_ H]; lia].
    + rewrite !elem_of_cons, IH, filter_cons.
      destruct (decide (x < a)) as [Hlt|Hge]; simpl.
      * split.
        -- intros [->|[H1 H2]]; [lia|]. split; [by right | lia].
        -- intros [[->|H1] H2]; [lia|]. right. split; [done | lia].
      * split.
        -- intros [->|[H1 H2]]; [|specialize (Hall' x H1); lia].
           split; [by left|].
           rewrite filter_greater_none; [simpl; lia|].
           intros y Hy. specialize (Hall' y Hy). lia.
        -- intros [[->|H1] H2]; [by left|]. specialize (Hall' x H1). lia.
Qed.

Lemma later_draws_length (t : Z) (df : DataFrame) :
  later_draws t df = length (filter (λ y, t < y) (dates_desc df)).
Proof.
  destruct (dates_desc_spec df) as (_ & Hnd & Hin).
  unfold later_draws.
  rewrite <- (size_list_to_set (C := gset Z)) by (by apply NoDup_filter).
  f_equal. apply set_eq. intros x.
  rewrite elem_of_list_to_set, list_elem_of_filter, Hin.
  unfold draw_dates. rewrite !elem_of_list_to_set, !list_elem_of_fmap.
  split.
  - intros (r & -> & Hr). apply list_elem_of_In, filter_In in Hr as [Hr Ht].
    apply Z.ltb_lt in Ht. split; [done|]. exists r. by rewrite list_elem_of_In.
  - intros (Ht & r & -> & Hr). exists r. split; [done|].
    apply list_elem_of_In, filter_In. rewrite <- list_elem_of_In, Z.ltb_lt. done.
Qed.

(** [get_last_n_draws] keeps the rows dated on one of the first dates of
    [dates_desc]. *)
Lemma get_last_n_draws_slice (df : DataFrame) (n : Z) :
  get_last_n_draws df n
  = List.filter (fun r => bool_decide (Date r ∈ slice_to n (dates_desc df))) df.
Proof.
  unfold get_last_n_draws.
  destruct df as [|r0 df0]; [done|]. cbn [empty].
  set (df := r0 :: df0). fold (dates_desc df).
  apply filter_ext_elem. intros r Hr.
  apply eq_true_iff_eq. by rewrite existsb_eqb_elem_of, bool_decide_eq_true.
Qed.

Lemma get_last_n_draws_take (df : DataFrame) (n : Z) :
  0 ≤ n →
  get_last_n_draws df n
  = List.filter (fun r => bool_decide (Date r ∈ take (Z.to_nat n) (dates_desc df))) df.
Proof.
  intros Hn. rewrite get_last_n_draws_slice. unfold slice_to.
  by rewrite (proj2 (Z.leb_le 0 n) Hn).
Qed.

Lemma length_dates_desc (df : DataFrame) :
  length (dates_desc df) = size (draw_dates df).
Proof.
  destruct (dates_desc_spec df) as (_ & Hnd & Hin).
  rewrite <- (size_list_to_set (C := gset Z)) by done.
  f_equal. apply set_eq. intros x. by rewrite elem_of_list_to_set.
Qed.

Lemma draw_dates_last_n (df : DataFrame) (n : Z) :
  0 ≤ n →
  draw_dates (get_last_n_draws df n) = list_to_set (take (Z.to_nat n) (dates_desc df)).
Proof.
  intros Hn. rewrite get_last_n_draws_take by done.
  destruct (dates_desc_spec df) as (_ & _ & Hin).
  apply set_eq. intros x. unfold draw_dates at 1.
  rewrite !elem_of_list_to_set, list_elem_of_fmap. split.
  - intros (r & -> & Hr). apply list_elem_of_In, filter_In in Hr as [_ Hr].
    by apply bool_decide_eq_true in Hr.
  - intros Hx.
    assert (Hd : x ∈ draw_dates df).
    { apply Hin. by apply (subseteq_take (Z.to_nat n)). }
    unfold draw_dates in Hd.
    apply elem_of_list_to_set, list_elem_of_fmap in Hd as (r & -> & Hr).
    exists r. split; [done|].
    apply list_elem_of_In, filter_In. rewrite <- list_elem_of_In.
    by rewrite bool_decide_eq_true.
Qed.

Lemma last_n_draws_size (df : DataFrame) (n : Z) :
  0 ≤ n →
  size (draw_dates (get_last_n_draws df n))
  = Nat.min (Z.to_nat n) (size (draw_dates df)).
Proof.
  intros Hn. rewrite draw_dates_last_n by done.
  destruct (dates_desc_spec df) as (_ & Hnd & _).
  rewrite size_list_to_set by (eapply sublist_NoDup; [done | apply sublist_take]).
  by rewrite length_take, length_dates_desc.
Qed.

Lemma last_n_draws_whole (df : DataFrame) (n : Z) :
  Z.of_nat (size (draw_dates df)) ≤ n →
  get_last_n_draws df n = df.
Proof.
  intros Hn. rewrite get_last_n_draws_take by lia.
  rewrite take_ge by (rewrite length_dates_desc; lia).
  destruct (dates_desc_spec df) as (_ & _ & Hin).
  assert (H : ∀ r, r ∈ df → bool_decide (Date r ∈ dates_desc df) = true).
  { intros r Hr. apply bool_decide_eq_true, Hin. unfold draw_dates.
    apply elem_of_list_to_set, list_elem_of_fmap. by exists r. }
  clear Hin Hn. revert H. generalize (dates_desc df). intros U H.
  induction df as [|r df IH]; [done|].
  cbn [List.filter]. rewrite (H r) by left. f_equal.
  apply IH. intros r' Hr'. apply H. by right.
Qed.

(** X3. For [n >= 0], [get_last_n_draws df n] is the rows of [df], in
    frame order, whose date has fewer than [n] distinct later draw dates in
    [df]. *)
Theorem get_last_n_draws_spec (df : DataFrame) (n : Z) :
  0 ≤ n →
  get_last_n_draws df n
  = List.filter (fun r => Z.of_nat (later_draws (Date r) df) <? n) df.
Proof.
  intros Hn. rewrite get_last_n_draws_take by done.
  apply filter_ext_elem. intros r Hr.
  destruct (dates_desc_spec df) as (Hs & _ & Hin).
  apply eq_true_iff_eq.
  rewrite bool_decide_eq_true, (elem_of_take_desc _ _ _ Hs).
  rewrite Z.ltb_lt, later_draws_length.
  split.
  - intros [_ H]. lia.
  - intros H. split; [|lia]. apply Hin. unfold draw_dates.
    apply elem_of_list_to_set, list_elem_of_fmap. by exists r.
Qed.

Lemma get_last_n_draws_spec_witness :
  get_last_n_draws two_draws 1
  = List.filter (fun r => Z.of_nat (later_draws (Date r) two_draws) <? 1) two_draws.
Proof. apply (get_last_n_draws_spec two_draws 1). lia. Defined.

(** X4. For [n >= 0], the result of [get_last_n_draws] holds [n] distinct
    draw dates, or all of them when the frame has fewer. *)
Theorem get_last_n_draws_count (df : DataFrame) (n : Z) :
  0 ≤ n →
  size (draw_dates (get_last_n_draws df n))
  = Nat.min (Z.to_nat n) (size (draw_dates df)).
Proof. apply last_n_draws_size. Qed.

Lemma get_last_n_draws_count_witness :
  size (draw_dates (get_last_n_draws two_draws 1))
  = Nat.min (Z.to_nat 1) (size (draw_dates two_draws)).
Proof. apply (get_last_n_draws_count two_draws 1). lia. Defined.

(** X5. Asking for at least as many draws as the frame has distinct dates
    returns the frame unchanged. *)
Theorem get_last_n_draws_all (df : DataFrame) (n : Z) :
  Z.of_nat (size (draw_dates df)) ≤ n →
  get_last_n_draws df n = df.
Proof. apply last_n_draws_whole. Qed.

Lemma get_last_n_draws_all_witness : get_last_n_draws two_draws 6 = two_draws.
Proof. apply (get_last_n_draws_all two_draws 6). vm_compute. discriminate. Defined.

(** X6. Taking the last [n] draws of the last [n] draws changes nothing. *)
Theorem get_last_n_draws_idempotent (df : DataFrame) (n : Z) :
  0 ≤ n →
  get_last_n_draws (get_last_n_draws df n) n = get_last_n_draws df n.
Proof.
  intros Hn. apply last_n_draws_whole.
  rewrite last_n_draws_size by done. lia.
Qed.

Lemma get_last_n_draws_idempotent_witness :
  get_last_n_draws (get_last_n_draws two_draws 1) 1 = get_last_n_draws two_draws 1.
Proof. apply (get_last_n_draws_idempotent two_draws 1). lia. Defined.

(** X7. A negative [n] is read as a slice bound: the draws kept are all
    but the [-n] earliest, and none when the frame has no more than [-n]
    distinct dates. *)
Theorem get_last_n_draws_negative (df : DataFrame) (n : Z) :
  n < 0 →
  get_last_n_draws df n
  = get_last_n_draws df (Z.max 0 (Z.of_nat (size (draw_dates df)) + n)).
Proof.
  intros Hn. rewrite !get_last_n_draws_slice. unfold slice_to.
  rewrite (proj2 (Z.leb_gt 0 n) Hn), (proj2 (Z.leb_le 0 (Z.max 0 _))) by lia.
  rewrite length_dates_desc.
  replace (Z.to_nat (Z.max 0 (Z.of_nat (size (draw_dates df)) + n)))
    with (Z.to_nat (Z.of_nat (size (draw_dates df)) + n)) by lia.
  reflexivity.
Qed.

Lemma get_last_n_draws_negative_witness :
  get_last_n_draws two_draws (-1)
  = get_last_n_draws two_draws (Z.max 0 (Z.of_nat (size (draw_dates two_draws)) + -1)).
Proof. apply (get_last_n_draws_negative two_draws (-1)). lia. Defined.

End UtilsSpec.

(** ** The fetcher *)

Module FetcherSpec.

(** What the loop leaves of the world: the site and the files as they were,
    the request log extended. *)
Lemma fetch_loop_world (date_from date_to : Z) (ids : list string)
    (acc : list row) (w : world) :
  net (fetch_loop date_from date_to ids acc w).2 = net w ∧
  fs (fetch_loop date_from date_to ids acc w).2 = fs w ∧
  fs_writable (fetch_loop date_from date_to ids acc w).2 = fs_writable w ∧
  denied_dirs (fetch_loop date_from date_to ids acc w).2 = denied_dirs w.
Proof.
  revert acc w. induction ids as [|id ids IH]; intros acc w; [done|].
  cbn [fetch_loop].
  change (net (issue (GetResult id) w)) with (net w).
  destruct (result_page (net w) id) as [| |dt p1 p2 p3 st co].
  - exact (IH _ _).
  - exact (IH _ _).
  - destruct (dt <? date_from); [done|].
    destruct ((date_from <=? dt) && (dt <=? date_to)); [|exact (IH _ _)].
    destruct p1, p2, p3; exact (IH _ _).
Qed.

Lemma fetch_loop_rows (date_from date_to : Z) (ids : list string)
    (acc : list row) (w : world) (P : row → Prop) :
  (∀ r, date_from ≤ Date r ≤ date_to → Prize_Type r ∈ PRIZE_TYPES → P r) →
  Forall P acc →
  Forall P (fetch_loop date_from date_to ids acc w).1.
Proof.
  intros HP. revert acc w. induction ids as [|id ids IH]; intros acc w Hacc; [done|].
  cbn [fetch_loop].
  destruct (result_page _ id) as [| |dt p1 p2 p3 st co]; try by apply IH.
  destruct (dt <? date_from); [done|].
  destruct ((date_from <=? dt) && (dt <=? date_to)) eqn:E; [|by apply IH].
  apply andb_true_iff in E as [E1 E2]. apply Z.leb_le in E1, E2.
  destruct p1 as [p1|], p2 as [p2|], p3 as [p3|]; try by apply IH.
  apply IH. rewrite !Forall_app. split; [done|].
  split; [|split].
  - repeat constructor; apply HP; simpl; try lia; set_solver.
  - apply Forall_fmap, Forall_forall. intros n _. apply HP; simpl; [lia | set_solver].
  - apply Forall_fmap, Forall_forall. intros n _. apply HP; simpl; [lia | set_solver].
Qed.

Lemma fetch_fd_results_Forall (date_from date_to : Z) (w : world) (df : DataFrame) :
  (fetch_fd_results date_from date_to w).1 = Ok df →
  Forall (λ r, date_from ≤ Date r ≤ date_to ∧ Prize_Type r ∈ PRIZE_TYPES) df.
Proof.
  unfold fetch_fd_results.
  destruct (draw_list (net (issue GetDrawList w))) as [ids|e]; [|done].
  pose proof (fetch_loop_rows date_from date_to ids [] (issue GetDrawList w)
                (λ r, date_from ≤ Date r ≤ date_to ∧ Prize_Type r ∈ PRIZE_TYPES)) as H.
  destruct (fetch_loop date_from date_to ids [] (issue GetDrawList w)) as [l w'].
  simpl in *. intros [= <-]. apply H; [done | constructor].
Qed.

(** X8. Every row [fetch_fd_results] returns is dated within the range
    asked for and carries one of the five prize categories. *)
Theorem fetch_fd_results_rows (date_from date_to : Z) (w : world) (df : DataFrame) :
  (fetch_fd_results date_from date_to w).1 = Ok df →
  ∀ r, r ∈ df → date_from ≤ Date r ≤ date_to ∧ Prize_Type r ∈ PRIZE_TYPES.
Proof.
  intros H. apply Forall_forall. by apply (fetch_fd_results_Forall _ _ w).
Qed.

Lemma fetch_fd_results_rows_witness :
  (fetch_fd_results (Timestamp 11) (Timestamp 14) (stale_world site)).1 = Ok new_rows ∧
  ∀ r, r ∈ new_rows →
       Timestamp 11 ≤ Date r ≤ Timestamp 14 ∧ Prize_Type r ∈ PRIZE_TYPES.
Proof.
  split; [reflexivity|].
  apply (fetch_fd_results_rows (Timestamp 11) (Timestamp 14) (stale_world site) new_rows).
  reflexivity.
Defined.

(** Once a draw dated before [date_from] is met, the rest of the draw list
    is not read. *)
Lemma fetch_loop_stop (date_from date_to : Z) (ids1 ids2 : list string) (id : string)
    (acc : list row) (w : world) :
  dated_before date_from (result_page (net w) id) →
  fetch_loop date_from date_to (ids1 ++ id :: ids2) acc w
  = fetch_loop date_from date_to (ids1 ++ [id]) acc w.
Proof.
  intros Hold. revert acc w Hold.
  induction ids1 as [|i ids1 IH]; intros acc w Hold.
  - cbn [app fetch_loop].
    change (net (issue (GetResult id) w)) with (net w).
    destruct (result_page (net w) id) as [| |dt p1 p2 p3 st co]; try done.
    simpl in Hold. apply Z.ltb_lt in Hold. by rewrite Hold.
  - cbn [app fetch_loop].
    change (net (issue (GetResult i) w)) with (net w).
    destruct (result_page (net w) i) as [| |dt p1 p2 p3 st co].
    + by apply IH.
    + by apply IH.
    + destruct (dt <? date_from); [done|].
      destruct ((date_from <=? dt) && (dt <=? date_to)); [|by apply IH].
      destruct p1, p2, p3; by apply IH.
Qed.

Lemma fetch_loop_net (date_from date_to : Z) (ids : list string)
    (acc : list row) (w w' : world) :
  result_page (net w) = result_page (net w') →
  (fetch_loop date_from date_to ids acc w).1
    = (fetch_loop date_from date_to ids acc w').1 ∧
  (requests w = requests w' →
   requests (fetch_loop date_from date_to ids acc w).2
     = requests (fetch_loop date_from date_to ids acc w').2).
Proof.
  revert acc w w'. induction ids as [|id ids IH]; intros acc w w' Hp.
  - done.
  - cbn [fetch_loop].
    change (net (issue (GetResult id) w)) with (net w).
    change (net (issue (GetResult id) w')) with (net w').
    rewrite <- Hp.
    assert (Hq : requests w = requests w' →
                 requests (issue (GetResult id) w) = requests (issue (GetResult id) w')).
    { intros H. simpl. by rewrite H. }
    assert (Hi : ∀ acc',
              (fetch_loop date_from date_to ids acc' (issue (GetResult id) w)).1
              = (fetch_loop date_from date_to ids acc' (issue (GetResult id) w')).1 ∧
              (requests w = requests w' →
               requests (fetch_loop date_from date_to ids acc' (issue (GetResult id) w)).2
               = requests (fetch_loop date_from date_to ids acc' (issue (GetResult id) w')).2)).
    { intros acc'. destruct (IH acc' (issue (GetResult id) w) (issue (GetResult id) w') Hp)
        as [H1 H2]. split; [done|]. intros H. by apply H2, Hq. }
    destruct (result_page (net w) id) as [| |dt p1 p2 p3 st co]; try apply Hi.
    destruct (dt <? date_from); [split; [done | exact Hq]|].
    destruct ((date_from <=? dt) && (dt <=? date_to)); [|apply Hi].
    destruct p1, p2, p3; apply Hi.
Qed.

Lemma fetch_loop_requests (date_from date_to : Z) (ids : list string)
    (acc : list row) (w : world) :
  ∃ k, requests (fetch_loop date_from date_to ids acc w).2
       = requests w ++ (GetResult <$> take k ids).
Proof.
  revert acc w. induction ids as [|id ids IH]; intros acc w.
  - exists 0%nat. simpl. by rewrite app_nil_r.
  - cbn [fetch_loop].
    assert (Hi : ∀ acc',
              ∃ k, requests (fetch_loop date_from date_to ids acc' (issue (GetResult id) w)).2
                   = requests w ++ (GetResult <$> take k (id :: ids))).
    { intros acc'. destruct (IH acc' (issue (GetResult id) w)) as [k Hk].
      exists (S k). rewrite Hk. simpl. by rewrite <- app_assoc. }
    destruct (result_page _ id) as [| |dt p1 p2 p3 st co]; try apply Hi.
    destruct (dt <? date_from); [by exists 1%nat|].
    destruct ((date_from <=? dt) && (dt <=? date_to)); [|apply Hi].
    destruct p1, p2, p3; apply Hi.
Qed.

(** X9. [fetch_fd_results] reads the draw list up to the first draw dated
    before [date_from]: it requests the draw list, then result pages of a
    prefix of the list ending at that draw at the latest, and what the list
    holds after that draw changes neither the result nor the requests. *)
Theorem fetch_stops_at_old_draw (date_from date_to : Z) (w : world)
    (ids1 ids2 : list string) (id : string) :
  draw_list (net w) = Ok (ids1 ++ id :: ids2) →
  dated_before date_from (result_page (net w) id) →
  (∃ k, requests (fetch_fd_results date_from date_to w).2
        = requests w ++ GetDrawList :: (GetResult <$> take k (ids1 ++ [id]))) ∧
  ∀ ids2',
    (fetch_fd_results date_from date_to (with_draw_list (ids1 ++ id :: ids2') w)).1
      = (fetch_fd_results date_from date_to w).1 ∧
    requests (fetch_fd_results date_from date_to (with_draw_list (ids1 ++ id :: ids2') w)).2
      = requests (fetch_fd_results date_from date_to w).2.
Proof.
  intros Hl Hold. unfold fetch_fd_results.
  change (net (issue GetDrawList w)) with (net w). rewrite Hl.
  change (draw_list (net (issue GetDrawList (with_draw_list ?l w)))) with (Ok l).
  rewrite fetch_loop_stop by done.
  split.
  - destruct (fetch_loop_requests date_from date_to (ids1 ++ [id]) []
                (issue GetDrawList w)) as [k Hk].
    exists k.
    destruct (fetch_loop date_from date_to (ids1 ++ [id]) [] (issue GetDrawList w)).
    simpl in *. by rewrite Hk, <- app_assoc.
  - intros ids2'. simpl.
    rewrite (fetch_loop_stop _ _ ids1 ids2' id) by done.
    destruct (fetch_loop_net date_from date_to (ids1 ++ [id]) []
                (issue GetDrawList (with_draw_list (ids1 ++ id :: ids2') w))
                (issue GetDrawList w) eq_refl) as [H1 H2].
    specialize (H2 eq_refl).
    destruct (fetch_loop date_from date_to (ids1 ++ [id]) []
                (issue GetDrawList (with_draw_list (ids1 ++ id :: ids2') w))).
    destruct (fetch_loop date_from date_to (ids1 ++ [id]) [] (issue GetDrawList w)).
    simpl in *. by subst.
Qed.

Lemma fetch_stops_at_old_draw_witness :
  (∃ k, requests (fetch_fd_results (Timestamp 11) (Timestamp 14) (stale_world site)).2
        = requests (stale_world site)
          ++ GetDrawList :: (GetResult <$> take k (["5120"] ++ ["5119"]))) ∧
  ∀ ids2',
    (fetch_fd_results (Timestamp 11) (Timestamp 14)
       (with_draw_list (["5120"] ++ "5119" :: ids2') (stale_world site))).1
      = (fetch_fd_results (Timestamp 11) (Timestamp 14) (stale_world site)).1 ∧
    requests (fetch_fd_results (Timestamp 11) (Timestamp 14)
                (with_draw_list (["5120"] ++ "5119" :: ids2') (stale_world site))).2
      = requests (fetch_fd_results (Timestamp 11) (Timestamp 14) (stale_world site)).2.
Proof.
  apply (fetch_stops_at_old_draw (Timestamp 11) (Timestamp 14) (stale_world site)
           ["5120"] [] "5119").
  - reflexivity.
  - vm_compute. reflexivity.
Defined.

End FetcherSpec.

(** ** The cache: what is written and what comes back *)

Module CacheFacts.
Import FetcherSpec.

Lemma fetch_fd_results_dirs (date_from date_to : Z) (w : world) :
  denied_dirs (fetch_fd_results date_from date_to w).2 = denied_dirs w.
Proof.
  unfold fetch_fd_results.
  destruct (draw_list (net (issue GetDrawList w))) as [ids|e]; [|done].
  pose proof (fetch_loop_world date_from date_to ids [] (issue GetDrawList w))
    as (_ & _ & _ & H).
  destruct (fetch_loop date_from date_to ids [] (issue GetDrawList w)). done.
Qed.

(** The three outcomes of [save_cache]: the directory cannot be made and
    the call raises; the file is written; the write fails and is absorbed. *)
Lemma save_cache_cases (cache_file : string) (df : DataFrame) (last_date : Z)
    (w : world) :
  (∃ e, makedirs (dirname cache_file) w = Raise e ∧
        save_cache cache_file df last_date w = (Raise e, w)) ∨
  (makedirs (dirname cache_file) w = Ok tt ∧ fs_writable w = true ∧
   save_cache cache_file df last_date w
   = (Ok tt, write_file cache_file (Pickle df last_date) w)) ∨
  (makedirs (dirname cache_file) w = Ok tt ∧ fs_writable w = false ∧
   save_cache cache_file df last_date w = (Ok tt, w)).
Proof.
  unfold save_cache.
  destruct (makedirs (dirname cache_file) w) as [[]|e]; [|left; by exists e].
  right. destruct (fs_writable w); [left | right]; done.
Qed.

(** Loading after a save that wrote the file: the saved frame and
    watermark come back unless the frame is empty, and the other files load
    as before. *)
Lemma load_after_save (cache_file other : string) (df : DataFrame) (last_date : Z)
    (w w1 : world) :
  save_cache cache_file df last_date w = (Ok tt, w1) →
  fs_writable w = true →
  load_cache other w1
  = if decide (other = cache_file)
    then (if empty df then None else Some (df, last_date))
    else load_cache other w.
Proof.
  intros Hs Hw.
  destruct (save_cache_cases cache_file df last_date w)
    as [(e & _ & H)|[(_ & _ & H)|(_ & Hw' & _)]]; [congruence | | congruence].
  rewrite H in Hs. injection Hs as <-. unfold load_cache. simpl.
  destruct (decide (other = cache_file)) as [->|Hne].
  - rewrite lookup_insert_eq. by destruct df.
  - by rewrite lookup_insert_ne.
Qed.

Lemma index_max_fold (l : list Z) (a : Z) :
  a ≤ fold_left Z.max l a ∧
  (∀ x, x ∈ l → x ≤ fold_left Z.max l a) ∧
  fold_left Z.max l a ∈ a :: l.
Proof.
  revert a. induction l as [|b l IH]; intros a; simpl.
  - split_and!; [lia | intros x H; by apply elem_of_nil in H | left].
  - destruct (IH (Z.max a b)) as (H1 & H2 & H3). split_and!.
    + lia.
    + intros x Hx. apply elem_of_cons in Hx as [->|Hx]; [lia | by apply H2].
    + apply elem_of_cons in H3 as [H3|H3].
      * rewrite H3. destruct (Z.max_spec a b) as [[_ ->]|[_ ->]]; [right; left | left].
      * right. by right.
Qed.

(** [index_max] is the greatest index of a non-empty frame. *)
Lemma index_max_spec (df : DataFrame) :
  df ≠ [] →
  (∀ r, r ∈ df → Date r ≤ index_max df) ∧ ∃ r, r ∈ df ∧ Date r = index_max df.
Proof.
  destruct df as [|r0 df]; [done|]. intros _. unfold index_max.
  destruct (index_max_fold (map Date df) (Date r0)) as (H1 & H2 & H3). split.
  - intros r Hr. apply elem_of_cons in Hr as [->|Hr]; [done|].
    apply H2, list_elem_of_fmap. by exists r.
  - change (Date r0 :: map Date df) with (Date <$> (r0 :: df)) in H3.
    apply list_elem_of_fmap in H3 as (r & E & Hr). by exists r.
Qed.

Lemma date_mono (a b : Z) : a ≤ b → date a ≤ date b.
Proof. intros H. unfold date. apply Z.div_le_mono; [done | lia]. Qed.

Lemma combine_nonempty (cached_df new_df : DataFrame) :
  new_df ≠ [] → combine cached_df new_df ≠ [].
Proof.
  intros Hne Hnil. unfold combine, sort_index in Hnil.
  apply sorted_nil_inv in Hnil.
  assert (H : ∀ df, df ≠ [] → drop_index_duplicates_keep_last df ≠ []).
  { clear. induction df as [|r df IH]; [done|]. intros _. simpl.
    destruct (existsb _ df) eqn:E; [|done].
    apply IH. by destruct df. }
  apply (H (cached_df ++ new_df)); [|done].
  destruct cached_df; [done | done].
Qed.

(** What a save of a non-empty frame, stored with the date of its latest
    row, does to the files. *)
Lemma save_cache_writes (cache_file : string) (df : DataFrame) (w : world) :
  df ≠ [] →
  (∀ other, other ≠ cache_file →
     fs (save_cache cache_file df (date (index_max df)) w).2 !! other = fs w !! other) ∧
  (fs (save_cache cache_file df (date (index_max df)) w).2 !! cache_file
     = fs w !! cache_file
   ∨ ∃ df' last_date,
       fs (save_cache cache_file df (date (index_max df)) w).2 !! cache_file
         = Some (Pickle df' last_date) ∧
       df' ≠ [] ∧
       (∀ r, r ∈ df' → date (Date r) ≤ last_date) ∧
       (∃ r, r ∈ df' ∧ date (Date r) = last_date)).
Proof.
  intros Hne.
  destruct (save_cache_cases cache_file df (date (index_max df)) w)
    as [(e & _ & ->)|[(_ & _ & ->)|(_ & _ & ->)]]; simpl.
  - by split; [|left].
  - split.
    + intros other Ho. by rewrite lookup_insert_ne.
    + right. exists df, (date (index_max df)). rewrite lookup_insert_eq.
      destruct (index_max_spec df Hne) as [Hmax (r & Hr & E)].
      split_and!; [done | done | |].
      * intros r' Hr'. by apply date_mono, Hmax.
      * exists r. by rewrite E.
  - by split; [|left].
Qed.

(** The world a call leaves: that of its fetch, if any, or that of the
    save of a non-empty frame made after the fetch. *)
Lemma fetch_with_cache_world
    (now date_from date_to : Z) (cache_file : string) (w : world) :
  fs (fetch_with_cache now date_from date_to cache_file w).2 = fs w ∨
  ∃ df w',
    df ≠ [] ∧ fs w' = fs w ∧
    (fetch_with_cache now date_from date_to cache_file w).2
    = (save_cache cache_file df (date (index_max df)) w').2.
Proof.
  unfold fetch_with_cache.
  destruct (load_cache cache_file w) as [[cached_df last]|].
  - destruct (date now <=? date (index_max cached_df)); [by left|].
    match goal with |- context [fetch_fd_results ?f ?t w] =>
      pose proof (CacheSpec.fetch_fd_results_fs f t w) as [Hfs _];
      destruct (fetch_fd_results f t w) as [[new_df|e] w'] end; simpl in Hfs.
    + destruct new_df as [|r0 new_df]; simpl; [by left|].
      right. exists (combine cached_df (r0 :: new_df)), w'.
      split; [by apply combine_nonempty|]. split; [done|].
      by destruct (save_cache _ _ _ w') as [[[]|e] w2].
    + by left.
  - pose proof (CacheSpec.fetch_fd_results_fs date_from date_to w) as [Hfs _].
    destruct (fetch_fd_results date_from date_to w) as [[df|e] w']; simpl in Hfs.
    + destruct df as [|r0 df]; simpl; [by left|].
      right. exists (r0 :: df), w'. split; [done|]. split; [done|].
      by destruct (save_cache _ _ _ w') as [[[]|e] w2].
    + by left.
Qed.

(** X11. What [fetch_with_cache] writes: no file other than its cache
    file, and in the cache file, if it changes at all, a non-empty frame
    stored with the date of its latest row as watermark. *)
Theorem fetch_with_cache_writes
    (now date_from date_to : Z) (cache_file : string) (w : world) :
  (∀ other, other ≠ cache_file →
     fs (fetch_with_cache now date_from date_to cache_file w).2 !! other
     = fs w !! other) ∧
  (fs (fetch_with_cache now date_from date_to cache_file w).2 !! cache_file
     = fs w !! cache_file
   ∨ ∃ df last_date,
       fs (fetch_with_cache now date_from date_to cache_file w).2 !! cache_file
         = Some (Pickle df last_date) ∧
       df ≠ [] ∧
       (∀ r, r ∈ df → date (Date r) ≤ last_date) ∧
       (∃ r, r ∈ df ∧ date (Date r) = last_date)).
Proof.
  destruct (fetch_with_cache_world now date_from date_to cache_file w)
    as [->|(df & w' & Hne & Hfs & ->)]; [by split; [|left]|].
  rewrite <- Hfs. by apply save_cache_writes.
Qed.

Lemma between_in_range (date_from date_to : Z) (df : DataFrame) (r : row) :
  r ∈ between date_from date_to df → date_from ≤ Date r ≤ date_to.
Proof.
  unfold between. intros H. apply list_elem_of_In, filter_In in H as [_ H].
  apply andb_true_iff in H as [H1 H2]. apply Z.leb_le in H1, H2. lia.
Qed.

Lemma between_all (date_from date_to : Z) (df : DataFrame) :
  (∀ r, r ∈ df → date_from ≤ Date r ≤ date_to) → between date_from date_to df = df.
Proof.
  unfold between. induction df as [|r df IH]; intros H; [done|].
  cbn [List.filter].
  destruct (H r (list_elem_of_here _ _)) as [H1 H2].
  apply Z.leb_le in H1, H2. rewrite H1, H2. simpl. f_equal.
  apply IH. intros r' Hr'. apply H. by right.
Qed.

(** X12. Whatever the path taken (cache hit, incremental update or full
    fetch), the rows [fetch_with_cache] returns are dated within the range
    asked for. *)
Theorem fetch_with_cache_in_range
    (now date_from date_to : Z) (cache_file : string) (w : world) (df : DataFrame) :
  (fetch_with_cache now date_from date_to cache_file w).1 = Ok df →
  ∀ r, r ∈ df → date_from ≤ Date r ≤ date_to.
Proof.
  unfold fetch_with_cache.
  destruct (load_cache cache_file w) as [[cached_df last]|].
  - destruct (date now <=? date (index_max cached_df)).
    { intros [= <-] r. apply between_in_range. }
    destruct (fetch_fd_results _ date_to w) as [[new_df|e] w']; [|done].
    destruct (negb (empty new_df)).
    + destruct (save_cache _ _ _ w') as [[[]|e] w2]; [|done].
      intros [= <-] r. apply between_in_range.
    + intros [= <-] r. apply between_in_range.
  - pose proof (fetch_fd_results_Forall date_from date_to w) as Hrows.
    destruct (fetch_fd_results date_from date_to w) as [[new_df|e] w']; [|done].
    simpl in Hrows. specialize (Hrows new_df eq_refl).
    rewrite Forall_forall in Hrows.
    destruct (negb (empty new_df)).
    + destruct (save_cache _ _ _ w') as [[[]|e] w2]; [|done].
      intros [= <-] r Hr. by apply Hrows.
    + intros [= <-] r Hr. by apply Hrows.
Qed.

Lemma fetch_with_cache_in_range_witness :
  (fetch_with_cache (Timestamp 14) (Timestamp 11) (Timestamp 14) cache_file
     (fresh_world site)).1 = Ok new_rows ∧
  ∀ r, r ∈ new_rows → Timestamp 11 ≤ Date r ≤ Timestamp 14.
Proof.
  split; [vm_compute; reflexivity|].
  apply (fetch_with_cache_in_range (Timestamp 14) (Timestamp 11) (Timestamp 14)
           cache_file (fresh_world site) new_rows).
  vm_compute. reflexivity.
Defined.

(** X13. A first run without usable cache that returns the rows it
    fetched, in a world where the cache file can be written, has stored
    them with the date of the newest one, and a later call for the same
    range, made on a day not after that date, answers from the cache: same
    rows, no request, nothing written. *)
Theorem first_run_then_cached
    (now now' date_from date_to : Z) (cache_file : string) (w w1 : world)
    (df : DataFrame) :
  load_cache cache_file w = None →
  fs_writable w = true →
  fetch_with_cache now date_from date_to cache_file w = (Ok df, w1) →
  df ≠ [] →
  date now' ≤ date (index_max df) →
  load_cache cache_file w1 = Some (df, date (index_max df)) ∧
  fetch_with_cache now' date_from date_to cache_file w1 = (Ok df, w1).
Proof.
  intros Hload Hw Hfetch Hne Hup.
  unfold fetch_with_cache in Hfetch. rewrite Hload in Hfetch.
  pose proof (CacheSpec.fetch_fd_results_fs date_from date_to w) as [_ Hw'].
  pose proof (fetch_fd_results_Forall date_from date_to w) as Hrows.
  destruct (fetch_fd_results date_from date_to w) as [[df0|e] w']; [|done].
  simpl in Hw', Hrows. specialize (Hrows df0 eq_refl).
  destruct (empty df0) eqn:Eempty; cbn [negb] in Hfetch.
  { injection Hfetch as <- <-. by destruct df0. }
  destruct (save_cache cache_file df0 (date (index_max df0)) w')
    as [[[]|e] w2] eqn:Es; [|done].
  injection Hfetch as <- <-.
  assert (Hl : load_cache cache_file w2 = Some (df0, date (index_max df0))).
  { rewrite (load_after_save cache_file cache_file df0 (date (index_max df0)) w' w2 Es)
      by congruence.
    by rewrite decide_True, Eempty. }
  split; [done|].
  unfold fetch_with_cache. rewrite Hl.
  apply Z.leb_le in Hup. rewrite Hup. rewrite between_all; [done|].
  intros r Hr. rewrite Forall_forall in Hrows. by apply Hrows.
Qed.

Lemma first_run_then_cached_witness :
  load_cache cache_file
    (fetch_with_cache (Timestamp 13 + 7) (Timestamp 11) (Timestamp 14) cache_file
       (fresh_world site)).2
    = Some (new_rows, date (index_max new_rows)) ∧
  fetch_with_cache (Timestamp 13 + 9) (Timestamp 11) (Timestamp 14) cache_file
    (fetch_with_cache (Timestamp 13 + 7) (Timestamp 11) (Timestamp 14) cache_file
       (fresh_world site)).2
  = (Ok new_rows,
     (fetch_with_cache (Timestamp 13 + 7) (Timestamp 11) (Timestamp 14) cache_file
        (fresh_world site)).2).
Proof.
  apply (first_run_then_cached (Timestamp 13 + 7) (Timestamp 13 + 9)
           (Timestamp 11) (Timestamp 14) cache_file (fresh_world site)).
  - reflexivity.
  - reflexivity.
  - vm_compute. reflexivity.
  - discriminate.
  - vm_compute. discriminate.
Defined.

Lemma fetch_fd_results_net (date_from date_to : Z) (w w' : world) :
  net w = net w' →
  (fetch_fd_results date_from date_to w).1 = (fetch_fd_results date_from date_to w').1.
Proof.
  intros Hn. unfold fetch_fd_results.
  change (net (issue GetDrawList w)) with (net w).
  change (net (issue GetDrawList w')) with (net w'). rewrite <- Hn.
  destruct (draw_list (net w)) as [ids|e]; [|done].
  destruct (fetch_loop_net date_from date_to ids []
              (issue GetDrawList w) (issue GetDrawList w')) as [H _].
  { simpl. by rewrite Hn. }
  destruct (fetch_loop date_from date_to ids [] (issue GetDrawList w)).
  destruct (fetch_loop date_from date_to ids [] (issue GetDrawList w')).
  simpl in *. by subst.
Qed.

(** A save in two worlds that differ in whether the file can be written:
    the same outcome, and no file changed where it cannot. *)
Lemma save_cache_unwritable (cache_file : string) (df : DataFrame) (last_date : Z)
    (w1 w2 : world) :
  fs_writable w1 = false →
  denied_dirs w1 = denied_dirs w2 →
  (save_cache cache_file df last_date w1).1 = (save_cache cache_file df last_date w2).1 ∧
  fs (save_cache cache_file df last_date w1).2 = fs w1.
Proof.
  intros Hw Hd. unfold save_cache, makedirs. rewrite Hw, Hd.
  destruct (String.eqb _ _); [done|].
  by destruct (bool_decide _).
Qed.

(** X14. A cache file that cannot be opened for writing changes no
    result: [fetch_with_cache] returns (or raises) what it does where the
    file can be written, and leaves the files as they were. *)
Theorem fetch_with_cache_unwritable
    (now date_from date_to : Z) (cache_file : string) (w : world) :
  (fetch_with_cache now date_from date_to cache_file (with_writable false w)).1
    = (fetch_with_cache now date_from date_to cache_file w).1 ∧
  fs (fetch_with_cache now date_from date_to cache_file (with_writable false w)).2
    = fs w.
Proof.
  unfold fetch_with_cache.
  change (load_cache cache_file (with_writable false w)) with (load_cache cache_file w).
  assert (Hcase : ∀ f t (df : DataFrame → DataFrame) (ret : DataFrame → DataFrame)
                    (alt : DataFrame → result DataFrame),
    (match fetch_fd_results f t (with_writable false w) with
     | (Raise e, w0) => (Raise e, w0)
     | (Ok new_df, w0) =>
         if negb (empty new_df) then
           match save_cache cache_file (df new_df) (date (index_max (df new_df))) w0 with
           | (Raise e, w0) => (Raise e, w0)
           | (Ok _, w0) => (Ok (ret new_df), w0)
           end
         else (alt new_df, w0)
     end).1
    = (match fetch_fd_results f t w with
       | (Raise e, w0) => (Raise e, w0)
       | (Ok new_df, w0) =>
           if negb (empty new_df) then
             match save_cache cache_file (df new_df) (date (index_max (df new_df))) w0 with
             | (Raise e, w0) => (Raise e, w0)
             | (Ok _, w0) => (Ok (ret new_df), w0)
             end
           else (alt new_df, w0)
       end).1 ∧
    fs (match fetch_fd_results f t (with_writable false w) with
        | (Raise e, w0) => (Raise e, w0)
        | (Ok new_df, w0) =>
            if negb (empty new_df) then
              match save_cache cache_file (df new_df) (date (index_max (df new_df))) w0 with
              | (Raise e, w0) => (Raise e, w0)
              | (Ok _, w0) => (Ok (ret new_df), w0)
              end
            else (alt new_df, w0)
        end).2 = fs w).
  { intros f t df ret alt.
    pose proof (fetch_fd_results_net f t (with_writable false w) w eq_refl) as Hn.
    pose proof (CacheSpec.fetch_fd_results_fs f t (with_writable false w)) as [Hfs Hw].
    pose proof (fetch_fd_results_dirs f t (with_writable false w)) as Hd1.
    pose proof (fetch_fd_results_dirs f t w) as Hd2.
    destruct (fetch_fd_results f t (with_writable false w)) as [[new_df|e] w1];
      destruct (fetch_fd_results f t w) as [[new_df'|e'] w2];
      simpl in *; try discriminate.
    - injection Hn as ->.
      destruct (negb (empty new_df')); [|done].
      destruct (save_cache_unwritable cache_file (df new_df')
                  (date (index_max (df new_df'))) w1 w2 Hw) as [H1 H2].
      { congruence. }
      destruct (save_cache _ _ _ w1) as [[[]|e1] w1'];
        destruct (save_cache _ _ _ w2) as [[[]|e2] w2'];
        simpl in *; try discriminate; split; congruence.
    - by injection Hn as ->. }
  destruct (load_cache cache_file w) as [[cached_df last]|].
  - destruct (date now <=? date (index_max cached_df)); [done|].
    match goal with |- context [fetch_fd_results ?f ?t w] =>
      exact (Hcase f t (λ new_df, combine cached_df new_df)
               (λ new_df, between date_from date_to (combine cached_df new_df))
               (λ _, Ok (between date_from date_to cached_df))) end.
  - exact (Hcase date_from date_to (λ df, df) (λ df, df) (λ df, Ok df)).
Qed.

(** X27. A directory that cannot be made is not absorbed: when a call
    without usable cache fetches rows and [os.makedirs] raises for the
    directory part of the cache path (as it does when the path has none),
    [fetch_with_cache] raises the same after the fetch; the rows fetched are
    neither returned nor stored. *)
Theorem fetch_with_cache_save_failure
    (now date_from date_to : Z) (cache_file : string) (w : world)
    (df : DataFrame) (e : exn) :
  load_cache cache_file w = None →
  (fetch_fd_results date_from date_to w).1 = Ok df →
  df ≠ [] →
  makedirs (dirname cache_file) w = Raise e →
  fetch_with_cache now date_from date_to cache_file w
  = (Raise e, (fetch_fd_results date_from date_to w).2) ∧
  fs (fetch_with_cache now date_from date_to cache_file w).2 = fs w.
Proof.
  intros Hload Hfetch Hne Hmk. unfold fetch_with_cache. rewrite Hload.
  pose proof (CacheSpec.fetch_fd_results_fs date_from date_to w) as [Hfs _].
  pose proof (fetch_fd_results_dirs date_from date_to w) as Hd.
  destruct (fetch_fd_results date_from date_to w) as [[df0|e0] w']; [|done].
  simpl in *. injection Hfetch as ->.
  destruct df as [|r0 df]; [done|]. cbn [empty negb].
  unfold save_cache.
  assert (Hmk' : makedirs (dirname cache_file) w' = Raise e).
  { unfold makedirs in *. by rewrite Hd. }
  by rewrite Hmk'.
Qed.

Lemma fetch_with_cache_save_failure_witness :
  fetch_with_cache (Timestamp 14) (Timestamp 11) (Timestamp 14) "fd_results.pkl"
    (fresh_world site)
  = (Raise FileNotFoundError,
     (fetch_fd_results (Timestamp 11) (Timestamp 14) (fresh_world site)).2) ∧
  fs (fetch_with_cache (Timestamp 14) (Timestamp 11) (Timestamp 14) "fd_results.pkl"
        (fresh_world site)).2
  = fs (fresh_world site).
Proof.
  apply (fetch_with_cache_save_failure (Timestamp 14) (Timestamp 11) (Timestamp 14)
           "fd_results.pkl" (fresh_world site) new_rows FileNotFoundError).
  - reflexivity.
  - reflexivity.
  - discriminate.
  - reflexivity.
Defined.

End CacheFacts.

(** ** Weighted first-digit counts *)

Module WeightedSpec.
Import SmoothingSpec ExtractionSpec.

Lemma DIGITS_decimal (c : ascii) : chr c ∈ DIGITS → is_decimal c = true.
Proof.
  intros H. unfold DIGITS in H.
  repeat (apply elem_of_cons in H as [H|H]; [injection H as ->; reflexivity|]).
  by apply elem_of_nil in H.
Qed.

Lemma rows_leading_cons (c : ascii) (r : row) (df : DataFrame) :
  rows_leading c (r :: df)
  = if leading_char_is c (Prize_Number r) then r :: rows_leading c df
    else rows_leading c df.
Proof. reflexivity. Qed.

Lemma weighted_loop_spec (weights : dict Q) (rows : DataFrame) (wc : dict Q) :
  keys wc = DIGITS →
  if existsb (λ r, odd_digit (Prize_Number r)) rows
  then weighted_loop weights rows wc = Raise KeyError
  else ∃ wc', weighted_loop weights rows wc = Ok wc' ∧ keys wc' = DIGITS ∧
        ∀ c q, is_decimal c = true → dict_get (chr c) wc = Some q →
          ∃ q', dict_get (chr c) wc' = Some q' ∧
                (q' == q + sum (row_weight weights <$> rows_leading c rows))%Q.
Proof.
  revert wc. induction rows as [|r rows IH]; intros wc Hkeys.
  - simpl. exists wc. split; [done|]. split; [done|].
    intros c q _ Hq. exists q. split; [done|]. unfold sum. simpl. ring.
  - cbn [existsb weighted_loop]. unfold odd_digit at 1.
    assert (Hskip :
      (∀ c, is_decimal c = true → leading_char_is c (Prize_Number r) = false) →
      if existsb (λ r, odd_digit (Prize_Number r)) rows
      then weighted_loop weights rows wc = Raise KeyError
      else ∃ wc', weighted_loop weights rows wc = Ok wc' ∧ keys wc' = DIGITS ∧
            ∀ c q, is_decimal c = true → dict_get (chr c) wc = Some q →
              ∃ q', dict_get (chr c) wc' = Some q' ∧
                    (q' == q + sum (row_weight weights <$> rows_leading c (r :: rows)))%Q).
    { intros Hno. specialize (IH wc Hkeys).
      destruct (existsb _ rows); [done|].
      destruct IH as (wc' & H1 & H2 & H3). exists wc'. split; [done|]. split; [done|].
      intros c q Hc Hq. rewrite rows_leading_cons, (Hno c Hc). by apply H3. }
    destruct (strip (Prize_Number r)) as [|c0 t] eqn:Es.
    { cbn [orb]. apply Hskip. intros c _. unfold leading_char_is. by rewrite Es. }
    destruct (isdigit c0) eqn:Ed; cbn [andb orb].
    2:{ apply Hskip. intros c Hc. unfold leading_char_is. rewrite Es.
        destruct (Ascii.eqb c0 c) eqn:E; [|done].
        apply Ascii.eqb_eq in E. subst c0.
        apply is_decimal_isdigit in Hc. congruence. }
    destruct (is_decimal c0) eqn:Hc0; cbn [negb orb].
    + pose proof (decimal_in_DIGITS c0 Hc0) as Hin. rewrite <- Hkeys in Hin.
      destruct (dict_get_keys (chr c0) wc Hin) as (w0 & Hw0 & _).
      unfold dict_getitem. rewrite Hw0.
      specialize (IH (dict_set (chr c0) (w0 + row_weight weights r)%Q wc)).
      rewrite (keys_dict_set _ _ _ _ Hw0) in IH. specialize (IH Hkeys).
      fold (row_weight weights r).
      destruct (existsb _ rows); [done|].
      destruct IH as (wc' & H1 & H2 & H3). exists wc'. split; [done|]. split; [done|].
      intros c q Hc Hq. rewrite rows_leading_cons. unfold leading_char_is at 1.
      rewrite Es.
      destruct (H3 c (if Ascii.eqb c0 c then (w0 + row_weight weights r)%Q else q) Hc)
        as (q' & Hq' & Eq).
      { rewrite dict_get_set, chr_inj, (Ascii.eqb_sym c c0).
        destruct (Ascii.eqb c0 c); done. }
      exists q'. split; [done|]. rewrite Eq.
      destruct (Ascii.eqb c0 c) eqn:E.
      * apply Ascii.eqb_eq in E. subst c0. rewrite Hw0 in Hq. injection Hq as ->.
        rewrite fmap_cons, sum_cons. ring.
      * reflexivity.
    + assert (Hnone : dict_get (chr c0) wc = None).
      { apply dict_get_None_keys. rewrite Hkeys. intros H.
        apply DIGITS_decimal in H. congruence. }
      unfold dict_getitem. by rewrite Hnone.
Qed.

Lemma zero_counts_get (c : ascii) :
  is_decimal c = true → dict_get (chr c) (map (λ d, (d, 0%Q)) DIGITS) = Some 0%Q.
Proof.
  intros Hc. pose proof (decimal_in_DIGITS c Hc) as Hin.
  repeat (apply elem_of_cons in Hin as [->|Hin]; [reflexivity|]).
  by apply elem_of_nil in Hin.
Qed.

Lemma extract_loop_inv (nums first_digits result : list string) :
  extract_loop nums first_digits = Ok result →
  result = first_digits ++ flat_map first_digit_of nums.
Proof.
  revert first_digits. induction nums as [|s nums IH]; intros first_digits; simpl.
  - intros [= <-]. by rewrite app_nil_r.
  - unfold first_digit_of at 1. destruct s as [|a s].
    + simpl. apply IH.
    + cbn [String.length Nat.leb].
      destruct (strip (String a s)) as [|c t]; [done|]. simpl.
      destruct (isdigit c); intros H; apply IH in H; [|done].
      by rewrite <- app_assoc in H.
Qed.

Lemma sum_unit (weights : dict Q) (rows : DataFrame) :
  Forall (λ r, row_weight weights r == 1)%Q rows →
  (sum (row_weight weights <$> rows) == inject_Z (Z.of_nat (length rows)))%Q.
Proof.
  induction 1 as [|r rows Hr Hrows IH].
  - reflexivity.
  - rewrite fmap_cons, sum_cons, IH, Hr. cbn [length].
    rewrite Nat2Z.inj_succ, <- Z.add_1_r, inject_Z_plus.
    change (inject_Z 1) with 1%Q. ring.
Qed.

(** X16. When every row weighs 1, the weighted counts are the plain
    counts of [analyze_first_digit_by_prize_type] over all prize types. *)
Theorem weighted_counts_with_unit_weights
    (df : DataFrame) (weights : option (dict Q)) (digit_counts weighted_counts : dict Q) :
  Forall (λ r, row_weight (default DEFAULT_PRIZE_WEIGHTS weights) r == 1)%Q df →
  analyze_first_digit_by_prize_type df None = Ok digit_counts →
  analyze_first_digit_weighted df weights = Ok weighted_counts →
  ∀ d, d ∈ DIGITS →
    ∃ q1 q2, dict_get d digit_counts = Some q1 ∧
             dict_get d weighted_counts = Some q2 ∧ (q1 == q2)%Q.
Proof.
  intros Hunit Hc Hw d Hd.
  assert (∃ c, d = chr c ∧ is_decimal c = true) as (c & -> & Hdec).
  { unfold DIGITS in Hd.
    repeat (apply elem_of_cons in Hd as [->|Hd];
            [eexists; split; [reflexivity | reflexivity]|]).
    by apply elem_of_nil in Hd. }
  unfold analyze_first_digit_weighted in Hw.
  pose proof (weighted_loop_spec (default DEFAULT_PRIZE_WEIGHTS weights) df
                (map (λ d, (d, 0%Q)) DIGITS) eq_refl) as Hspec.
  rewrite Hw in Hspec. destruct (existsb _ df); [done|].
  destruct Hspec as (wc & [= <-] & _ & Hq2).
  destruct (Hq2 c 0%Q Hdec (zero_counts_get c Hdec)) as (q2 & Hg2 & E2).
  unfold analyze_first_digit_by_prize_type, extract_first_digits in Hc.
  destruct (extract_loop (prize_numbers df) []) as [fds|e] eqn:Eext; [|done].
  simpl in Hc. injection Hc as <-.
  apply extract_loop_inv in Eext. simpl in Eext. subst fds.
  destruct (count_fold_get (flat_map first_digit_of (prize_numbers df))
              (map (λ d, (d, 0%Q)) DIGITS) (chr c) 0%Q (zero_counts_get c Hdec))
    as (q1 & Hg1 & E1).
  exists q1, q2. split; [done|]. split; [done|].
  rewrite E1, E2, count_first_digits by done.
  rewrite sum_unit.
  - unfold rows_leading. ring.
  - unfold rows_leading. apply Forall_forall. intros r Hr.
    rewrite Forall_forall in Hunit. apply Hunit.
    apply list_elem_of_In, filter_In in Hr as [Hr _]. by apply list_elem_of_In.
Qed.

Lemma weighted_counts_with_unit_weights_witness :
  analyze_first_digit_weighted
    [Row 0 "0420" FD_FIRST_PRIZE_CLASS; Row 0 "x1" FD_SECOND_PRIZE_CLASS;
     Row 0 " 07" FD_STARTER_PRIZE_CLASS]
    (Some [])
  = Ok (count_digits ["0"; "0"]) ∧
  ∀ d, d ∈ DIGITS →
    ∃ q1 q2, dict_get d (count_digits ["0"; "0"]) = Some q1 ∧
             dict_get d (count_digits ["0"; "0"]) = Some q2 ∧ (q1 == q2)%Q.
Proof.
  split; [reflexivity|].
  apply (weighted_counts_with_unit_weights
           [Row 0 "0420" FD_FIRST_PRIZE_CLASS; Row 0 "x1" FD_SECOND_PRIZE_CLASS;
            Row 0 " 07" FD_STARTER_PRIZE_CLASS]
           (Some [])).
  - repeat (apply List.Forall_cons; [reflexivity|]). apply List.Forall_nil.
  - reflexivity.
  - reflexivity.
Defined.

End WeightedSpec.

(** ** Smoothing and digit selection *)

Module SelectionSpec.
Import SmoothingSpec SelectorSpec UtilsSpec.

(** X17. On a non-empty mapping, [bayesian_smoothing] raises
    [ZeroDivisionError] exactly when [total_count + n_digits * alpha] is
    zero; otherwise it returns probabilities for the same digits in the
    same order. *)
Theorem bayesian_smoothing_zero_division (digit_counts : dict Q) (alpha : Q) :
  digit_counts ≠ [] →
  NoDup (keys digit_counts) →
  if Qeq_bool (sum (values digit_counts)
               + inject_Z (Z.of_nat (length digit_counts)) * alpha) 0
  then bayesian_smoothing digit_counts alpha = Raise ZeroDivisionError
  else ∃ probabilities,
         bayesian_smoothing digit_counts alpha = Ok probabilities ∧
         keys probabilities = keys digit_counts.
Proof.
  intros Hne Hnd.
  destruct (Qeq_bool _ 0) eqn:E.
  - unfold bayesian_smoothing. destruct digit_counts as [|[k c] items]; [done|].
    cbn [smoothing_loop]. unfold div. by rewrite E.
  - eexists. split.
    + apply bayesian_smoothing_ok; [done|].
      intros H. apply Qeq_bool_iff in H. congruence.
    + apply keys_smoothed.
Qed.

Lemma bayesian_smoothing_zero_division_witness :
  if Qeq_bool (sum (values (count_digits []))
               + inject_Z (Z.of_nat (length (count_digits []))) * 0) 0
  then bayesian_smoothing (count_digits []) 0 = Raise ZeroDivisionError
  else ∃ probabilities,
         bayesian_smoothing (count_digits []) 0 = Ok probabilities ∧
         keys probabilities = keys (count_digits []).
Proof.
  apply (bayesian_smoothing_zero_division (count_digits []) 0).
  - discriminate.
  - apply NoDup_DIGITS.
Defined.



Lemma dict_get_elem_of {V} (d : string) (v : V) (items : dict V) :
  NoDup (keys items) → dict_get d items = Some v ↔ (d, v) ∈ items.
Proof.
  induction items as [|[k c] items IH]; simpl; intros Hnd.
  - split; [done | intros H; by apply elem_of_nil in H].
  - apply NoDup_cons in Hnd as [Hk Hnd]. rewrite elem_of_cons.
    destruct (String.eqb d k) eqn:E.
    + apply String.eqb_eq in E. subst k. split.
      * intros [= ->]. by left.
      * intros [[= ->]|H]; [done|]. exfalso. apply Hk.
        unfold keys. apply list_elem_of_fmap. by exists (d, v).
    + apply String.eqb_neq in E. rewrite (IH Hnd). split; [by right|].
      intros [[= -> ->]|H]; done.
Qed.

Lemma Qle_bool_trans (a b c : Q) :
  Qle_bool a b = true → Qle_bool b c = true → Qle_bool a c = true.
Proof. rewrite !Qle_bool_iff. apply Qle_trans. Qed.

Lemma Qle_bool_total (a b : Q) : Qle_bool a b = true ∨ Qle_bool b a = true.
Proof. rewrite !Qle_bool_iff. destruct (Qlt_le_dec a b); [left; lra | by right]. Qed.

(** The sorted list of a selection by probability. *)
Lemma by_probability_sorted (probabilities : dict Q) :
  StronglySorted (λ x y, Qle_bool y.2 x.2 = true)
                 (sorted (λ x y, Qle_bool y.2 x.2) probabilities).
Proof.
  apply Sorted_StronglySorted.
  - intros x y z H1 H2. by eapply Qle_bool_trans.
  - apply (sorted_Sorted (λ x y : string * Q, Qle_bool y.2 x.2)).
    intros x y. apply Qle_bool_total.
Qed.

(** X19. [select_digits_by_probability] with [top_k >= 0] returns
    [top_k] distinct digits of the mapping, or all of them if there are
    fewer, none of which has a smaller probability than a digit left out. *)
Theorem select_digits_by_probability_top (probabilities : dict Q) (top_k : Z) :
  NoDup (keys probabilities) →
  0 ≤ top_k →
  length (select_digits_by_probability probabilities top_k)
    = Nat.min (Z.to_nat top_k) (length probabilities) ∧
  NoDup (select_digits_by_probability probabilities top_k) ∧
  (∀ d, d ∈ select_digits_by_probability probabilities top_k → d ∈ keys probabilities) ∧
  (∀ d d' p p',
     d ∈ select_digits_by_probability probabilities top_k →
     d' ∉ select_digits_by_probability probabilities top_k →
     dict_get d probabilities = Some p → dict_get d' probabilities = Some p' →
     (p' <= p)%Q).
Proof.
  intros Hnd Hk. unfold select_digits_by_probability, slice_to.
  rewrite (proj2 (Z.leb_le 0 top_k) Hk).
  set (L := sorted (λ x y, Qle_bool y.2 x.2) probabilities).
  assert (HL : L ≡ₚ probabilities) by apply sorted_Permutation.
  assert (HLk : NoDup (L.*1)).
  { rewrite HL. exact Hnd. }
  assert (Hsub : take (Z.to_nat top_k) L ⊆ probabilities).
  { intros x Hx. rewrite <- HL. by apply (subseteq_take (Z.to_nat top_k)). }
  split_and!.
  - rewrite length_map, length_take. by rewrite HL.
  - change (map fst (take (Z.to_nat top_k) L)) with ((take (Z.to_nat top_k) L).*1).
    rewrite fmap_take. eapply sublist_NoDup; [exact HLk | apply sublist_take].
  - intros d Hd. apply list_elem_of_fmap in Hd as (x & -> & Hx).
    unfold keys. apply list_elem_of_fmap. exists x. split; [done|]. by apply Hsub.
  - intros d d' p p' Hd Hd' Hp Hp'.
    apply (dict_get_elem_of _ _ _ Hnd) in Hp, Hp'.
    apply list_elem_of_fmap in Hd as ([d0 p0] & Hd0 & Hx). simpl in Hd0. subst d0.
    assert (p0 = p) as ->.
    { apply Hsub, (dict_get_elem_of _ _ _ Hnd) in Hx.
      apply (dict_get_elem_of _ _ _ Hnd) in Hp. congruence. }
    assert (Hdrop : (d', p') ∈ drop (Z.to_nat top_k) L).
    { rewrite <- HL, <- (take_drop (Z.to_nat top_k) L), elem_of_app in Hp'.
      destruct Hp' as [H|H]; [|done].
      exfalso. apply Hd'. apply list_elem_of_fmap. by exists (d', p'). }
    pose proof (by_probability_sorted probabilities) as Hs. fold L in Hs.
    rewrite <- (take_drop (Z.to_nat top_k) L) in Hs.
    pose proof (StronglySorted_app_1_elem_of _ _ _ _ _ Hs Hx Hdrop) as Hle.
    simpl in Hle. by apply Qle_bool_iff in Hle.
Qed.

Lemma select_digits_by_probability_top_witness :
  length (select_digits_by_probability (count_digits ["1"; "1"; "3"]) 3)
    = Nat.min (Z.to_nat 3) (length (count_digits ["1"; "1"; "3"])) ∧
  NoDup (select_digits_by_probability (count_digits ["1"; "1"; "3"]) 3) ∧
  (∀ d, d ∈ select_digits_by_probability (count_digits ["1"; "1"; "3"]) 3 →
        d ∈ keys (count_digits ["1"; "1"; "3"])) ∧
  (∀ d d' p p',
     d ∈ select_digits_by_probability (count_digits ["1"; "1"; "3"]) 3 →
     d' ∉ select_digits_by_probability (count_digits ["1"; "1"; "3"]) 3 →
     dict_get d (count_digits ["1"; "1"; "3"]) = Some p →
     dict_get d' (count_digits ["1"; "1"; "3"]) = Some p' →
     (p' <= p)%Q).
Proof.
  apply (select_digits_by_probability_top (count_digits ["1"; "1"; "3"]) 3).
  - apply NoDup_DIGITS.
  - lia.
Defined.

(** The minimum [select_digits_lowest_occurrence] computes is a value of
    the mapping below all the others. *)
Lemma min_fold_spec (vs : list Q) (v : Q) :
  fold_left (λ m x, if Qle_bool m x then m else x) vs v ∈ v :: vs ∧
  ∀ x, x ∈ v :: vs → (fold_left (λ m x, if Qle_bool m x then m else x) vs v <= x)%Q.
Proof.
  revert v. induction vs as [|a vs IH]; intros v; simpl.
  - split; [left|]. intros x Hx. apply list_elem_of_singleton in Hx. subst. lra.
  - destruct (IH (if Qle_bool v a then v else a)) as [Hin Hle]. split.
    + apply elem_of_cons in Hin as [Hin|Hin]; [|by right; right].
      rewrite Hin. destruct (Qle_bool v a); [left | right; left].
    + intros x Hx.
      assert (Hm : (fold_left (λ m x, if Qle_bool m x then m else x) vs
                      (if Qle_bool v a then v else a)
                    <= (if Qle_bool v a then v else a))%Q) by (apply Hle; left).
      destruct (Qle_bool v a) eqn:E.
      * apply Qle_bool_iff in E.
        apply elem_of_cons in Hx as [->|Hx]; [done|].
        apply elem_of_cons in Hx as [->|Hx]; [lra|]. apply Hle. by right.
      * assert (a < v)%Q.
        { apply Qnot_le_lt. intros H. apply Qle_bool_iff in H. congruence. }
        apply elem_of_cons in Hx as [->|Hx]; [lra|].
        apply elem_of_cons in Hx as [->|Hx]; [done|]. apply Hle. by right.
Qed.

Lemma elem_of_values {V} (v : V) (items : dict V) :
  v ∈ values items ↔ ∃ d, (d, v) ∈ items.
Proof.
  unfold values. rewrite list_elem_of_fmap. split.
  - intros ([d v'] & -> & H). by exists d.
  - intros (d & H). by exists (d, v).
Qed.

Lemma lowest_occurrence_members (digit_counts : dict Q) :
  digit_counts ≠ [] →
  select_digits_lowest_occurrence digit_counts ≠ [] ∧
  ∀ d, d ∈ select_digits_lowest_occurrence digit_counts ↔
       ∃ c, (d, c) ∈ digit_counts ∧ ∀ c', c' ∈ values digit_counts → (c <= c')%Q.
Proof.
  intros Hne. unfold select_digits_lowest_occurrence.
  destruct (values digit_counts) as [|v vs] eqn:Ev.
  { destruct digit_counts; [done | discriminate]. }
  destruct (min_fold_spec vs v) as [Hin Hle].
  set (m := fold_left (λ m x, if Qle_bool m x then m else x) vs v) in *.
  assert (Hin' : m ∈ values digit_counts) by (by rewrite Ev).
  assert (Hmem : ∀ d, d ∈ sorted_str
                        (map fst (List.filter (λ item, Qeq_bool item.2 m) digit_counts))
                      ↔ ∃ c, (d, c) ∈ digit_counts ∧ (c == m)%Q).
  { intros d. rewrite elem_of_sorted_str, list_elem_of_fmap. split.
    - intros ([d' c] & -> & H). apply list_elem_of_In, filter_In in H as [H1 H2].
      exists c. split; [by apply list_elem_of_In | by apply Qeq_bool_iff].
    - intros (c & H1 & H2). exists (d, c). split; [done|].
      apply list_elem_of_In, filter_In. split; [by apply list_elem_of_In|].
      by apply Qeq_bool_iff. }
  split.
  - apply elem_of_values in Hin' as (d & Hd).
    intros Hnil. assert (H : d ∈ @nil string); [|by apply elem_of_nil in H].
    rewrite <- Hnil. apply Hmem. by exists m.
  - intros d. rewrite Hmem. split.
    + intros (c & H1 & H2). exists c. split; [done|].
      intros c' Hc'. rewrite H2. by apply Hle.
    + intros (c & H1 & H2). exists c. split; [done|].
      apply Qle_antisym; [by apply H2|].
      apply Hle. rewrite <- Ev. apply elem_of_values. by exists d.
Qed.

(** X20. On a non-empty mapping, [select_digits_lowest_occurrence]
    selects at least one digit, and exactly the digits whose count is at
    most every count of the mapping. *)
Theorem select_digits_lowest_occurrence_spec (digit_counts : dict Q) :
  digit_counts ≠ [] →
  select_digits_lowest_occurrence digit_counts ≠ [] ∧
  ∀ d, d ∈ select_digits_lowest_occurrence digit_counts ↔
       ∃ c, (d, c) ∈ digit_counts ∧ ∀ c', c' ∈ values digit_counts → (c <= c')%Q.
Proof. apply lowest_occurrence_members. Qed.

Lemma select_digits_lowest_occurrence_spec_witness :
  select_digits_lowest_occurrence (count_digits ["1"; "1"; "3"]) ≠ [] ∧
  ∀ d, d ∈ select_digits_lowest_occurrence (count_digits ["1"; "1"; "3"]) ↔
       ∃ c, (d, c) ∈ count_digits ["1"; "1"; "3"] ∧
            ∀ c', c' ∈ values (count_digits ["1"; "1"; "3"]) → (c <= c')%Q.
Proof.
  apply (select_digits_lowest_occurrence_spec (count_digits ["1"; "1"; "3"])).
  discriminate.
Defined.

(** X21. With non-negative counts, as soon as a digit has count zero
    [select_digits_priority_zero] selects what
    [select_digits_lowest_occurrence] selects. *)
Theorem priority_zero_is_lowest (digit_counts : dict Q) :
  Forall (λ c, 0 <= c)%Q (values digit_counts) →
  (∃ c, c ∈ values digit_counts ∧ (c == 0)%Q) →
  select_digits_priority_zero digit_counts
  = Ok (select_digits_lowest_occurrence digit_counts).
Proof.
  intros Hpos (c0 & Hc0 & Ez).
  unfold select_digits_priority_zero, select_digits_lowest_occurrence.
  remember (values digit_counts) as vals eqn:Ev.
  destruct vals as [|v vs]; [by apply elem_of_nil in Hc0|].
  destruct (min_fold_spec vs v) as [Hin Hle].
  set (m := fold_left (λ m x, if Qle_bool m x then m else x) vs v) in *.
  assert (Hm : (m == 0)%Q).
  { rewrite Forall_forall in Hpos. apply Qle_antisym.
    - rewrite <- Ez. by apply Hle.
    - by apply Hpos. }
  assert (Hf : List.filter (λ item : string * Q, Qeq_bool item.2 0) digit_counts
               = List.filter (λ item : string * Q, Qeq_bool item.2 m) digit_counts).
  { apply filter_ext_elem. intros [d c] _. simpl. apply eq_true_iff_eq.
    rewrite !Qeq_bool_iff, Hm. done. }
  rewrite Hf.
  destruct (map fst (List.filter _ digit_counts)) as [|d l] eqn:El; [|done].
  exfalso. rewrite Ev in Hc0. apply elem_of_values in Hc0 as (d & Hd).
  assert (H : d ∈ map fst (List.filter (λ item : string * Q, Qeq_bool item.2 m)
                              digit_counts)).
  { apply list_elem_of_fmap. exists (d, c0). split; [done|].
    apply list_elem_of_In, filter_In. split; [by apply list_elem_of_In|].
    apply Qeq_bool_iff. simpl. by rewrite Ez, Hm. }
  rewrite El in H. by apply elem_of_nil in H.
Qed.

Lemma priority_zero_is_lowest_witness :
  select_digits_priority_zero (count_digits ["1"; "1"; "3"])
  = Ok (select_digits_lowest_occurrence (count_digits ["1"; "1"; "3"])).
Proof.
  apply (priority_zero_is_lowest (count_digits ["1"; "1"; "3"])).
  - repeat constructor; discriminate.
  - exists 0%Q. split; [left | reflexivity].
Defined.

End SelectionSpec.

(** ** The walk-forward backtest *)

Module BacktestInvariants.
Import Backtest SmoothingSpec ExtractionSpec UtilsSpec WeightedSpec SelectionSpec.

Lemma Ok_inj {A} (a b : A) : Ok a = Ok b → a = b.
Proof. by intros [= ->]. Qed.

Lemma fold_alter_lookup (f : Z → accuracy_cell → accuracy_cell) (l : list Z)
    (m : gmap Z accuracy_cell) (k : Z) :
  fold_left (λ acc j, alter (f j) j acc) l m !! k
  = Nat.iter (count_occ Z.eq_dec l k) (f k) <$> m !! k.
Proof.
  revert m. induction l as [|j l IH]; intros m.
  - simpl. by destruct (m !! k).
  - cbn [fold_left count_occ]. rewrite IH.
    destruct (Z.eq_dec j k) as [->|Hne].
    + rewrite lookup_alter_eq. destruct (m !! k); [|done]. simpl.
      by rewrite <- Nat.iter_succ_r.
    + by rewrite lookup_alter_ne.
Qed.

Lemma iter_record (h : bool) (n : nat) (c : accuracy_cell) :
  total (Nat.iter n (record_prediction h) c) = (total c + n)%nat ∧
  (correct c ≤ correct (Nat.iter n (record_prediction h) c) ≤ correct c + n)%nat ∧
  (h = true → correct (Nat.iter n (record_prediction h) c) = (correct c + n)%nat) ∧
  rate (Nat.iter n (record_prediction h) c) = rate c.
Proof.
  induction n as [|n (H1 & H2 & H3 & H4)]; simpl.
  - repeat split; lia.
  - rewrite H1, H4. repeat split; destruct h; lia.
Qed.

Lemma set_rate_idempotent (c : accuracy_cell) : set_rate (set_rate c) = set_rate c.
Proof.
  unfold set_rate. destruct (0 <? total c)%nat eqn:E; simpl; by rewrite E.
Qed.

Lemma iter_set_rate (n : nat) (c : accuracy_cell) :
  Nat.iter (S n) set_rate c = set_rate c.
Proof.
  induction n as [|n IH]; [done|].
  rewrite Nat.iter_succ, IH. apply set_rate_idempotent.
Qed.

Section Steps.
Variable chisquare : list Q → list Q → Q * Q.

Lemma backtest_step_inv (df : DataFrame) (unique_dates : list Z) (top_k_list : list Z)
    (weights : dict Q) (alpha : Q) (window i : nat) (wr wr' : window_result) :
  backtest_step chisquare df unique_dates top_k_list weights alpha window i wr = Ok wr' →
  wr' = wr ∨
  ∃ (h : Z → bool) (u : bool),
    wr' = WindowResult (window_size wr) (total_tests wr)
            (fold_left (λ acc k, alter (record_prediction (h k)) k acc)
                       top_k_list (accuracy wr))
            (if u
             then Chi2Tally (S (uniform (chi2_tests wr))) (non_uniform (chi2_tests wr))
                            (S (chi2_total (chi2_tests wr)))
             else Chi2Tally (uniform (chi2_tests wr)) (S (non_uniform (chi2_tests wr)))
                            (S (chi2_total (chi2_tests wr)))).
Proof.
  unfold backtest_step.
  destruct (unique_dates !! i) as [test_date|]; [|done].
  destruct (List.filter _ (List.filter _ df)) as [|first_row rest]; [intros [= <-]; by left|].
  destruct (getitem0 _) as [c|e]; [|done]. cbn [bind].
  destruct (negb (isdigit c)); [intros [= <-]; by left|].
  destruct (analyze_first_digit_weighted _ _) as [wc|e]; [|done]. cbn [bind].
  destruct (bayesian_smoothing wc alpha) as [probs|e]; [|done]. cbn [bind].
  intros H. apply Ok_inj in H. subst wr'. right.
  exists (λ k, str_in (chr c) (select_digits_by_probability probs k)),
         (is_uniform (chi_square_test_uniform chisquare wc)).
  reflexivity.
Qed.

Lemma backtest_step_invariant (df : DataFrame) (unique_dates : list Z)
    (top_k_list : list Z) (weights : dict Q) (alpha : Q) (window i n : nat)
    (wr wr' : window_result) :
  backtest_step chisquare df unique_dates top_k_list weights alpha window i wr = Ok wr' →
  window_invariant top_k_list window n wr →
  window_invariant top_k_list window (S n) wr'.
Proof.
  intros Hstep (H1 & H2 & H3 & H4 & H5).
  apply backtest_step_inv in Hstep as [->|(h & u & ->)].
  - split_and!; [done | done | done | lia | done].
  - split_and!; simpl; [done | done | destruct u; simpl; lia | destruct u; simpl; lia |].
    intros k cell. rewrite fold_alter_lookup.
    destruct (accuracy wr !! k) as [c0|] eqn:E; [|done]. simpl. intros [= <-].
    destruct (H5 k c0 E) as (Hk & Hc & Ht & Hr).
    destruct (iter_record (h k) (count_occ Z.eq_dec top_k_list k) c0)
      as (I1 & I2 & _ & I4).
    split_and!; [done | lia | | congruence].
    rewrite I1, Ht. destruct u; simpl; lia.
Qed.

Lemma backtest_loop_invariant (df : DataFrame) (unique_dates : list Z)
    (top_k_list : list Z) (weights : dict Q) (alpha : Q) (window : nat)
    (indices : list nat) (n : nat) (wr wr' : window_result) :
  backtest_loop (backtest_step chisquare df unique_dates top_k_list weights alpha window)
                indices wr = Ok wr' →
  window_invariant top_k_list window n wr →
  window_invariant top_k_list window (n + length indices) wr'.
Proof.
  revert n wr. induction indices as [|i indices IH]; intros n wr; simpl.
  - intros [= <-]. by rewrite Nat.add_0_r.
  - destruct (backtest_step _ _ _ _ _ _ _ i wr) as [wr1|e] eqn:E; [|done].
    intros Hloop Hinv. rewrite <- Nat.add_succ_comm.
    eapply IH; [done|]. by eapply backtest_step_invariant.
Qed.

Lemma initial_invariant (top_k_list : list Z) (window : nat) :
  window_invariant top_k_list window 0
    (WindowResult window 0
       (list_to_map (map (λ k, (k, AccuracyCell 0 0 None)) top_k_list))
       (Chi2Tally 0 0 0)).
Proof.
  split_and!; simpl; [done | done | done | done |].
  intros k cell H. apply elem_of_list_to_map_2, list_elem_of_fmap in H as (k' & [= -> ->] & Hk).
  split_and!; simpl; [done | lia | lia | done].
Qed.

Lemma backtest_windows_lookup (run : nat → result window_result)
    (window_sizes : list nat) (results r : gmap nat window_result)
    (window : nat) (wr : window_result) :
  backtest_windows run window_sizes results = Ok r →
  r !! window = Some wr →
  (window ∈ window_sizes ∧ run window = Ok wr) ∨ results !! window = Some wr.
Proof.
  revert results. induction window_sizes as [|w ws IH]; intros results; simpl.
  - intros [= <-] H. by right.
  - destruct (run w) as [wr0|e] eqn:E; [|done]. intros Hr Hl.
    destruct (IH _ Hr Hl) as [[H1 H2]|H].
    + left. split; [by right | done].
    + destruct (decide (w = window)) as [->|Hne].
      * rewrite lookup_insert_eq in H. injection H as <-. left. split; [left | done].
      * rewrite lookup_insert_ne in H by done. by right.
Qed.

(** X23. The results of a backtest that ends without error have entries
    for window sizes only; an entry carries its window size, a
    [total_tests] left at 0, a chi-square tally whose two counts add up to
    its total, itself at most the number of draw dates after the first
    [window]; and for each [top_k] of its accuracy table (all from
    [top_k_list]) as many predictions as tallied tests (times the number of
    occurrences of [top_k] in [top_k_list]), no more hits than predictions,
    and [correct / total] as rate when there was a prediction, none
    otherwise. *)
Theorem backtest_results_shape
    (df : DataFrame) (window_sizes : list nat) (top_k_list : list Z)
    (weights : option (dict Q)) (alpha : Q) (r : gmap nat window_result)
    (window : nat) (wr : window_result) :
  backtest_digit_prediction chisquare df window_sizes top_k_list weights alpha = Ok r →
  r !! window = Some wr →
  window ∈ window_sizes ∧
  window_size wr = window ∧
  total_tests wr = 0%nat ∧
  (uniform (chi2_tests wr) + non_uniform (chi2_tests wr))%nat
    = chi2_total (chi2_tests wr) ∧
  (chi2_total (chi2_tests wr) ≤ size (draw_dates df) - window)%nat ∧
  ∀ k cell, accuracy wr !! k = Some cell →
    k ∈ top_k_list ∧
    (correct cell ≤ total cell)%nat ∧
    total cell = (chi2_total (chi2_tests wr) * count_occ Z.eq_dec top_k_list k)%nat ∧
    rate cell = if (0 <? total cell)%nat
                then Some (inject_Z (Z.of_nat (correct cell))
                           / inject_Z (Z.of_nat (total cell)))%Q
                else None.
Proof.
  unfold backtest_digit_prediction.
  destruct (max_of window_sizes) as [max_window|e]; [|done]. cbn [bind].
  destruct (_ <? _)%nat.
  { intros [= <-] H. by rewrite lookup_empty in H. }
  intros Hr Hl.
  destruct (backtest_windows_lookup _ _ _ _ _ _ Hr Hl) as [[Hin Hrun]|H].
  2:{ by rewrite lookup_empty in H. }
  split; [done|]. unfold backtest_window in Hrun.
  destruct (backtest_loop _ _ _) as [wr1|e] eqn:Eloop; [|done].
  cbn [bind] in Hrun. injection Hrun as <-.
  eapply backtest_loop_invariant in Eloop; [|apply initial_invariant].
  destruct Eloop as (H1 & H2 & H3 & H4 & H5).
  rewrite length_seq, BacktestSpec.length_unique_dates in H4. simpl in H4.
  split_and!; simpl; [done | done | done | done |].
  intros k cell. rewrite fold_alter_lookup.
  destruct (accuracy wr1 !! k) as [c0|] eqn:E; [|done]. simpl. intros [= <-].
  destruct (H5 k c0 E) as (Hk & Hc & Ht & Hrate).
  assert (Hpos : (0 < count_occ Z.eq_dec top_k_list k)%nat).
  { apply count_occ_In. by apply list_elem_of_In. }
  destruct (count_occ Z.eq_dec top_k_list k) as [|m] eqn:Em; [lia|].
  rewrite iter_set_rate. unfold set_rate.
  destruct (0 <? total c0)%nat eqn:E0; simpl.
  - rewrite E0. split_and!; [done | done | lia | done].
  - rewrite E0. split_and!; [done | done | lia | done].
Qed.
End Steps.

Lemma backtest_results_shape_witness :
  (2%nat ∈ [2%nat]) ∧
  Backtest.window_size history_window = 2%nat ∧
  Backtest.total_tests history_window = 0%nat ∧
  (Backtest.uniform (Backtest.chi2_tests history_window)
   + Backtest.non_uniform (Backtest.chi2_tests history_window))%nat
    = Backtest.chi2_total (Backtest.chi2_tests history_window) ∧
  (Backtest.chi2_total (Backtest.chi2_tests history_window)
   ≤ size (draw_dates history) - 2)%nat ∧
  ∀ k cell, Backtest.accuracy history_window !! k = Some cell →
    k ∈ [1; 3; 10] ∧
    (Backtest.correct cell ≤ Backtest.total cell)%nat ∧
    Backtest.total cell
      = (Backtest.chi2_total (Backtest.chi2_tests history_window)
         * count_occ Z.eq_dec [1; 3; 10]%Z k)%nat ∧
    Backtest.rate cell
      = if (0 <? Backtest.total cell)%nat
        then Some (inject_Z (Z.of_nat (Backtest.correct cell))
                   / inject_Z (Z.of_nat (Backtest.total cell)))%Q
        else None.
Proof.
  apply (backtest_results_shape flat_chisquare history [2%nat] [1; 3; 10] None 1
           history_results 2%nat history_window).
  - vm_compute. reflexivity.
  - vm_compute. reflexivity.
Defined.

Lemma digit_led_not_odd (s : string) : digit_led s → odd_digit s = false.
Proof.
  intros (c & t & Hs & Hc). unfold odd_digit. rewrite Hs, Hc.
  by destruct (isdigit c).
Qed.

Lemma existsb_odd_clean (df : DataFrame) :
  Forall (λ r, digit_led (Prize_Number r)) df →
  existsb (λ r, odd_digit (Prize_Number r)) df = false.
Proof.
  induction 1 as [|r df Hr Hdf IH]; [done|].
  simpl. by rewrite digit_led_not_odd, IH.
Qed.

Lemma row_weight_nonneg (weights : dict Q) (r : row) :
  Forall (λ v, 0 <= v)%Q (values weights) → (0 <= row_weight weights r)%Q.
Proof.
  intros H. unfold row_weight.
  destruct (dict_get (Prize_Type r) weights) as [v|] eqn:E; simpl; [|lra].
  rewrite Forall_forall in H. apply H.
  clear H. induction weights as [|[k v'] weights IH]; simpl in *; [done|].
  destruct (String.eqb _ k); [injection E as ->; left | right; by apply IH].
Qed.

Lemma sum_weights_nonneg (weights : dict Q) (rows : DataFrame) :
  Forall (λ v, 0 <= v)%Q (values weights) →
  (0 <= sum (row_weight weights <$> rows))%Q.
Proof.
  intros H. apply sum_nonneg, Forall_fmap, Forall_forall.
  intros r _. by apply row_weight_nonneg.
Qed.

(** The weighted counts of a frame whose prize strings all start with a
    digit "0".."9", under non-negative weights. *)
Lemma weighted_counts_clean (df : DataFrame) (weights : dict Q) :
  Forall (λ r, digit_led (Prize_Number r)) df →
  Forall (λ v, 0 <= v)%Q (values weights) →
  ∃ wc, analyze_first_digit_weighted df (Some weights) = Ok wc ∧
        keys wc = DIGITS ∧ Forall (λ c, 0 <= c)%Q (values wc).
Proof.
  intros Hclean Hw. unfold analyze_first_digit_weighted. simpl default.
  pose proof (weighted_loop_spec weights df (map (λ d, (d, 0%Q)) DIGITS) eq_refl) as H.
  rewrite existsb_odd_clean in H by done.
  destruct H as (wc & H1 & H2 & H3). exists wc. split; [done|]. split; [done|].
  apply Forall_forall. intros v Hv.
  apply elem_of_values in Hv as (d & Hd).
  assert (Hnd : NoDup (keys wc)) by (rewrite H2; apply NoDup_DIGITS).
  assert (Hk : d ∈ DIGITS).
  { rewrite <- H2. unfold keys. apply list_elem_of_fmap. by exists (d, v). }
  assert (∃ c, d = chr c ∧ is_decimal c = true) as (c & -> & Hdec).
  { unfold DIGITS in Hk.
    repeat (apply elem_of_cons in Hk as [->|Hk];
            [eexists; split; [reflexivity | reflexivity]|]).
    by apply elem_of_nil in Hk. }
  destruct (H3 c 0%Q Hdec (zero_counts_get c Hdec)) as (q & Hq & Eq).
  apply (dict_get_elem_of _ _ _ Hnd) in Hd. rewrite Hd in Hq. injection Hq as ->.
  rewrite Eq. pose proof (sum_weights_nonneg weights (rows_leading c df) Hw). lra.
Qed.

(** Asking for at least as many digits as there are selects them all. *)
Lemma select_all_digits (probabilities : dict Q) (top_k : Z) (d : string) :
  Z.of_nat (length probabilities) ≤ top_k →
  d ∈ keys probabilities →
  d ∈ select_digits_by_probability probabilities top_k.
Proof.
  intros Hk Hd. unfold select_digits_by_probability, slice_to.
  rewrite (proj2 (Z.leb_le 0 top_k)) by lia.
  rewrite take_ge by (rewrite length_sorted; lia).
  change (map fst ?l) with (l.*1).
  by rewrite (sorted_Permutation (λ x y : string * Q, Qle_bool y.2 x.2) probabilities).
Qed.

Section Clean.
Variable chisquare : list Q → list Q → Q * Q.

Lemma backtest_step_clean (df : DataFrame) (unique_dates : list Z) (top_k_list : list Z)
    (weights : dict Q) (alpha : Q) (window i : nat) (wr : window_result) :
  Forall (λ r, digit_led (Prize_Number r)) df →
  Forall (λ v, 0 <= v)%Q (values weights) →
  (0 < alpha)%Q →
  (i < length unique_dates)%nat →
  ∃ wr', backtest_step chisquare df unique_dates top_k_list weights alpha window i wr
           = Ok wr' ∧
    (wr' = wr ∨
     ∃ (h : Z → bool) (u : bool),
       (∀ k, 10 ≤ k → h k = true) ∧
       wr' = WindowResult (window_size wr) (total_tests wr)
               (fold_left (λ acc k, alter (record_prediction (h k)) k acc)
                          top_k_list (accuracy wr))
               (if u
                then Chi2Tally (S (uniform (chi2_tests wr))) (non_uniform (chi2_tests wr))
                               (S (chi2_total (chi2_tests wr)))
                else Chi2Tally (uniform (chi2_tests wr)) (S (non_uniform (chi2_tests wr)))
                               (S (chi2_total (chi2_tests wr))))).
Proof.
  intros Hclean Hw Ha Hi. unfold backtest_step.
  destruct (lookup_lt_is_Some_2 unique_dates i Hi) as [test_date ->].
  pose proof (filter_Forall _ (λ r, String.eqb (Prize_Type r) FD_FIRST_PRIZE_CLASS) _
                (filter_Forall _ (λ r, Date r =? test_date) _ Hclean)) as Hfp.
  destruct (List.filter _ (List.filter _ df)) as [|first_row rest]; [by exists wr; split; [|left]|].
  apply Forall_cons in Hfp as [(c & t & Hs & Hc) _].
  rewrite Hs. cbn [getitem0 bind]. rewrite (is_decimal_isdigit c Hc). cbn [negb].
  destruct (weighted_counts_clean
              (List.filter (λ r, existsb (Z.eqb (Date r))
                                   (take window (drop (i - window) unique_dates))) df)
              weights (filter_Forall _ _ _ Hclean) Hw) as (wc & Hwc & Hkeys & Hpos).
  rewrite Hwc. cbn [bind].
  assert (Hlen : length wc = 10%nat).
  { rewrite <- length_keys, Hkeys. reflexivity. }
  pose proof (denominator_positive _ _ Hpos Ha Hlen) as Hden.
  rewrite bayesian_smoothing_ok;
    [|rewrite Hkeys; apply NoDup_DIGITS | lra].
  cbn [bind]. eexists. split; [reflexivity|]. right.
  eexists (λ k, str_in (chr c) (select_digits_by_probability _ k)), _.
  split; [|reflexivity].
  intros k Hk. apply FilterSpec.str_in_spec, select_all_digits.
  - rewrite length_map, Hlen. lia.
  - rewrite keys_smoothed, Hkeys. by apply decimal_in_DIGITS.
Qed.

Lemma bayesian_smoothing_inv (digit_counts probabilities : dict Q) (alpha : Q) :
  NoDup (keys digit_counts) →
  digit_counts ≠ [] →
  bayesian_smoothing digit_counts alpha = Ok probabilities →
  keys probabilities = keys digit_counts.
Proof.
  intros Hnd Hne.
  destruct (Qeq_bool (sum (values digit_counts)
                      + inject_Z (Z.of_nat (length digit_counts)) * alpha) 0) eqn:E.
  - destruct digit_counts as [|[k c] rest]; [done|].
    unfold bayesian_smoothing. cbn [smoothing_loop]. unfold div. by rewrite E.
  - rewrite bayesian_smoothing_ok; [|done|].
    + intros [= <-]. apply keys_smoothed.
    + intros H. apply Qeq_bool_iff in H. congruence.
Qed.

Lemma backtest_step_hits (df : DataFrame) (unique_dates : list Z) (top_k_list : list Z)
    (weights : dict Q) (alpha : Q) (window i : nat) (wr wr' : window_result) :
  Forall (λ r, digit_led (Prize_Number r)) df →
  backtest_step chisquare df unique_dates top_k_list weights alpha window i wr = Ok wr' →
  wr' = wr ∨
  ∃ (h : Z → bool),
    (∀ k, 10 ≤ k → h k = true) ∧
    accuracy wr' = fold_left (λ acc k, alter (record_prediction (h k)) k acc)
                             top_k_list (accuracy wr).
Proof.
  intros Hclean. unfold backtest_step.
  destruct (unique_dates !! i) as [test_date|]; [|done].
  pose proof (filter_Forall _ (λ r, String.eqb (Prize_Type r) FD_FIRST_PRIZE_CLASS) _
                (filter_Forall _ (λ r, Date r =? test_date) _ Hclean)) as Hfp.
  destruct (List.filter _ (List.filter _ df)) as [|first_row rest]; [intros [= <-]; by left|].
  apply Forall_cons in Hfp as [(c & t & Hs & Hc) _].
  rewrite Hs. cbn [getitem0 bind]. rewrite (is_decimal_isdigit c Hc). cbn [negb].
  set (train_df := List.filter _ df).
  pose proof (weighted_loop_spec weights train_df (map (λ d, (d, 0%Q)) DIGITS) eq_refl) as H.
  rewrite existsb_odd_clean in H by (by apply filter_Forall).
  destruct H as (wc & Hwc & Hkeys & _).
  unfold analyze_first_digit_weighted. simpl default. rewrite Hwc. cbn [bind].
  destruct (bayesian_smoothing wc alpha) as [probs|e] eqn:Eprobs; [|done]. cbn [bind].
  intros H. apply Ok_inj in H. subst wr'. right.
  exists (λ k, str_in (chr c) (select_digits_by_probability probs k)).
  split; [|reflexivity].
  apply bayesian_smoothing_inv in Eprobs.
  2:{ rewrite Hkeys. apply NoDup_DIGITS. }
  2:{ intros ->. discriminate Hkeys. }
  intros k Hk. apply FilterSpec.str_in_spec, select_all_digits.
  - rewrite <- length_keys, Eprobs, Hkeys. simpl. lia.
  - rewrite Eprobs, Hkeys. by apply decimal_in_DIGITS.
Qed.

Lemma backtest_loop_hits (df : DataFrame) (unique_dates : list Z)
    (top_k_list : list Z) (weights : dict Q) (alpha : Q) (window : nat)
    (indices : list nat) (wr wr' : window_result) :
  Forall (λ r, digit_led (Prize_Number r)) df →
  backtest_loop (backtest_step chisquare df unique_dates top_k_list weights alpha window)
                indices wr = Ok wr' →
  always_hit wr → always_hit wr'.
Proof.
  intros Hclean. revert wr. induction indices as [|i indices IH]; intros wr; simpl.
  - by intros [= <-].
  - destruct (backtest_step _ _ _ _ _ _ _ i wr) as [wr1|e] eqn:E; [|done].
    intros Hloop Hinv. apply (IH wr1 Hloop).
    apply backtest_step_hits in E as [->|(h & Hh & Hacc)]; [done | | done].
    intros k cell. rewrite Hacc, fold_alter_lookup.
    destruct (accuracy wr !! k) as [c0|] eqn:E0; [|done]. simpl. intros [= <-] Hk.
    destruct (iter_record (h k) (count_occ Z.eq_dec top_k_list k) c0)
      as (I1 & _ & I3 & _).
    rewrite I1, (I3 (Hh k Hk)), (Hinv k c0 E0 Hk). done.
Qed.

Lemma backtest_loop_returns (df : DataFrame) (unique_dates : list Z)
    (top_k_list : list Z) (weights : dict Q) (alpha : Q) (window : nat)
    (indices : list nat) (wr : window_result) :
  Forall (λ r, digit_led (Prize_Number r)) df →
  Forall (λ v, 0 <= v)%Q (values weights) →
  (0 < alpha)%Q →
  Forall (λ i, (i < length unique_dates)%nat) indices →
  ∃ wr', backtest_loop
           (backtest_step chisquare df unique_dates top_k_list weights alpha window)
           indices wr = Ok wr'.
Proof.
  intros Hclean Hw Ha Hi. revert wr.
  induction Hi as [|i indices Hi _ IH]; intros wr; simpl; [by eexists|].
  destruct (backtest_step_clean df unique_dates top_k_list weights alpha window i wr
              Hclean Hw Ha Hi) as (wr1 & -> & _).
  apply IH.
Qed.

Lemma backtest_windows_returns (run : nat → result window_result)
    (window_sizes : list nat) (results : gmap nat window_result) :
  (∀ window, ∃ wr, run window = Ok wr) →
  ∃ r, backtest_windows run window_sizes results = Ok r.
Proof.
  intros Hrun. revert results.
  induction window_sizes as [|w ws IH]; intros results; simpl; [by eexists|].
  destruct (Hrun w) as [wr ->]. apply IH.
Qed.

Lemma iter_set_rate_counts (n : nat) (c : accuracy_cell) :
  correct (Nat.iter n set_rate c) = correct c ∧ total (Nat.iter n set_rate c) = total c.
Proof.
  induction n as [|n [IH1 IH2]]; [done|].
  rewrite Nat.iter_succ. unfold set_rate at 1 3.
  by destruct (0 <? total _)%nat.
Qed.

(** X24. Asked for ten digits or more, the backtest counts a hit at every
    prediction: on a history whose prize strings all start, once stripped,
    with one of "0".."9", every accuracy cell of a [top_k >= 10] has as many
    hits as predictions. *)
Theorem backtest_top_ten_always_hits
    (df : DataFrame) (window_sizes : list nat) (top_k_list : list Z)
    (weights : option (dict Q)) (alpha : Q) (r : gmap nat window_result)
    (window : nat) (wr : window_result) (top_k : Z) (cell : accuracy_cell) :
  Forall (λ r, digit_led (Prize_Number r)) df →
  backtest_digit_prediction chisquare df window_sizes top_k_list weights alpha = Ok r →
  r !! window = Some wr →
  accuracy wr !! top_k = Some cell →
  10 ≤ top_k →
  correct cell = total cell.
Proof.
  intros Hclean. unfold backtest_digit_prediction.
  destruct (max_of window_sizes) as [max_window|e]; [|done]. cbn [bind].
  destruct (_ <? _)%nat.
  { intros [= <-] H. by rewrite lookup_empty in H. }
  intros Hr Hl.
  destruct (backtest_windows_lookup _ _ _ _ _ _ Hr Hl) as [[Hin Hrun]|H].
  2:{ by rewrite lookup_empty in H. }
  unfold backtest_window in Hrun.
  destruct (backtest_loop _ _ _) as [wr1|e] eqn:Eloop; [|done].
  cbn [bind] in Hrun. injection Hrun as <-.
  apply backtest_loop_hits in Eloop; [|done|].
  2:{ intros k c. simpl. intros H _.
      apply elem_of_list_to_map_2, list_elem_of_fmap in H as (k' & [= -> ->] & _). done. }
  simpl. rewrite fold_alter_lookup.
  destruct (accuracy wr1 !! top_k) as [c0|] eqn:E; [|done]. simpl. intros [= <-] Hk.
  destruct (iter_set_rate_counts (count_occ Z.eq_dec top_k_list top_k) c0) as [-> ->].
  by apply (Eloop top_k c0).
Qed.

(** X25. On a history whose prize strings all start, once stripped, with
    one of "0".."9", with non-negative prize weights and [alpha > 0], a
    backtest over at least one window size ends without raising, whatever
    the chi-square routine answers. *)
Theorem backtest_returns
    (df : DataFrame) (window_sizes : list nat) (top_k_list : list Z)
    (weights : option (dict Q)) (alpha : Q) :
  Forall (λ r, digit_led (Prize_Number r)) df →
  Forall (λ v, 0 <= v)%Q (values (default DEFAULT_PRIZE_WEIGHTS weights)) →
  (0 < alpha)%Q →
  window_sizes ≠ [] →
  ∃ r, backtest_digit_prediction chisquare df window_sizes top_k_list weights alpha = Ok r.
Proof.
  intros Hclean Hw Ha Hne. unfold backtest_digit_prediction.
  destruct window_sizes as [|w ws]; [done|]. cbn [max_of bind].
  destruct (_ <? _)%nat; [by eexists|].
  apply backtest_windows_returns. intros window. unfold backtest_window.
  edestruct (backtest_loop_returns df (unique_dates_of df) top_k_list
               (default DEFAULT_PRIZE_WEIGHTS weights) alpha window
               (seq window (length (unique_dates_of df) - window))) as [wr1 ->];
    [done | done | done | | by eexists].
  apply Forall_forall. intros i Hi. apply elem_of_seq in Hi. lia.
Qed.

End Clean.

Lemma history_digit_led : Forall (λ r, digit_led (Prize_Number r)) history.
Proof.
  unfold history.
  repeat (apply List.Forall_cons; [eexists _, _; split; reflexivity|]).
  apply List.Forall_nil.
Defined.

Lemma backtest_top_ten_always_hits_witness :
  Backtest.correct history_cell = Backtest.total history_cell.
Proof.
  apply (backtest_top_ten_always_hits flat_chisquare history [2%nat] [1; 3; 10] None 1
           history_results 2%nat history_window 10 history_cell).
  - exact history_digit_led.
  - vm_compute. reflexivity.
  - vm_compute. reflexivity.
  - vm_compute. reflexivity.
  - lia.
Defined.

Lemma backtest_returns_witness :
  ∃ r, Backtest.backtest_digit_prediction flat_chisquare history [2%nat] [1; 3; 10]
         None 1 = Ok r.
Proof.
  apply (backtest_returns flat_chisquare history [2%nat] [1; 3; 10] None 1).
  - exact history_digit_led.
  - repeat (apply List.Forall_cons; [discriminate|]). apply List.Forall_nil.
  - reflexivity.
  - discriminate.
Defined.

End BacktestInvariants.

(** ** From the selected digits to the kept numbers *)

Module PipelineSpec.
Import Filter FilterSpec GenerateSpec.

Lemma length_sorted_members (s t : gset string) :
  length (sorted_members s t) = size (s ∩ t).
Proof.
  unfold sorted_members, sorted_str. rewrite length_sorted.
  rewrite <- (size_list_to_set (C := gset string)).
  - f_equal. apply set_eq. intros x.
    rewrite elem_of_list_to_set, list_elem_of_In, filter_In, <- list_elem_of_In.
    rewrite elem_of_elements, bool_decide_eq_true, elem_of_intersection. done.
  - apply NoDup_ListNoDup, List.NoDup_filter, NoDup_ListNoDup, NoDup_elements.
Qed.

Lemma size_split (s t : gset string) : (size (s ∩ t) + size (s ∖ t))%nat = size s.
Proof.
  rewrite <- size_union.
  2:{ apply elem_of_disjoint. intros x H1 H2.
      apply elem_of_intersection in H1. apply elem_of_difference in H2. tauto. }
  f_equal.
  apply set_eq. intros x.
  rewrite elem_of_union, elem_of_intersection, elem_of_difference.
  destruct (decide (x ∈ t)); tauto.
Qed.

(** X26. The candidates generated from first digits among "0".."9" and
    passed through [filter_numbers_by_history] are all accounted for: the
    four lists returned hold together a thousand numbers for each distinct
    digit, and every kept number starts with one of the digits. *)
Theorem generated_candidates_accounted
    (first_digits : list string) (h6 h1 : DataFrame) :
  Forall (λ d, d ∈ DIGITS) first_digits →
  ∃ generated_numbers,
    generate_numbers_from_first_digits first_digits = Ok generated_numbers ∧
    (length (filtered_numbers
               (filter_numbers_by_history (elements generated_numbers) h6 h1))
     + length (appeared_in_6_months
                 (filter_numbers_by_history (elements generated_numbers) h6 h1))
     + length (appeared_in_top3_1year
                 (filter_numbers_by_history (elements generated_numbers) h6 h1))
     + length (appeared_multiple_1year
                 (filter_numbers_by_history (elements generated_numbers) h6 h1))
     = 1000 * size (list_to_set first_digits : gset string))%nat ∧
    ∀ num,
      num ∈ filtered_numbers
              (filter_numbers_by_history (elements generated_numbers) h6 h1) →
      ∃ c t, num = String c t ∧ chr c ∈ first_digits.
Proof.
  intros Hd.
  destruct (generate_digits first_digits Hd) as (g & Hg & Hmem).
  exists g. split; [done|]. split.
  - rewrite <- (generated_size first_digits g Hd Hmem).
    rewrite filter_result_unfold. cbn [filtered_numbers appeared_in_6_months
      appeared_in_top3_1year appeared_multiple_1year].
    rewrite !length_sorted_members. unfold sorted_str. rewrite length_sorted.
    rewrite list_to_set_elements_L.
    set (w6 := list_to_set (prize_numbers h6) : gset string).
    set (t3 := list_to_set (prize_numbers (isin_prize_types TOP_3_PRIZE_TYPES h1))
               : gset string).
    set (m1 := list_to_set (List.filter (λ n, (1 <? value_count n h1)%nat)
                              (prize_numbers h1)) : gset string).
    change (length (elements (g ∖ w6 ∖ t3 ∖ m1))) with (size (g ∖ w6 ∖ t3 ∖ m1)).
    pose proof (size_split g w6). pose proof (size_split (g ∖ w6) t3).
    pose proof (size_split (g ∖ w6 ∖ t3) m1). lia.
  - intros num Hnum.
    destruct (filter_membership (elements g) h6 h1 num) as (_ & _ & _ & Hkept).
    apply Hkept in Hnum as [Hnum _]. apply elem_of_elements, Hmem in Hnum.
    destruct Hnum as (c & Hc & Hnum). unfold numbers_with_first in Hnum.
    apply list_elem_of_fmap in Hnum as (t & -> & _). by exists c, t.
Qed.

Lemma generated_candidates_accounted_witness :
  ∃ generated_numbers,
    generate_numbers_from_first_digits ["0"; "4"] = Ok generated_numbers ∧
    (length (filtered_numbers
               (filter_numbers_by_history (elements generated_numbers)
                  stale_cache two_draws))
     + length (appeared_in_6_months
                 (filter_numbers_by_history (elements generated_numbers)
                    stale_cache two_draws))
     + length (appeared_in_top3_1year
                 (filter_numbers_by_history (elements generated_numbers)
                    stale_cache two_draws))
     + length (appeared_multiple_1year
                 (filter_numbers_by_history (elements generated_numbers)
                    stale_cache two_draws))
     = 1000 * size (list_to_set ["0"; "4"] : gset string))%nat ∧
    ∀ num,
      num ∈ filtered_numbers
              (filter_numbers_by_history (elements generated_numbers)
                 stale_cache two_draws) →
      ∃ c t, num = String c t ∧ chr c ∈ ["0"; "4"].
Proof.
  apply (generated_candidates_accounted ["0"; "4"] stale_cache two_draws).
  repeat (apply List.Forall_cons;
          [apply (bool_decide_unpack (_ ∈ DIGITS)); vm_compute; exact I|]).
  apply List.Forall_nil.
Defined.

End PipelineSpec.

(** ** analyzer.py in binary64: what rounding keeps and what it breaks *)

Module Binary64Spec.
Import PrimFloat SmoothingSpec SelectorSpec ExtractionSpec WeightedSpec.

Lemma float_zero_counts_get (c : ascii) :
  is_decimal c = true →
  dict_get (chr c) (map (λ d, (d, 0%float)) DIGITS) = Some 0%float.
Proof.
  intros Hc. pose proof (decimal_in_DIGITS c Hc) as Hin.
  repeat (apply elem_of_cons in Hin as [->|Hin]; [reflexivity|]).
  by apply elem_of_nil in Hin.
Qed.

(** The loop adds to the count of a digit the weights of the rows that
    start with it, one after the other in row order. *)
Lemma float_weighted_loop_spec (weights : dict float) (rows : DataFrame)
    (wc : dict float) :
  keys wc = DIGITS →
  if existsb (λ r, odd_digit (Prize_Number r)) rows
  then Binary64.weighted_loop weights rows wc = Raise KeyError
  else ∃ wc', Binary64.weighted_loop weights rows wc = Ok wc' ∧ keys wc' = DIGITS ∧
        ∀ c q, is_decimal c = true → dict_get (chr c) wc = Some q →
          dict_get (chr c) wc'
          = Some (fold_left add (float_row_weight weights <$> rows_leading c rows) q).
Proof.
  revert wc. induction rows as [|r rows IH]; intros wc Hkeys.
  - simpl. exists wc. split; [done|]. split; [done|]. by intros c q _ Hq.
  - cbn [existsb Binary64.weighted_loop]. unfold odd_digit at 1.
    assert (Hskip :
      (∀ c, is_decimal c = true → leading_char_is c (Prize_Number r) = false) →
      if existsb (λ r, odd_digit (Prize_Number r)) rows
      then Binary64.weighted_loop weights rows wc = Raise KeyError
      else ∃ wc', Binary64.weighted_loop weights rows wc = Ok wc' ∧ keys wc' = DIGITS ∧
            ∀ c q, is_decimal c = true → dict_get (chr c) wc = Some q →
              dict_get (chr c) wc'
              = Some (fold_left add
                        (float_row_weight weights <$> rows_leading c (r :: rows)) q)).
    { intros Hno. specialize (IH wc Hkeys).
      destruct (existsb _ rows); [done|].
      destruct IH as (wc' & H1 & H2 & H3). exists wc'. split; [done|]. split; [done|].
      intros c q Hc Hq. rewrite rows_leading_cons, (Hno c Hc). by apply H3. }
    destruct (strip (Prize_Number r)) as [|c0 t] eqn:Es.
    { cbn [orb]. apply Hskip. intros c _. unfold leading_char_is. by rewrite Es. }
    destruct (isdigit c0) eqn:Ed; cbn [andb orb].
    2:{ apply Hskip. intros c Hc. unfold leading_char_is. rewrite Es.
        destruct (Ascii.eqb c0 c) eqn:E; [|done].
        apply Ascii.eqb_eq in E. subst c0.
        apply is_decimal_isdigit in Hc. congruence. }
    destruct (is_decimal c0) eqn:Hc0; cbn [negb orb].
    + pose proof (decimal_in_DIGITS c0 Hc0) as Hin. rewrite <- Hkeys in Hin.
      destruct (dict_get_keys (chr c0) wc Hin) as (w0 & Hw0 & _).
      unfold dict_getitem. rewrite Hw0.
      specialize (IH (dict_set (chr c0) (w0 + float_row_weight weights r)%float wc)).
      rewrite (keys_dict_set _ _ _ _ Hw0) in IH. specialize (IH Hkeys).
      fold (float_row_weight weights r).
      destruct (existsb _ rows); [done|].
      destruct IH as (wc' & H1 & H2 & H3). exists wc'. split; [done|]. split; [done|].
      intros c q Hc Hq. rewrite rows_leading_cons. unfold leading_char_is at 1.
      rewrite Es.
      rewrite (H3 c (if Ascii.eqb c0 c then (w0 + float_row_weight weights r)%float
                     else q) Hc).
      2:{ rewrite dict_get_set, chr_inj, (Ascii.eqb_sym c c0).
          destruct (Ascii.eqb c0 c); done. }
      destruct (Ascii.eqb c0 c) eqn:E; [|done].
      apply Ascii.eqb_eq in E. subst c0. rewrite Hw0 in Hq. by injection Hq as ->.
    + assert (Hnone : dict_get (chr c0) wc = None).
      { apply dict_get_None_keys. rewrite Hkeys. intros H.
        apply DIGITS_decimal in H. congruence. }
      unfold dict_getitem. by rewrite Hnone.
Qed.

(** X15. [analyze_first_digit_weighted], computing in binary64, raises
    [KeyError] exactly when some stripped prize string starts with a
    character that [isdigit] accepts and that is not one of "0".."9";
    otherwise it returns a mapping over the ten digits in which the weighted
    count of a digit is what adding to 0.0, one after the other in row
    order, the weights of the rows whose stripped prize string starts with
    it gives (a row of a prize type without weight weighs 1.0). *)
Theorem analyze_first_digit_weighted_sums
    (df : DataFrame) (weights : option (dict float)) :
  if existsb (λ r, odd_digit (Prize_Number r)) df
  then Binary64.analyze_first_digit_weighted df weights = Raise KeyError
  else ∃ weighted_counts,
         Binary64.analyze_first_digit_weighted df weights = Ok weighted_counts ∧
         keys weighted_counts = DIGITS ∧
         ∀ c, is_decimal c = true →
           dict_get (chr c) weighted_counts
           = Some (fold_left add
                     (float_row_weight (default Binary64.DEFAULT_PRIZE_WEIGHTS weights)
                        <$> rows_leading c df)
                     0%float).
Proof.
  unfold Binary64.analyze_first_digit_weighted.
  pose proof (float_weighted_loop_spec (default Binary64.DEFAULT_PRIZE_WEIGHTS weights)
                df (map (λ d, (d, 0%float)) DIGITS) eq_refl) as H.
  destruct (existsb _ df); [done|].
  destruct H as (wc' & H1 & H2 & H3). exists wc'. split; [done|]. split; [done|].
  intros c Hc. exact (H3 c 0%float Hc (float_zero_counts_get c Hc)).
Qed.

(** The order of the rows matters to a weighted count: three rows of weight
    0.3 and one of weight 1.0 give two different counts. *)
Lemma weighted_count_depends_on_order :
  (∃ weighted_counts,
     Binary64.analyze_first_digit_weighted
       [Row 0 "7001" FD_STARTER_PRIZE_CLASS; Row 0 "7002" FD_STARTER_PRIZE_CLASS;
        Row 0 "7003" FD_STARTER_PRIZE_CLASS; Row 0 "7004" FD_FIRST_PRIZE_CLASS] None
     = Ok weighted_counts ∧
     dict_get "7" weighted_counts = Some 0x1.e666666666666p+0%float) ∧
  (∃ weighted_counts,
     Binary64.analyze_first_digit_weighted
       [Row 0 "7004" FD_FIRST_PRIZE_CLASS; Row 0 "7001" FD_STARTER_PRIZE_CLASS;
        Row 0 "7002" FD_STARTER_PRIZE_CLASS; Row 0 "7003" FD_STARTER_PRIZE_CLASS] None
     = Ok weighted_counts ∧
     dict_get "7" weighted_counts = Some 0x1.e666666666667p+0%float).
Proof. split; eexists; split; vm_compute; reflexivity. Qed.







(** C10 as stated fails in binary64.  For ten counts equal to
    1.9000000000000001, under either summation, the computed mean is
    1.8999999999999999: no count is at most the mean, and the lower-half
    branch returns five of the ten digits of minimum count. *)
Lemma mean_below_every_count :
  (∀ s, Binary64.div_int (Binary64.sum s (values (equal_counts above_one_point_nine))) 10
        = Ok 0x1.e666666666666p+0%float) ∧
  ltb 0x1.e666666666666p+0%float above_one_point_nine = true ∧
  Binary64.at_most 0x1.e666666666666p+0%float (equal_counts above_one_point_nine) = [] ∧
  (∀ s, Binary64.select_low_occurrence_digits s (equal_counts above_one_point_nine) None
        = Ok ["0"; "1"; "2"; "3"; "4"]).
Proof.
  split_and!.
  - intros []; vm_compute; reflexivity.
  - vm_compute. reflexivity.
  - vm_compute. reflexivity.
  - intros []; vm_compute; reflexivity.
Qed.

Lemma float_sum_nil (s : Binary64.summation) : eqb (Binary64.sum s []) 0 = true.
Proof. destruct s; vm_compute; reflexivity. Qed.

(** C10, amended.  With the threshold left to [None],
    [select_low_occurrence_digits] returns a non-empty list for every
    digit-count mapping: all ten digits when the total is 0; otherwise the
    sorted digits whose count is at most the computed mean, if there are
    any, and else the [max(1, n // 2)] digits the lower-half branch takes.
    Evaluated without rounding, some count is at most the mean and the
    lower-half branch is not taken. *)
Theorem select_low_occurrence_nonempty
    (s : Binary64.summation) (digit_counts : dict float) :
  (∃ selected,
     Binary64.select_low_occurrence_digits s digit_counts None = Ok selected ∧
     selected ≠ [] ∧
     if eqb (Binary64.sum s (values digit_counts)) 0 then selected = DIGITS
     else
       match Binary64.at_most
               (Binary64.sum s (values digit_counts)
                / Binary64.of_nat (length digit_counts))%float digit_counts with
       | [] => length selected = Nat.max 1 (length digit_counts / 2)
       | at_most_mean => selected = sorted_str at_most_mean
       end) ∧
  ∀ exact_counts : dict Q,
    (sum (values exact_counts) == 0)%Q
    ∨ ∃ avg_count,
        Py.div (sum (values exact_counts)) (inject_Z (Z.of_nat (length exact_counts)))
          = Ok avg_count ∧
        at_most avg_count exact_counts ≠ [] ∧
        select_low_occurrence_digits exact_counts None
          = Ok (sorted_str (at_most avg_count exact_counts)).
Proof.
  split; [|intros exact_counts; apply select_low_occurrence_default].
  unfold Binary64.select_low_occurrence_digits.
  destruct (eqb (Binary64.sum s (values digit_counts)) 0) eqn:E.
  { exists DIGITS. split; [done|]. split; [apply DIGITS_nonempty | done]. }
  destruct digit_counts as [|item digit_counts].
  { rewrite float_sum_nil in E. discriminate. }
  cbn [Binary64.div_int length bind].
  change (S (length digit_counts)) with (length (item :: digit_counts)).
  set (dc := item :: digit_counts).
  set (avg := (Binary64.sum s (values dc) / Binary64.of_nat (length dc))%float).
  eexists. split; [reflexivity|].
  unfold Binary64.select_with_threshold.
  destruct (Binary64.at_most avg dc) as [|d l] eqn:Ea.
  - assert (Hlen : length (sorted_str
                     (map fst (take (Nat.max 1 (length dc / 2))
                                 (sorted (λ x y, leb x.2 y.2) dc))))
                   = Nat.max 1 (length dc / 2)).
    { unfold sorted_str. rewrite length_sorted, length_map, length_take, length_sorted.
      assert (length dc / 2 ≤ length dc)%nat.
      { apply Nat.Div0.div_le_upper_bound. lia. }
      assert (1 ≤ length dc)%nat by (unfold dc; simpl; lia).
      lia. }
    split; [|done].
    intros Hnil. rewrite Hnil in Hlen. simpl in Hlen. lia.
  - split; [|done]. intros Hnil. by apply sorted_nil_inv in Hnil.
Qed.

End Binary64Spec.
